(** * ai-coding-assistant: the structural metrics engine and its callers

    A shallow embedding of the Python sources under [src/core] and
    [src/utils]: the cyclomatic-complexity walk of [analyzer.py], the
    declaration extractor of [documentor.py], the static checks of
    [optimizer.py], the score aggregation of [reviewer.py], the remote
    calls with their catch-and-default handlers, and the configuration and
    REST client of [utils].

    Conventions.
    - A Python call that can raise returns [result A]: [Ok a] for a normal
      return, [Raise e] for an exception that leaves the call.
    - JSON and YAML data, and the dictionaries the code builds by hand, are
      [value]s; a dictionary is an association list in insertion order.
    - Text is [string]: the UTF-8 encoding of the Python [str], one [ascii]
      for each byte.  Comparison, search, [count] and [split] give on the
      encodings what they give on the code points; [strip], iteration and
      [len] go by code point.
    - Numbers are modelled by their value: a Python int is a [Z], a Python
      float a [Q].  The floats of this program are integers and halves far
      below 2^52, for which binary64 arithmetic is exact.
    - What lies outside the repository (the environment, the file system,
      the Python parser, the JSON and YAML decoders, the HTTP exchange,
      [inspect.cleandoc], [round]) is a field of the record [World], which
      the functions that reach outside take as their first argument. *)

From Stdlib Require Import List String Ascii ZArith QArith Qround Lia Bool Arith Permutation.
Import ListNotations.
Open Scope string_scope.
Open Scope Z_scope.

Set Warnings "-register-all".

(** ** Exceptions and results *)

Inductive exn : Type :=
| SyntaxError
| AttributeError
| TypeError
| KeyError
| IndexError
| ValueError (msg : string)
| JSONDecodeError
| OSError
| ConnectionError
| Timeout
| HTTPError (status : Z).

Inductive result (A : Type) : Type :=
| Ok (a : A)
| Raise (e : exn).

Arguments Ok {A} a.
Arguments Raise {A} e.

Definition bind {A B : Type} (m : result A) (k : A -> result B) : result B :=
  match m with
  | Ok a => k a
  | Raise e => Raise e
  end.

Notation "x <- m ;; k" := (bind m (fun x => k))
  (at level 61, m at next level, right associativity).
Notation "m ;;; k" := (bind m (fun _ => k))
  (at level 61, right associativity).

(** [try: m except Exception: handler].  Every exception of [exn] derives
    from [Exception]. *)
Definition try_except {A : Type} (m : result A) (handler : exn -> result A) : result A :=
  match m with
  | Ok a => Ok a
  | Raise e => handler e
  end.

Definition is_SyntaxError (e : exn) : bool :=
  match e with SyntaxError => true | _ => false end.

(** [try: m except SyntaxError: handler]: any other exception passes. *)
Definition try_except_SyntaxError {A : Type} (m : result A) (handler : result A) : result A :=
  match m with
  | Ok a => Ok a
  | Raise e => if is_SyntaxError e then handler else Raise e
  end.

(** Monadic map and fold: a [for] loop whose body may raise. *)
Fixpoint mapM {A B : Type} (f : A -> result B) (l : list A) : result (list B) :=
  match l with
  | [] => Ok []
  | a :: l' => b <- f a ;; bs <- mapM f l' ;; Ok (b :: bs)
  end.

Fixpoint foldM {A S : Type} (f : S -> A -> result S) (s : S) (l : list A) : result S :=
  match l with
  | [] => Ok s
  | a :: l' => s' <- f s a ;; foldM f s' l'
  end.

(** ** Python values *)

Inductive value : Type :=
| VNone
| VBool (b : bool)
| VInt (z : Z)
| VFloat (q : Q)
| VStr (s : string)
| VList (l : list value)
| VDict (d : list (string * value)).

Definition dict : Type := list (string * value).

Fixpoint lookup (k : string) (d : dict) : option value :=
  match d with
  | [] => None
  | (k', v) :: d' => if String.eqb k k' then Some v else lookup k d'
  end.

(** [d.get(k, default)] on a dictionary. *)
Definition dict_get (d : dict) (k : string) (default : value) : value :=
  match lookup k d with
  | Some v => v
  | None => default
  end.

(** [x.get(k, default)]: only a dictionary has the method. *)
Definition get (x : value) (k : string) (default : value) : result value :=
  match x with
  | VDict d => Ok (dict_get d k default)
  | _ => Raise AttributeError
  end.

(** [d[k] = v]: replaces the binding in place or appends a new one. *)
Fixpoint dict_set (d : dict) (k : string) (v : value) : dict :=
  match d with
  | [] => [(k, v)]
  | (k', v') :: d' =>
      if String.eqb k k' then (k, v) :: d' else (k', v') :: dict_set d' k v
  end.

(** Truth value of an object, as [if x], [not x] and [x or y] test it. *)
Definition truthy (x : value) : bool :=
  match x with
  | VNone => false
  | VBool b => b
  | VInt z => negb (z =? 0)
  | VFloat q => negb (Qeq_bool q 0)
  | VStr s => negb (String.eqb s "")
  | VList l => match l with [] => false | _ => true end
  | VDict d => match d with [] => false | _ => true end
  end.

(** [x or y] *)
Definition py_or (x y : value) : value := if truthy x then x else y.

(** [x == s] for a string literal [s]. *)
Definition eq_str (x : value) (s : string) : bool :=
  match x with
  | VStr s' => String.eqb s' s
  | _ => false
  end.

(** A byte that continues the encoding of a code point: [10xxxxxx]. *)
Definition continuation (c : ascii) : bool :=
  let n := nat_of_ascii c in
  ((128 <=? n) && (n <=? 191))%nat.

(** The code points of a text, each with the bytes of its encoding: a byte
    that is followed by a continuation byte belongs with it. *)
Fixpoint code_points (s : string) : list string :=
  match s with
  | EmptyString => []
  | String c s' =>
      match code_points s' with
      | String c' p :: ps =>
          if continuation c' then String c (String c' p) :: ps
          else String c EmptyString :: String c' p :: ps
      | ps => String c EmptyString :: ps
      end
  end.

Definition chars (s : string) : list value := map VStr (code_points s).

(** [for i in x]: the items the loop visits. *)
Definition iter (x : value) : result (list value) :=
  match x with
  | VList l => Ok l
  | VDict d => Ok (map (fun kv => VStr (fst kv)) d)
  | VStr s => Ok (chars s)
  | _ => Raise TypeError
  end.

(** [len(x)] *)
Definition len (x : value) : result Z :=
  match x with
  | VList l => Ok (Z.of_nat (List.length l))
  | VDict d => Ok (Z.of_nat (List.length d))
  | VStr s => Ok (Z.of_nat (List.length (code_points s)))
  | _ => Raise TypeError
  end.

(** ** Text operations *)

(** [sub in s] *)
Fixpoint contains (sub s : string) : bool :=
  if String.prefix sub s then true
  else match s with
       | EmptyString => false
       | String _ s' => contains sub s'
       end.

(** [s.count(sub)]: occurrences that do not overlap, from the left.  [skip]
    is the number of characters of the last match still to step over. *)
Fixpoint count_from (sub : string) (skip : nat) (s : string) : Z :=
  match s with
  | EmptyString => 0
  | String _ s' =>
      match skip with
      | S k => count_from sub k s'
      | O => if String.prefix sub s
             then 1 + count_from sub (String.length sub - 1) s'
             else count_from sub 0 s'
      end
  end.

Definition count (s sub : string) : Z :=
  match sub with
  | EmptyString => Z.of_nat (List.length (code_points s)) + 1
  | _ => count_from sub 0 s
  end.

(** [s.split(sep)] for a one-character separator. *)
Fixpoint split_on (sep : ascii) (s : string) : list string :=
  match s with
  | EmptyString => [EmptyString]
  | String c s' =>
      if Ascii.eqb c sep then EmptyString :: split_on sep s'
      else match split_on sep s' with
           | [] => [String c EmptyString]
           | w :: ws => String c w :: ws
           end
  end.

Definition bytes (l : list nat) : string :=
  fold_right (fun n s => String (ascii_of_nat n) s) EmptyString l.

(** The white space of Python, which [str.strip] removes and for which
    [str.isspace] holds, as UTF-8: U+0009 to U+000D, U+001C to U+0020,
    U+0085, U+00A0, U+1680, U+2000 to U+200A, U+2028, U+2029, U+202F,
    U+205F and U+3000. *)
Definition white_space : list string :=
  map bytes
    [[9]; [10]; [11]; [12]; [13]; [28]; [29]; [30]; [31]; [32];
     [194; 133]; [194; 160];
     [225; 154; 128];
     [226; 128; 128]; [226; 128; 129]; [226; 128; 130]; [226; 128; 131];
     [226; 128; 132]; [226; 128; 133]; [226; 128; 134]; [226; 128; 135];
     [226; 128; 136]; [226; 128; 137]; [226; 128; 138];
     [226; 128; 168]; [226; 128; 169]; [226; 128; 175];
     [226; 129; 159];
     [227; 128; 128]]%nat.

Definition is_white_space (s : string) : bool := existsb (String.eqb s) white_space.

(** A white space character of one, two and three bytes. *)
Definition is_space (c : ascii) : bool := is_white_space (String c EmptyString).

Definition is_space2 (c1 c2 : ascii) : bool :=
  is_white_space (String c1 (String c2 EmptyString)).

Definition is_space3 (c1 c2 c3 : ascii) : bool :=
  is_white_space (String c1 (String c2 (String c3 EmptyString))).

(** [bool(line.strip())]: the line has a character that is not white space. *)
Fixpoint has_text (s : string) : bool :=
  match s with
  | EmptyString => false
  | String c1 s1 =>
      if is_space c1 then has_text s1
      else match s1 with
           | String c2 s2 =>
               if is_space2 c1 c2 then has_text s2
               else match s2 with
                    | String c3 s3 =>
                        if is_space3 c1 c2 c3 then has_text s3 else true
                    | EmptyString => true
                    end
           | EmptyString => true
           end
  end.

Definition LF : ascii := ascii_of_nat 10.

(** ** Syntax trees

    The node classes of Python's [ast] module that the program tests for or
    reads fields of, each with its child fields in the order of [_fields];
    every other class is [Other] with its class name and its child nodes in
    field order ([Try], [AsyncFor], [IfExp], [Name], [And], ...).  Fields
    that hold no node and that the program never reads are left out; [For]
    keeps its [lineno], the one position the program reads. *)

Inductive ast : Type :=
| Module (body : list ast)
| ClassDef (name : string) (bases keywords body decorator_list : list ast)
| FunctionDef (name : string) (args : ast) (body decorator_list : list ast)
    (returns : option ast)
| arguments (posonlyargs args : list ast) (vararg : option ast)
    (kwonlyargs kw_defaults : list ast) (kwarg : option ast) (defaults : list ast)
| arg (name : string) (annotation : option ast)
| If (test : ast) (body orelse : list ast)
| For (lineno : Z) (target iter : ast) (body orelse : list ast)
| While (test : ast) (body orelse : list ast)
| With (items body : list ast)
| ExceptHandler (type : option ast) (body : list ast)
| BoolOp (op : ast) (values : list ast)
| Expr (value : ast)
| Constant (v : value)
| Other (cls : string) (children : list ast).

Definition opt_nodes (o : option ast) : list ast :=
  match o with
  | Some n => [n]
  | None => []
  end.

(** [ast.iter_child_nodes]: the nodes held directly by the fields of [node],
    in field order. *)
Definition iter_child_nodes (node : ast) : list ast :=
  match node with
  | Module body => body
  | ClassDef _ bases keywords body decorator_list =>
      bases ++ keywords ++ body ++ decorator_list
  | FunctionDef _ args body decorator_list returns =>
      [args] ++ body ++ decorator_list ++ opt_nodes returns
  | arguments posonlyargs args vararg kwonlyargs kw_defaults kwarg defaults =>
      posonlyargs ++ args ++ opt_nodes vararg ++ kwonlyargs ++ kw_defaults
        ++ opt_nodes kwarg ++ defaults
  | arg _ annotation => opt_nodes annotation
  | If test body orelse => [test] ++ body ++ orelse
  | For _ target iter body orelse => [target] ++ [iter] ++ body ++ orelse
  | While test body orelse => [test] ++ body ++ orelse
  | With items body => items ++ body
  | ExceptHandler type body => opt_nodes type ++ body
  | BoolOp op values => [op] ++ values
  | Expr value => [value]
  | Constant _ => []
  | Other _ children => children
  end.

Definition sum_nat (l : list nat) : nat := fold_right Nat.add 0%nat l.

(** Number of nodes of a tree. *)
Fixpoint size (node : ast) : nat :=
  let sizes := fun l => sum_nat (map size l) in
  let osize := fun o => match o with Some n => size n | None => 0%nat end in
  S (match node with
     | Module body => sizes body
     | ClassDef _ bases keywords body decorator_list =>
         sizes bases + sizes keywords + sizes body + sizes decorator_list
     | FunctionDef _ args body decorator_list returns =>
         size args + sizes body + sizes decorator_list + osize returns
     | arguments posonlyargs args vararg kwonlyargs kw_defaults kwarg defaults =>
         sizes posonlyargs + sizes args + osize vararg + sizes kwonlyargs
           + sizes kw_defaults + osize kwarg + sizes defaults
     | arg _ annotation => osize annotation
     | If test body orelse => size test + sizes body + sizes orelse
     | For _ target iter body orelse =>
         size target + size iter + sizes body + sizes orelse
     | While test body orelse => size test + sizes body + sizes orelse
     | With items body => sizes items + sizes body
     | ExceptHandler type body => osize type + sizes body
     | BoolOp op values => size op + sizes values
     | Expr value => size value
     | Constant _ => 0
     | Other _ children => sizes children
     end)%nat.

Definition sizes (l : list ast) : nat := sum_nat (map size l).

(** The nodes of a tree, each once, parents before children (depth first). *)
Fixpoint nodes (node : ast) : list ast :=
  let nodes_of := fun l => flat_map nodes l in
  let onodes := fun o => match o with Some n => nodes n | None => [] end in
  node ::
  match node with
  | Module body => nodes_of body
  | ClassDef _ bases keywords body decorator_list =>
      nodes_of bases ++ nodes_of keywords ++ nodes_of body ++ nodes_of decorator_list
  | FunctionDef _ args body decorator_list returns =>
      nodes args ++ nodes_of body ++ nodes_of decorator_list ++ onodes returns
  | arguments posonlyargs args vararg kwonlyargs kw_defaults kwarg defaults =>
      nodes_of posonlyargs ++ nodes_of args ++ onodes vararg ++ nodes_of kwonlyargs
        ++ nodes_of kw_defaults ++ onodes kwarg ++ nodes_of defaults
  | arg _ annotation => onodes annotation
  | If test body orelse => nodes test ++ nodes_of body ++ nodes_of orelse
  | For _ target iter body orelse =>
      nodes target ++ nodes iter ++ nodes_of body ++ nodes_of orelse
  | While test body orelse => nodes test ++ nodes_of body ++ nodes_of orelse
  | With items body => nodes_of items ++ nodes_of body
  | ExceptHandler type body => onodes type ++ nodes_of body
  | BoolOp op values => nodes op ++ nodes_of values
  | Expr value => nodes value
  | Constant _ => []
  | Other _ children => nodes_of children
  end.

(** [ast.walk]: a queue that starts with the root; each step takes the node
    at the front, puts its child nodes at the back and yields it.  The loop
    ends when the queue is empty; [fuel] bounds the number of steps. *)
Fixpoint walk_loop (fuel : nat) (todo : list ast) : list ast :=
  match fuel with
  | O => []
  | S fuel' =>
      match todo with
      | [] => []
      | node :: rest => node :: walk_loop fuel' (rest ++ iter_child_nodes node)
      end
  end.

Definition walk (node : ast) : list ast := walk_loop (size node) [node].

(** ** The world outside the repository *)

(** The arguments of [requests.request(method, url, json=..., headers=...,
    timeout=...)].  The [Authorization] header is a fixed word followed by
    the credential; the request keeps the credential. *)
Record request : Type := {
  method : string;
  url : string;
  payload : value;
  credential : value;
  timeout : option Z
}.

Record response : Type := {
  status_code : Z;
  text : string
}.

Record World : Type := {
  (** [os.environ] *)
  environ : list (string * string);
  (** [Path.exists], [Path.is_file], [Path.rglob("*.py")] *)
  path_exists : string -> bool;
  is_file : string -> bool;
  rglob_py : string -> list string;
  (** [open(path, 'r', encoding='utf-8').read()] *)
  read_text : string -> result string;
  (** [yaml.safe_load] of the file at a path *)
  yaml_safe_load : string -> result value;
  (** [ast.parse]: the tree, or [SyntaxError], or another exception of
      the parser ([ValueError] for a text with a null byte) *)
  ast_parse : string -> result ast;
  (** [json.loads]: the decoded value, or [JSONDecodeError] *)
  json_loads : string -> result value;
  (** the HTTP exchange: a response, or [ConnectionError] or [Timeout] *)
  requests_request : request -> result response;
  (** [inspect.cleandoc] *)
  cleandoc : string -> string;
  (** [round(x, 2)] on a float *)
  round2 : Q -> Q
}.

(** [response.raise_for_status()] of the requests library: [HTTPError] for a
    client error (4xx) or a server error (5xx), nothing for any other
    status. *)
Definition raise_for_status (r : response) : result unit :=
  if (400 <=? status_code r) && (status_code r <? 600)
  then Raise (HTTPError (status_code r))
  else Ok tt.

(** [x[k]] for a string key. *)
Definition getitem (x : value) (k : string) : result value :=
  match x with
  | VDict d => match lookup k d with
               | Some v => Ok v
               | None => Raise KeyError
               end
  | _ => Raise TypeError
  end.

(** [x[0]] *)
Definition getitem0 (x : value) : result value :=
  match x with
  | VList (v :: _) => Ok v
  | VList [] => Raise IndexError
  | VStr s => match code_points s with
              | p :: _ => Ok (VStr p)
              | [] => Raise IndexError
              end
  | VDict _ => Raise KeyError
  | _ => Raise TypeError
  end.

(** [s.lstrip()]: the text from its first character that is not white
    space. *)
Fixpoint lstrip (s : string) : string :=
  match s with
  | EmptyString => EmptyString
  | String c1 s1 =>
      if is_space c1 then lstrip s1
      else match s1 with
           | String c2 s2 =>
               if is_space2 c1 c2 then lstrip s2
               else match s2 with
                    | String c3 s3 => if is_space3 c1 c2 c3 then lstrip s3 else s
                    | EmptyString => s
                    end
           | EmptyString => s
           end
  end.

(** [s.rstrip()]: the text up to its last character that is not white
    space; what follows a byte is dropped when it is white space only. *)
Fixpoint rstrip (s : string) : string :=
  match s with
  | EmptyString => EmptyString
  | String c s' => if has_text s then String c (rstrip s') else EmptyString
  end.

(** [x.strip()]: only a string has the method. *)
Definition strip (x : value) : result string :=
  match x with
  | VStr s => Ok (rstrip (lstrip s))
  | _ => Raise AttributeError
  end.

(** The statements every remote call shares after the request is built:
    [[
      response = requests.post(...)
      response.raise_for_status()
      result = response.json()
      ... result['choices'][0]['message']['content'] ...
    ]] *)
Definition completion (w : World) (req : request) : result value :=
  response <- requests_request w req ;;
  raise_for_status response ;;;
  result <- json_loads w (text response) ;;
  choices <- getitem result "choices" ;;
  choice <- getitem0 choices ;;
  message <- getitem choice "message" ;;
  getitem message "content".

Definition api_url_iflow : string := "https://apis.iflow.cn/v1/chat/completions".

(** [requests.post(api_url, json=payload, headers=headers, timeout=60)] as
    every remote call of [core] builds it. *)
Definition chat_request (api_url : string) (api_key : value) (payload : value) : request :=
  {| method := "POST"; url := api_url; payload := payload;
     credential := api_key; timeout := Some 60 |}.

Definition chat_payload (system user : string) (temperature : Q) (max_tokens : Z) : value :=
  VDict [("model", VStr "tstars2.0");
         ("messages",
          VList [VDict [("role", VStr "system"); ("content", VStr system)];
                 VDict [("role", VStr "user"); ("content", VStr user)]]);
         ("temperature", VFloat temperature);
         ("max_tokens", VInt max_tokens);
         ("stream", VBool false)].

(** ** utils/config.py *)

Module Config.

Record t : Type := { config : value }.

Definition default_path : string := "config/default.yaml".

(** [keys = key.split('.')] and the loop of [get] over them. *)
Fixpoint get_path (v : value) (keys : list string) (default : value) : value :=
  match keys with
  | [] => v
  | k :: keys' =>
      match v with
      | VDict d =>
          match lookup k d with
          | Some v' => get_path v' keys' default
          | None => default
          end
      | _ => default
      end
  end.

(** [get(key, default)] *)
Definition get (self : t) (key : string) (default : value) : value :=
  get_path (config self) (split_on "." key) default.

(** [cfg.setdefault(section, {})[key] = v] *)
Definition set_in_section (cfg : value) (section key : string) (v : value)
  : result value :=
  match cfg with
  | VDict d =>
      match dict_get d section (VDict []) with
      | VDict sd => Ok (VDict (dict_set d section (VDict (dict_set sd key v))))
      | _ => Raise TypeError
      end
  | _ => Raise AttributeError
  end.

Section Methods.
Context (w : World).

(** [os.environ.get(name)] *)
Definition environ_get (name : string) : option string :=
  match find (fun kv => String.eqb name (fst kv)) (environ w) with
  | Some kv => Some (snd kv)
  | None => None
  end.

(** [os.environ.get(name, '')] *)
Definition environ_get_str (name : string) : value :=
  match environ_get name with
  | Some s => VStr s
  | None => VStr ""
  end.

(** [_load_config] *)
Definition _load_config (config_path : string) : result value :=
  if negb (path_exists w config_path) then Ok (VDict [])
  else loaded <- yaml_safe_load w config_path ;; Ok (py_or loaded (VDict [])).

(** One [if NAME in os.environ: ...] of [_override_with_env]. *)
Definition override_one (cfg : value) (name section key : string) : result value :=
  match environ_get name with
  | Some s => set_in_section cfg section key (VStr s)
  | None => Ok cfg
  end.

(** [_override_with_env] *)
Definition _override_with_env (cfg : value) : result value :=
  cfg <- override_one cfg "IFLOW_API_KEY" "ai" "api_key" ;;
  cfg <- override_one cfg "GITHUB_TOKEN" "github" "token" ;;
  override_one cfg "GITHUB_REPOSITORY" "github" "repository".

(** [Config()], as [main] builds it: the default path. *)
Definition init : result t :=
  cfg <- _load_config default_path ;;
  cfg <- _override_with_env cfg ;;
  Ok {| config := cfg |}.

(** The properties [iflow_api_key], [github_token], [github_repository]. *)
Definition iflow_api_key (self : t) : value :=
  py_or (get self "ai.api_key" VNone) (environ_get_str "IFLOW_API_KEY").

Definition github_token (self : t) : value :=
  py_or (get self "github.token" VNone) (environ_get_str "GITHUB_TOKEN").

Definition github_repository (self : t) : value :=
  py_or (get self "github.repository" VNone) (environ_get_str "GITHUB_REPOSITORY").

End Methods.
End Config.

(** ** utils/github_api.py *)

Module GitHubAPI.

Record t : Type := {
  config : Config.t;
  base_url : string;
  token : value;
  repository : value
}.

(** [GitHubAPI(config)] *)
Definition init (w : World) (config : Config.t) : result t :=
  let self := {| config := config;
                 base_url := "https://api.github.com";
                 token := Config.github_token w config;
                 repository := Config.github_repository w config |} in
  if negb (truthy (token self))
  then Raise (ValueError "GitHub token is required")
  else Ok self.

(** [_make_request(method, endpoint, data)] *)
Definition _make_request (w : World) (self : t) (method endpoint : string)
  (data : value) : result value :=
  let url := base_url self ++ "/" ++ endpoint in
  response <- requests_request w
                {| method := method; url := url; payload := data;
                   credential := token self; timeout := None |} ;;
  raise_for_status response ;;;
  json_loads w (text response).

End GitHubAPI.

(** ** core/analyzer.py *)

Module CodeAnalyzer.

Record AnalysisResult : Type := {
  file_path : string;
  complexity_score : Q;
  lines_of_code : Z;
  issues_found : value;
  patterns_detected : value;
  dependencies : value
}.

Record Summary : Type := {
  avg_complexity : Q;
  total_lines : Z;
  issue_types : list (value * Z)
}.

Record Report : Type := {
  files_analyzed : Z;
  report_issues_found : Z;
  report_complexity_score : Q;
  details : list AnalysisResult;
  summary : Summary
}.

Record t : Type := {
  config : Config.t;
  api_key : value;
  api_url : string
}.

(** The body of the loop of [_calculate_complexity]. *)
Definition complexity_step (complexity : Z) (node : ast) : Z :=
  match node with
  | If _ _ _ | For _ _ _ _ _ | While _ _ _ | With _ _ => complexity + 1
  | ExceptHandler _ _ => complexity + 1
  | BoolOp _ values => complexity + (Z.of_nat (List.length values) - 1)
  | _ => complexity
  end.

(** [_calculate_complexity] *)
Definition _calculate_complexity (tree : ast) : Q :=
  let complexity := 1 in
  let complexity := fold_left complexity_step (walk tree) complexity in
  inject_Z complexity.

Definition analysis_prompt (code file_path : string) : string :=
  "Analyze the following Python code file: " ++ file_path ++ "

Code:
```python
" ++ code ++ "
```

Provide analysis in JSON format with these fields:
- issues: list of potential issues (each with: severity, message, line_number)
- patterns: list of design patterns detected (each with: pattern_name, description)
- dependencies: list of external dependencies identified

Respond with only the JSON, no other text.".

Definition analysis_default : value :=
  VDict [("issues", VList []); ("patterns", VList []); ("dependencies", VList [])].

(** Key of the histogram of [_generate_summary]: [VList] and [VDict] are
    not hashable. *)
Definition hashable (x : value) : bool :=
  match x with
  | VList _ | VDict _ => false
  | _ => true
  end.

Definition as_number (x : value) : option Q :=
  match x with
  | VBool b => Some (if b then 1%Q else 0%Q)
  | VInt z => Some (inject_Z z)
  | VFloat q => Some q
  | _ => None
  end.

(** Equality of two hashable keys: numbers by value, text by content. *)
Definition key_eqb (x y : value) : bool :=
  match x, y with
  | VNone, VNone => true
  | VStr s, VStr s' => String.eqb s s'
  | _, _ => match as_number x, as_number y with
            | Some q, Some q' => Qeq_bool q q'
            | _, _ => false
            end
  end.

(** [issue_types[severity] = issue_types.get(severity, 0) + 1] *)
Fixpoint bump (issue_types : list (value * Z)) (severity : value) : list (value * Z) :=
  match issue_types with
  | [] => [(severity, 0 + 1)]
  | (k, n) :: rest =>
      if key_eqb severity k then (k, n + 1) :: rest
      else (k, n) :: bump rest severity
  end.

Definition count_issue (issue_types : list (value * Z)) (issue : value)
  : result (list (value * Z)) :=
  severity <- get issue "severity" (VStr "unknown") ;;
  if hashable severity then Ok (bump issue_types severity) else Raise TypeError.

Definition count_result (issue_types : list (value * Z)) (r : AnalysisResult)
  : result (list (value * Z)) :=
  issues <- iter (issues_found r) ;;
  foldM count_issue issue_types issues.

Definition sum_Q (l : list Q) : Q := fold_left Qplus l 0%Q.
Definition sum_Z (l : list Z) : Z := fold_left Z.add l 0.

Section Methods.
Context (w : World).

(** [CodeAnalyzer(config)] *)
Definition init (config : Config.t) : t :=
  {| config := config;
     api_key := Config.iflow_api_key w config;
     api_url := api_url_iflow |}.

(** [_analyze_with_ai] *)
Definition _analyze_with_ai (self : t) (code file_path : string) : result value :=
  let prompt := analysis_prompt code file_path in
  try_except
    (let payload :=
       chat_payload
         "You are a code analysis expert. Analyze code and return results in JSON format."
         prompt (3 # 10) 1500 in
     content <- completion w (chat_request (api_url self) (api_key self) payload) ;;
     result_text <- strip content ;;
     json_loads w result_text)
    (fun e => Ok analysis_default).

(** [analyze_file] *)
Definition analyze_file (self : t) (file_path : string) : result AnalysisResult :=
  code <- read_text w file_path ;;
  let lines_of_code :=
    Z.of_nat (List.length (filter has_text (split_on LF code))) in
  complexity <-
    try_except_SyntaxError
      (tree <- ast_parse w code ;; Ok (_calculate_complexity tree))
      (Ok 0%Q) ;;
  ai_analysis <- _analyze_with_ai self code file_path ;;
  issues <- get ai_analysis "issues" (VList []) ;;
  patterns <- get ai_analysis "patterns" (VList []) ;;
  dependencies <- get ai_analysis "dependencies" (VList []) ;;
  Ok {| file_path := file_path;
        complexity_score := complexity;
        lines_of_code := lines_of_code;
        issues_found := issues;
        patterns_detected := patterns;
        dependencies := dependencies |}.

(** [_generate_summary] *)
Definition _generate_summary (results : list AnalysisResult) : result Summary :=
  match results with
  | [] => Ok {| avg_complexity := 0; total_lines := 0; issue_types := [] |}
  | _ =>
      let avg_complexity :=
        (sum_Q (map complexity_score results)
         / inject_Z (Z.of_nat (List.length results)))%Q in
      let total_lines := sum_Z (map lines_of_code results) in
      issue_types <- foldM count_result [] results ;;
      Ok {| avg_complexity := round2 w avg_complexity;
            total_lines := total_lines;
            issue_types := issue_types |}
  end.

(** [any(pattern in str(f) for pattern in excluded_patterns)] *)
Fixpoint any_pattern_in (patterns : list value) (f : string) : result bool :=
  match patterns with
  | [] => Ok false
  | VStr pattern :: rest =>
      if contains pattern f then Ok true else any_pattern_in rest f
  | _ :: _ => Raise TypeError
  end.

Definition not_excluded (excluded_patterns : value) (f : string) : result bool :=
  patterns <- iter excluded_patterns ;;
  excluded <- any_pattern_in patterns f ;;
  Ok (negb excluded).

(** [[f for f in python_files if not any(...)]] *)
Fixpoint filter_files (excluded_patterns : value) (python_files : list string)
  : result (list string) :=
  match python_files with
  | [] => Ok []
  | f :: rest =>
      keep <- not_excluded excluded_patterns f ;;
      rest' <- filter_files excluded_patterns rest ;;
      Ok (if keep then f :: rest' else rest')
  end.

(** The [for file_path in python_files] loop: a file whose analysis
    raises is logged and left out. *)
Fixpoint analyze_files (self : t) (python_files : list string)
  (results : list AnalysisResult) : list AnalysisResult :=
  match python_files with
  | [] => results
  | file_path :: rest =>
      match analyze_file self file_path with
      | Ok r => analyze_files self rest (results ++ [r])
      | Raise e => analyze_files self rest results
      end
  end.

(** [analyze_directory] *)
Definition analyze_directory (self : t) (directory : string) : result Report :=
  let results := [] in
  let python_files := rglob_py w directory in
  let excluded_patterns := Config.get (config self) "analysis.exclude" (VList []) in
  python_files <- filter_files excluded_patterns python_files ;;
  let results := analyze_files self python_files results in
  summary <- _generate_summary results ;;
  lens <- mapM (fun r => len (issues_found r)) results ;;
  Ok {| files_analyzed := Z.of_nat (List.length results);
        report_issues_found := sum_Z lens;
        report_complexity_score := avg_complexity summary;
        details := results;
        summary := summary |}.

End Methods.
End CodeAnalyzer.

(** ** core/reviewer.py *)

Module CodeReviewer.

Record ReviewResult : Type := {
  pr_number : Z;
  overall_score : Z;
  review_summary : value;
  issues : value;
  suggestions : value;
  comments : value
}.

Record t : Type := {
  config : Config.t;
  api_key : value;
  api_url : string
}.

Definition review_prompt (diff : string) : string :=
  "Review the following code diff:

```
" ++ diff ++ "
```

Provide a comprehensive code review in JSON format with these fields:
- summary: brief overall assessment (2-3 sentences)
- issues: list of issues found (each with: severity [critical/medium/low], file, line, description)
- suggestions: list of improvement suggestions (each with: title, description, code_example)
- comments: list of inline comments (each with: path, line, body)

Focus on:
1. Code quality and best practices
2. Security vulnerabilities
3. Performance issues
4. Readability and maintainability
5. Potential bugs

Respond with only the JSON, no other text.".

Definition review_default : value :=
  VDict [("summary", VStr "Unable to perform AI review due to an error.");
         ("issues", VList []);
         ("suggestions", VList []);
         ("comments", VList [])].

(** [len([i for i in review.get('issues', []) if i.get('severity') == tier])] *)
Fixpoint count_severity (tier : string) (items : list value) : result Z :=
  match items with
  | [] => Ok 0
  | i :: rest =>
      severity <- get i "severity" VNone ;;
      n <- count_severity tier rest ;;
      Ok (if eq_str severity tier then 1 + n else n)
  end.

Definition issues_of_tier (review : value) (tier : string) : result Z :=
  issues <- get review "issues" (VList []) ;;
  items <- iter issues ;;
  count_severity tier items.

(** [int(x)] on a float: the fraction is dropped, towards zero. *)
Definition int_of_float (x : Q) : Z := Z.quot (Qnum x) (Zpos (Qden x)).

(** [_calculate_score] *)
Definition _calculate_score (review : value) : result Z :=
  let base_score := 10 in
  critical_issues <- issues_of_tier review "critical" ;;
  medium_issues <- issues_of_tier review "medium" ;;
  low_issues <- issues_of_tier review "low" ;;
  let score :=
    (inject_Z (base_score - critical_issues * 2 - medium_issues * 1)
     - inject_Z low_issues * (1 # 2))%Q in
  bonus <- get review "suggestions" VNone ;;
  let score := if truthy bonus then (score + 1)%Q else score in
  Ok (Z.max 1 (Z.min 10 (int_of_float score))).

Section Methods.
Context (w : World).

(** [CodeReviewer(config)] *)
Definition init (config : Config.t) : t :=
  {| config := config;
     api_key := Config.iflow_api_key w config;
     api_url := api_url_iflow |}.

(** [_analyze_with_ai] *)
Definition _analyze_with_ai (self : t) (diff : string) : result value :=
  let prompt := review_prompt diff in
  try_except
    (let payload :=
       chat_payload
         "You are an expert code reviewer. Provide detailed, constructive feedback in JSON format."
         prompt (1 # 2) 2000 in
     content <- completion w (chat_request (api_url self) (api_key self) payload) ;;
     result_text <- strip content ;;
     json_loads w result_text)
    (fun e => Ok review_default).

(** [review_diff] *)
Definition review_diff (self : t) (diff : string) (pr_number : Z)
  : result ReviewResult :=
  review <- _analyze_with_ai self diff ;;
  overall_score <- _calculate_score review ;;
  summary <- get review "summary" (VStr "") ;;
  issues <- get review "issues" (VList []) ;;
  suggestions <- get review "suggestions" (VList []) ;;
  comments <- get review "comments" (VList []) ;;
  Ok {| pr_number := pr_number;
        overall_score := overall_score;
        review_summary := summary;
        issues := issues;
        suggestions := suggestions;
        comments := comments |}.

End Methods.

(** [check_security] *)
Definition security_patterns : list (string * list string * string) :=
  [("SQL Injection", ["execute("; "exec("; "format("; "%s"], "high");
   ("XSS Vulnerability", ["innerHTML"; "document.write"], "medium");
   ("Hardcoded Password", ["password"; "secret"; "api_key"], "high");
   ("Insecure Random", ["random.random("], "low")].

Definition check_security (code : string) : list value :=
  flat_map
    (fun entry =>
       let '(name, patterns, severity) := entry in
       flat_map
         (fun pattern =>
            if contains pattern code
            then [VDict [("type", VStr name);
                         ("severity", VStr severity);
                         ("pattern", VStr pattern)]]
            else [])
         patterns)
    security_patterns.

End CodeReviewer.

(** ** core/optimizer.py *)

Module CodeOptimizer.

Record OptimizeResult : Type := {
  path : string;
  total_suggestions : Z;
  suggestions : list value
}.

Record t : Type := {
  config : Config.t;
  api_key : value;
  api_url : string
}.

Definition optimize_prompt (code file_path : string) : string :=
  "Analyze the following Python code for optimization opportunities: " ++ file_path ++ "

```python
" ++ code ++ "
```

Provide optimization suggestions in JSON format as a list, where each suggestion has:
- title: brief title of the optimization
- priority: high/medium/low
- description: what should be improved
- current_code: the code that needs optimization
- suggested_code: optimized version
- impact: expected performance improvement

Focus on:
1. Algorithm efficiency
2. Memory usage
3. Code duplication
4. Python best practices
5. Performance bottlenecks

Respond with only the JSON array, no other text.".

Definition nested_loop_suggestion (file_path : string) (lineno : Z) : value :=
  VDict [("title", VStr "Nested loop detected");
         ("priority", VStr "medium");
         ("description",
          VStr "Nested loops can lead to O(n²) complexity. Consider using sets or dictionaries for lookups.");
         ("file", VStr file_path);
         ("line", VInt lineno);
         ("impact", VStr "May improve performance significantly")].

Definition concatenation_suggestion (file_path : string) : value :=
  VDict [("title", VStr "Repeated string concatenation");
         ("priority", VStr "low");
         ("description",
          VStr "Multiple string concatenations can be inefficient. Consider using join() or StringIO.");
         ("file", VStr file_path);
         ("impact", VStr "Moderate performance improvement")].

Definition is_For (node : ast) : bool :=
  match node with
  | For _ _ _ _ _ => true
  | _ => false
  end.

(** The inner loop [for child in ast.walk(node)] over what is left of the
    walk: the first [For] other than [node] appends one suggestion and
    breaks.  [node] itself is the first node its walk yields and no node
    after it is [node] again, so [children] is the walk without its head
    and the test [child != node] holds of each of them. *)
Fixpoint scan_children (file_path : string) (lineno : Z) (children : list ast)
  (suggestions : list value) : list value :=
  match children with
  | [] => suggestions
  | child :: rest =>
      if is_For child
      then suggestions ++ [nested_loop_suggestion file_path lineno]
      else scan_children file_path lineno rest suggestions
  end.

(** The body of the outer loop [for node in ast.walk(tree)]. *)
Definition check_node (file_path : string) (suggestions : list value) (node : ast)
  : list value :=
  match node with
  | For lineno _ _ _ _ =>
      scan_children file_path lineno (tl (walk node)) suggestions
  | _ => suggestions
  end.

(** The nested-loop check of [_static_analysis] on a parsed tree. *)
Definition detectNestedIteration (file_path : string) (tree : ast)
  (suggestions : list value) : list value :=
  fold_left (check_node file_path) (walk tree) suggestions.

(** The string-concatenation check of [_static_analysis]. *)
Definition detectConcatenationHeuristic (code file_path : string)
  (suggestions : list value) : list value :=
  if (count code "+=" >? 10) && contains "str" code
  then suggestions ++ [concatenation_suggestion file_path]
  else suggestions.

(** [suggestions[:max_suggestions]] *)
Definition slice_to {A : Type} (l : list A) (stop : Z) : list A :=
  if 0 <=? stop then firstn (Z.to_nat stop) l
  else firstn (Z.to_nat (Z.of_nat (List.length l) + stop)) l.

(** [x + static_suggestions]: only a list can be added to a list. *)
Definition list_add (x : value) (l : list value) : result (list value) :=
  match x with
  | VList l' => Ok (l' ++ l)%list
  | _ => Raise TypeError
  end.

Section Methods.
Context (w : World).

(** [CodeOptimizer(config)] *)
Definition init (config : Config.t) : t :=
  {| config := config;
     api_key := Config.iflow_api_key w config;
     api_url := api_url_iflow |}.

(** [_analyze_with_ai] *)
Definition _analyze_with_ai (self : t) (code file_path : string) : result value :=
  let prompt := optimize_prompt code file_path in
  try_except
    (let payload :=
       chat_payload
         "You are a code optimization expert. Provide performance-focused suggestions in JSON format."
         prompt (3 # 10) 2000 in
     content <- completion w (chat_request (api_url self) (api_key self) payload) ;;
     result_text <- strip content ;;
     json_loads w result_text)
    (fun e => Ok (VList [])).

(** [_static_analysis] *)
Definition _static_analysis (code file_path : string) : result (list value) :=
  let suggestions := [] in
  match ast_parse w code with
  | Raise e => if is_SyntaxError e then Ok suggestions else Raise e
  | Ok tree =>
      let suggestions := detectNestedIteration file_path tree suggestions in
      let suggestions := detectConcatenationHeuristic code file_path suggestions in
      Ok suggestions
  end.

(** [_optimize_file] *)
Definition _optimize_file (self : t) (file_path : string) : result (list value) :=
  code <- read_text w file_path ;;
  ai_suggestions <- _analyze_with_ai self code file_path ;;
  static_suggestions <- _static_analysis code file_path ;;
  list_add ai_suggestions static_suggestions.

(** The loop [for file_path in path_obj.rglob("*.py")]. *)
Fixpoint optimize_files (self : t) (files : list string) (suggestions : list value)
  : result (list value) :=
  match files with
  | [] => Ok suggestions
  | file_path :: rest =>
      file_suggestions <- _optimize_file self file_path ;;
      optimize_files self rest (suggestions ++ file_suggestions)
  end.

(** [optimize_code] *)
Definition optimize_code (self : t) (path : string) (max_suggestions : Z)
  : result OptimizeResult :=
  let suggestions := [] in
  suggestions <-
    (if is_file w path then _optimize_file self path
     else optimize_files self (rglob_py w path) suggestions) ;;
  let suggestions := slice_to suggestions max_suggestions in
  Ok {| path := path;
        total_suggestions := Z.of_nat (List.length suggestions);
        suggestions := suggestions |}.

End Methods.
End CodeOptimizer.

(** ** core/documentor.py *)

Module Documentor.

(** The dictionaries [{'name', 'docstring', 'args'}] and
    [{'name', 'docstring', 'methods'}]. *)
Record FunctionInfo : Type := {
  name : string;
  docstring : option string;
  args : list string
}.

Record ClassInfo : Type := {
  class_name : string;
  class_docstring : option string;
  methods : list FunctionInfo
}.

(** [node.parent].  The nodes [ast.parse] builds carry their fields and
    their position and nothing else, and no statement of the repository
    assigns a [parent] to a node: the attribute lookup raises. *)
Definition parent (node : ast) : result ast := Raise AttributeError.

Definition is_ClassDef (node : ast) : bool :=
  match node with
  | ClassDef _ _ _ _ _ => true
  | _ => false
  end.

(** [item.args.args] *)
Definition args_of (item : ast) : result (list ast) :=
  match item with
  | FunctionDef _ (arguments _ args _ _ _ _ _) _ _ _ => Ok args
  | _ => Raise AttributeError
  end.

(** [arg.arg] *)
Definition arg_name (a : ast) : result string :=
  match a with
  | arg name _ => Ok name
  | _ => Raise AttributeError
  end.

(** [node.body] inside [ast.get_docstring], which the program calls on
    modules, classes and functions; the library raises [TypeError] for a
    node that cannot have a docstring. *)
Definition body_of (node : ast) : result (list ast) :=
  match node with
  | Module body => Ok body
  | ClassDef _ _ _ body _ => Ok body
  | FunctionDef _ _ body _ _ => Ok body
  | _ => Raise TypeError
  end.

Section Methods.
Context (w : World).

(** [ast.get_docstring(node)] *)
Definition get_docstring (node : ast) : result (option string) :=
  body <- body_of node ;;
  match body with
  | Expr (Constant (VStr text)) :: _ => Ok (Some (cleandoc w text))
  | _ => Ok None
  end.

(** [{'name': ..., 'docstring': ..., 'args': ...}] of a function node *)
Definition function_info (node : ast) (name : string) : result FunctionInfo :=
  doc <- get_docstring node ;;
  params <- args_of node ;;
  names <- mapM arg_name params ;;
  Ok {| name := name; docstring := doc; args := names |}.

(** The loop [for item in node.body] of [_extract_classes]. *)
Fixpoint extract_methods (body : list ast) (methods : list FunctionInfo)
  : result (list FunctionInfo) :=
  match body with
  | [] => Ok methods
  | item :: rest =>
      match item with
      | FunctionDef name _ _ _ _ =>
          info <- function_info item name ;;
          extract_methods rest (methods ++ [info])
      | _ => extract_methods rest methods
      end
  end.

(** The body of the loop of [_extract_classes]. *)
Definition extract_class (classes : list ClassInfo) (node : ast)
  : result (list ClassInfo) :=
  match node with
  | ClassDef name _ _ body _ =>
      methods <- extract_methods body [] ;;
      doc <- get_docstring node ;;
      Ok (classes ++ [{| class_name := name;
                         class_docstring := doc;
                         methods := methods |}])%list
  | _ => Ok classes
  end.

(** [_extract_classes] *)
Definition _extract_classes (tree : ast) : result (list ClassInfo) :=
  foldM extract_class [] (walk tree).

(** The body of the loop of [_extract_functions]. *)
Definition extract_function (functions : list FunctionInfo) (node : ast)
  : result (list FunctionInfo) :=
  match node with
  | FunctionDef name _ _ _ _ =>
      p <- parent node ;;
      if negb (is_ClassDef p)
      then info <- function_info node name ;; Ok (functions ++ [info])%list
      else Ok functions
  | _ => Ok functions
  end.

(** [_extract_functions] *)
Definition _extract_functions (tree : ast) : result (list FunctionInfo) :=
  foldM extract_function [] (walk tree).

(** The declarations [_generate_file_docs] hands to the remote call:
    [[
      classes = self._extract_classes(tree)
      functions = self._extract_functions(tree)
    ]] *)
Definition extract_declarations (tree : ast)
  : result (list ClassInfo * list FunctionInfo) :=
  classes <- _extract_classes tree ;;
  functions <- _extract_functions tree ;;
  Ok (classes, functions).

End Methods.
End Documentor.

(** ** The operations as the specification words them *)

Module Spec.

(** A conditional branch, a loop of any kind, or an exception-handling
    clause. *)
Definition is_branching (node : ast) : bool :=
  match node with
  | If _ _ _ => true
  | For _ _ _ _ _ | While _ _ _ | Other "AsyncFor" _ => true
  | ExceptHandler _ _ => true
  | _ => false
  end.

(** A short-circuit boolean combination of n operands contributes n - 1. *)
Definition boolean_contribution (node : ast) : Z :=
  match node with
  | BoolOp _ values => Z.of_nat (List.length values) - 1
  | _ => 0
  end.

Definition node_contribution (node : ast) : Z :=
  (if is_branching node then 1 else 0) + boolean_contribution node.

(** computeComplexity: 1, plus the contribution of every node. *)
Definition computeComplexity (tree : ast) : Q :=
  inject_Z (1 + fold_right Z.add 0 (map node_contribution (nodes tree))).

(** Weight of one issue by severity tier: 2, 1, one half, else nothing. *)
Definition tier_weight (severity : value) : Q :=
  if eq_str severity "critical" then 2
  else if eq_str severity "medium" then 1
  else if eq_str severity "low" then 1 # 2
  else 0.

(** Start at 10, subtract the weight of every issue, add 1 if there is a
    suggestion. *)
Definition raw_score (severities : list value) (has_suggestions : bool) : Q :=
  let raw := fold_left (fun acc s => acc - tier_weight s)%Q severities 10%Q in
  if has_suggestions then (raw + 1)%Q else raw.

(** Truncation toward zero: the floor of a value that is not negative,
    the ceiling of a negative one. *)
Definition truncate (x : Q) : Z :=
  if Qle_bool 0 x then Qfloor x else Qceiling x.

Definition clamp (lo hi x : Z) : Z :=
  if x <? lo then lo else if hi <? x then hi else x.

(** computeReviewScore *)
Definition computeReviewScore (severities : list value) (has_suggestions : bool) : Z :=
  clamp 1 10 (truncate (raw_score severities has_suggestions)).

End Spec.

(** The node classes [_calculate_complexity] adds 1 for. *)
Definition counted_once (node : ast) : bool :=
  match node with
  | If _ _ _ | For _ _ _ _ _ | While _ _ _ | With _ _ | ExceptHandler _ _ => true
  | _ => false
  end.

Definition is_BoolOp (node : ast) : bool :=
  match node with
  | BoolOp _ _ => true
  | _ => false
  end.

(** What one node adds to the complexity. *)
Definition contribution (node : ast) : Z :=
  CodeAnalyzer.complexity_step 0 node.

Definition sum_contributions (l : list ast) : Z :=
  fold_right Z.add 0 (map contribution l).

(** ** Sample units and worlds *)

Module Samples.

Definition Pass : ast := Other "Pass" [].
Definition Name (id : string) : ast := Other "Name" [Other "Load" []].
Definition Store (id : string) : ast := Other "Name" [Other "Store" []].
Definition Call (func : ast) (args : list ast) : ast := Other "Call" (func :: args).
Definition params (names : list string) : ast :=
  arguments [] (map (fun n => arg n None) names) None [] [] None [].

(** [[
      with open(p) as f:
          pass
    ]] *)
Definition with_unit : ast :=
  Module [With [Other "withitem" [Call (Name "open") [Name "p"]; Store "f"]] [Pass]].

(** [[
      async def main():
          async for x in xs:
              pass
    ]] *)
Definition async_for_unit : ast :=
  Module [Other "AsyncFunctionDef"
            [params []; Other "AsyncFor" [Store "x"; Name "xs"; Pass]]].

(** [[
      x = 1
    ]] *)
Definition plain_unit : ast :=
  Module [Other "Assign" [Store "x"; Constant (VInt 1)]].

(** [[
      if a and b and c:
          pass
    ]] *)
Definition and3_unit : ast :=
  Module [If (BoolOp (Other "And" []) [Name "a"; Name "b"; Name "c"]) [Pass] []].

(** [[
      class A:
          def f(self): pass
          def g(self, x): pass

      def h(y): pass
    ]] *)
Definition method_f : ast := FunctionDef "f" (params ["self"]) [Pass] [] None.
Definition method_g : ast := FunctionDef "g" (params ["self"; "x"]) [Pass] [] None.
Definition function_h : ast := FunctionDef "h" (params ["y"]) [Pass] [] None.
Definition class_unit : ast :=
  Module [ClassDef "A" [] [] [method_f; method_g] []; function_h].

(** [[
      for i in a:          # line 1
          for j in b:      # line 2
              for k in c:  # line 3
                  pass
    ]] *)
Definition loop_k : ast := For 3 (Store "k") (Name "c") [Pass] [].
Definition loop_j_k : ast := For 2 (Store "j") (Name "b") [loop_k] [].
Definition three_deep : ast := Module [For 1 (Store "i") (Name "a") [loop_j_k] []].

(** [[
      for i in a:          # line 1
          for j in b:      # line 2
              pass
          for k in c:      # line 4
              pass
    ]] *)
Definition loop_j : ast := For 2 (Store "j") (Name "b") [Pass] [].
Definition loop_k4 : ast := For 4 (Store "k") (Name "c") [Pass] [].
Definition two_inside : ast := For 1 (Store "i") (Name "a") [loop_j; loop_k4] [].

(** [[
      while a:
          while b:
              while c:
                  pass
    ]] *)
Definition while_nest : ast :=
  Module [While (Name "a") [While (Name "b") [While (Name "c") [Pass] []] []] []].

Fixpoint table {A : Type} (entries : list (string * A)) (k : string) : option A :=
  match entries with
  | [] => None
  | (k', a) :: rest => if String.eqb k k' then Some a else table rest k
  end.

Definition or_raise {A : Type} (e : exn) (o : option A) : result A :=
  match o with
  | Some a => Ok a
  | None => Raise e
  end.

(** A world given by its files, the trees of the texts that parse, the
    values of the texts that decode as JSON, and the remote end. *)
Definition world (files : list (string * string)) (trees : list (string * ast))
  (decoded : list (string * value)) (remote : request -> result response) : World :=
  {| environ := [];
     path_exists := fun _ => false;
     is_file := fun p => match table files p with Some _ => true | None => false end;
     rglob_py := fun _ => map fst files;
     read_text := fun p => or_raise OSError (table files p);
     yaml_safe_load := fun _ => Ok VNone;
     ast_parse := fun code => or_raise SyntaxError (table trees code);
     json_loads := fun s => or_raise JSONDecodeError (table decoded s);
     requests_request := remote;
     cleandoc := fun s => s;
     round2 := fun q => q |}.

(** The body of a response whose completion text is [content]. *)
Definition completion_body (content : string) : value :=
  VDict [("choices",
          VList [VDict [("message",
                         VDict [("role", VStr "assistant");
                                ("content", VStr content)])]])].

Definition no_config : Config.t := {| Config.config := VDict [] |}.

(** Eleven compound assignments and the marker, in a text the parser
    rejects: its first line opens a bracket that is never closed. *)
Definition broken_text : string :=
  "s = str(
s += a; s += a; s += a; s += a; s += a; s += a
s += a; s += a; s += a; s += a; s += a
def (:
".

(** Ten compound assignments and the marker. *)
Definition ten_text : string :=
  "s = str(n)
s += a; s += a; s += a; s += a; s += a
s += a; s += a; s += a; s += a; s += a
".

(** Eleven compound assignments and the marker. *)
Definition eleven_text : string :=
  "s = str(n)
s += a; s += a; s += a; s += a; s += a; s += a
s += a; s += a; s += a; s += a; s += a
".

(** Eleven compound assignments and no marker. *)
Definition eleven_numeric_text : string :=
  "n = 0
n += 1; n += 1; n += 1; n += 1; n += 1; n += 1
n += 1; n += 1; n += 1; n += 1; n += 1
".

End Samples.

Definition is_FunctionDef (node : ast) : bool :=
  match node with
  | FunctionDef _ _ _ _ _ => true
  | _ => false
  end.

(** The severity [_calculate_score] reads off one issue. *)
Definition severity_of (issue : value) : value :=
  match issue with
  | VDict d => dict_get d "severity" VNone
  | _ => VNone
  end.

Definition is_dict (x : value) : bool :=
  match x with
  | VDict _ => true
  | _ => false
  end.

(** Number of severities equal to [tier]. *)
Definition tally (tier : string) (severities : list value) : Z :=
  Z.of_nat (List.length (filter (fun s => eq_str s tier) severities)).

Definition nonempty {A : Type} (l : list A) : bool :=
  match l with
  | [] => false
  | _ => true
  end.

(** A [For] node with another [For] node below it. *)
Definition has_inner_For (node : ast) : bool :=
  CodeOptimizer.is_For node && existsb CodeOptimizer.is_For (tl (walk node)).

(** [node.lineno] of a [For] node. *)
Definition lineno_of (node : ast) : Z :=
  match node with
  | For lineno _ _ _ _ => lineno
  | _ => 0
  end.

(** [s.get('priority') == p] on a suggestion. *)
Definition priority_is (p : string) (s : value) : bool :=
  match s with
  | VDict d => eq_str (dict_get d "priority" VNone) p
  | _ => false
  end.

Definition offline : request -> result response := fun _ => Raise ConnectionError.

(** The tree of an assignment followed by [n] compound assignments. *)
Definition sample_assignments (n : nat) : ast :=
  Module (Other "Assign" [Samples.Store "s"; Samples.Call (Samples.Name "str") [Samples.Name "n"]]
            :: repeat (Other "AugAssign"
                         [Samples.Store "s"; Other "Add" []; Samples.Name "a"]) n).

(** A world with the four sample texts; the parser rejects the broken one. *)
Definition sample_text_world : World :=
  Samples.world
    [("ten.py", Samples.ten_text); ("eleven.py", Samples.eleven_text);
     ("numeric.py", Samples.eleven_numeric_text); ("broken.py", Samples.broken_text)]
    [(Samples.ten_text, sample_assignments 10);
     (Samples.eleven_text, sample_assignments 11);
     (Samples.eleven_numeric_text, sample_assignments 11)]
    []
    offline.

(** The requests the three [_analyze_with_ai] methods send. *)
Definition analyzer_request (self : CodeAnalyzer.t) (code file_path : string) : request :=
  chat_request (CodeAnalyzer.api_url self) (CodeAnalyzer.api_key self)
    (chat_payload
       "You are a code analysis expert. Analyze code and return results in JSON format."
       (CodeAnalyzer.analysis_prompt code file_path) (3 # 10) 1500).

Definition reviewer_request (self : CodeReviewer.t) (diff : string) : request :=
  chat_request (CodeReviewer.api_url self) (CodeReviewer.api_key self)
    (chat_payload
       "You are an expert code reviewer. Provide detailed, constructive feedback in JSON format."
       (CodeReviewer.review_prompt diff) (1 # 2) 2000).

Definition optimizer_request (self : CodeOptimizer.t) (code file_path : string) : request :=
  chat_request (CodeOptimizer.api_url self) (CodeOptimizer.api_key self)
    (chat_payload
       "You are a code optimization expert. Provide performance-focused suggestions in JSON format."
       (CodeOptimizer.optimize_prompt code file_path) (3 # 10) 2000).

(** The outcomes of a remote call that count as a failure of the call: no
    response at all (network error, timeout), a response with a client or
    server error status, a response whose body is not JSON, a completion
    whose text is not JSON. *)
Inductive remote_failure (w : World) (req : request) : Prop :=
| NoResponse (e : exn) :
    requests_request w req = Raise e -> remote_failure w req
| ErrorStatus (r : response) :
    requests_request w req = Ok r -> 400 <= status_code r < 600 ->
    remote_failure w req
| MalformedBody (r : response) (e : exn) :
    requests_request w req = Ok r -> json_loads w (text r) = Raise e ->
    remote_failure w req
| MalformedReply (content : string) (e : exn) :
    completion w req = Ok (VStr content) ->
    json_loads w (rstrip (lstrip content)) = Raise e ->
    remote_failure w req.

(** A reply with one issue and one pattern. *)
Definition sample_reply : value :=
  VDict [("issues",
          VList [VDict [("severity", VStr "high");
                        ("message", VStr "unbalanced bracket");
                        ("line_number", VInt 1)]]);
         ("patterns",
          VList [VDict [("pattern_name", VStr "accumulator");
                        ("description", VStr "builds a string piecewise")]]);
         ("dependencies", VList [])].

Definition respond (status : Z) : request -> result response :=
  fun _ => Ok {| status_code := status; text := "<completion body>" |}.

Definition sample_decoded : list (string * value) :=
  [("<completion body>", Samples.completion_body "  <reply text>  ");
   ("<reply text>", sample_reply)].

(** The remote end answers every request with status 300 and a well-formed
    completion. *)
Definition multiple_choices_world : World :=
  Samples.world [] [] sample_decoded (respond 300).

(** The remote end never answers in time. *)
Definition timeout_world : World :=
  Samples.world [] [] sample_decoded (fun _ => Raise Timeout).

(** The remote end answers every request with status 503. *)
Definition unavailable_world : World :=
  Samples.world [] [] sample_decoded (respond 503).

(** An issue [_generate_summary] can count: a dictionary whose severity can
    be a key. *)
Definition well_shaped_issue (issue : value) : bool :=
  match issue with
  | VDict d => CodeAnalyzer.hashable (dict_get d "severity" (VStr "unknown"))
  | _ => false
  end.

Definition well_shaped_issues (issues : value) : bool :=
  match issues with
  | VList items => forallb well_shaped_issue items
  | _ => false
  end.

(** Two files, the second of which the parser rejects; the remote end
    answers every request with the sample reply. *)
Definition sample_batch_world : World :=
  Samples.world
    [("good.py", Samples.ten_text); ("bad.py", Samples.broken_text)]
    [(Samples.ten_text, sample_assignments 10)]
    sample_decoded
    (respond 200).

(** The same two files with the remote end out of reach. *)
Definition sample_offline_world : World :=
  Samples.world
    [("good.py", Samples.ten_text); ("bad.py", Samples.broken_text)]
    [(Samples.ten_text, sample_assignments 10)]
    []
    offline.

(** One file; the remote end suggests two optimizations for it and the
    static analysis adds a third. *)
Definition sample_suggestions : list value :=
  [VDict [("title", VStr "Use join"); ("priority", VStr "high")];
   VDict [("title", VStr "Cache the length"); ("priority", VStr "low")]].

Definition sample_optimize_world : World :=
  Samples.world
    [("eleven.py", Samples.eleven_text)]
    [(Samples.eleven_text, sample_assignments 11)]
    [("<completion body>", Samples.completion_body "<reply text>");
     ("<reply text>", VList sample_suggestions)]
    (respond 200).

(** The two files again; the remote end answers with a JSON array where an
    object is expected. *)
Definition sample_array_world : World :=
  Samples.world
    [("good.py", Samples.ten_text); ("bad.py", Samples.broken_text)]
    [(Samples.ten_text, sample_assignments 10)]
    [("<completion body>", Samples.completion_body "<reply text>");
     ("<reply text>", VList [])]
    (respond 200).

(** A configuration file with a token and a model name, and an environment
    that sets another token and the repository. *)
Definition sample_yaml : value :=
  VDict [("ai", VDict [("model", VStr "tstars2.0")]);
         ("github", VDict [("token", VStr "from-file")]);
         ("analysis", VDict [("exclude", VList [VStr "tests/"; VStr "venv"])])].

Definition sample_env_world : World :=
  {| environ := [("GITHUB_TOKEN", "ghp_sample"); ("GITHUB_REPOSITORY", "octo/repo")];
     path_exists := fun _ => true;
     is_file := fun _ => false;
     rglob_py := fun _ => [];
     read_text := fun _ => Raise OSError;
     yaml_safe_load := fun _ => Ok sample_yaml;
     ast_parse := fun _ => Raise SyntaxError;
     json_loads := fun _ => Raise JSONDecodeError;
     requests_request := offline;
     cleandoc := fun s => s;
     round2 := fun q => q |}.

(** The request [_make_request] sends. *)
Definition github_request (self : GitHubAPI.t) (method endpoint : string)
  (data : value) : request :=
  {| method := method;
     url := GitHubAPI.base_url self ++ "/" ++ endpoint;
     payload := data;
     credential := GitHubAPI.token self;
     timeout := None |}.

(** A world whose remote end answers every request with [status] and the
    body text [body], which decodes to [decoded]. *)
Definition answering_world (status : Z) (body : string) (decoded : value) : World :=
  Samples.world [] [] [(body, decoded)]
    (fun _ => Ok {| status_code := status; text := body |}).

Definition sample_client : GitHubAPI.t :=
  {| GitHubAPI.config := Samples.no_config;
     GitHubAPI.base_url := "https://api.github.com";
     GitHubAPI.token := VStr "ghp_sample";
     GitHubAPI.repository := VStr "octo/repo" |}.

(** A boolean combination with at least one operand, or any other node. *)
Definition has_operands (node : ast) : bool :=
  match node with
  | BoolOp _ [] => false
  | _ => true
  end.

(** The results [analyze_directory] keeps for one file: the result of its
    analysis, or nothing when the analysis raises. *)
Definition kept_result (w : World) (self : CodeAnalyzer.t) (f : string)
  : list CodeAnalyzer.AnalysisResult :=
  match CodeAnalyzer.analyze_file w self f with
  | Ok r => [r]
  | Raise _ => []
  end.

(** No pattern of [patterns] occurs in the path [f]. *)
Definition not_excluded_by (patterns : list string) (f : string) : bool :=
  negb (existsb (fun pattern => contains pattern f) patterns).

(** The number of lines of [code] that hold a character other than white
    space. *)
Definition nonblank_lines (code : string) : Z :=
  Z.of_nat (List.length (filter has_text (split_on LF code))).

(** A configuration that excludes the paths with [bad] in them. *)
Definition excluding_config : Config.t :=
  {| Config.config := VDict [("analysis", VDict [("exclude", VList [VStr "bad"])])] |}.

(** The sum of the counts of a histogram. *)
Definition histogram_total (issue_types : list (value * Z)) : Z :=
  fold_right Z.add 0 (map snd issue_types).

(** No key of the histogram equals an earlier key. *)
Fixpoint distinct_keys (issue_types : list (value * Z)) : bool :=
  match issue_types with
  | [] => true
  | (k, _) :: rest =>
      forallb (fun kv => negb (CodeAnalyzer.key_eqb (fst kv) k)) rest
      && distinct_keys rest
  end.

(** Every key can be a dictionary key and every count is at least 1. *)
Definition counted_entry (kv : value * Z) : bool :=
  CodeAnalyzer.hashable (fst kv) && (1 <=? snd kv).

Definition is_list (x : value) : bool :=
  match x with
  | VList _ => true
  | _ => false
  end.

(** A suggestion of the static analysis for [file_path]: a dictionary with
    that file and a priority of medium or low. *)
Definition static_finding (file_path : string) (s : value) : bool :=
  match s with
  | VDict d =>
      eq_str (dict_get d "file" VNone) file_path
      && (priority_is "medium" s || priority_is "low" s)
  | _ => false
  end.

(** Three files, the second of which cannot be read. *)
Definition sample_unreadable_world : World :=
  {| environ := [];
     path_exists := fun _ => false;
     is_file := fun _ => false;
     rglob_py := fun _ => ["ten.py"; "gone.py"; "eleven.py"];
     read_text := fun p =>
       if String.eqb p "ten.py" then Ok Samples.ten_text
       else if String.eqb p "eleven.py" then Ok Samples.eleven_text
       else Raise OSError;
     yaml_safe_load := fun _ => Ok VNone;
     ast_parse := fun code =>
       if String.eqb code Samples.ten_text then Ok (sample_assignments 10)
       else if String.eqb code Samples.eleven_text then Ok (sample_assignments 11)
       else Raise SyntaxError;
     json_loads := fun _ => Raise JSONDecodeError;
     requests_request := offline;
     cleandoc := fun s => s;
     round2 := fun q => q |}.

(** The name of a class node, and the names of the functions defined
    directly in its body. *)
Definition class_name_of (node : ast) : string :=
  match node with
  | ClassDef name _ _ _ _ => name
  | _ => EmptyString
  end.

Definition function_names (body : list ast) : list string :=
  flat_map (fun item => match item with
                        | FunctionDef name _ _ _ _ => [name]
                        | _ => []
                        end) body.

Definition method_names_of (node : ast) : list string :=
  match node with
  | ClassDef _ _ _ body _ => function_names body
  | _ => []
  end.

(** A function node as the parser builds it: its [args] field is an
    [arguments] node whose positional parameters are [arg] nodes. *)
Definition parsed_function (item : ast) : bool :=
  match item with
  | FunctionDef _ (arguments _ args _ _ _ _ _) _ _ _ =>
      forallb (fun a => match a with arg _ _ => true | _ => false end) args
  | FunctionDef _ _ _ _ _ => false
  | _ => true
  end.

Definition parsed_class (node : ast) : bool :=
  match node with
  | ClassDef _ _ _ body _ => forallb parsed_function body
  | _ => true
  end.

(** [[
      class Outer:
          '''Outer doc.'''
          def run(self, n):
              def helper(): pass
          async def stop(self): pass
          class Inner:
              def ping(self): pass
    ]] *)
Definition sample_nested_classes : ast :=
  Module
    [ClassDef "Outer" [] []
       [Expr (Constant (VStr "Outer doc."));
        FunctionDef "run" (Samples.params ["self"; "n"])
          [FunctionDef "helper" (Samples.params []) [Samples.Pass] [] None] [] None;
        Other "AsyncFunctionDef" [Samples.params ["self"]; Samples.Pass];
        ClassDef "Inner" [] []
          [FunctionDef "ping" (Samples.params ["self"]) [Samples.Pass] [] None] []]
       []].

(** The remote end answers with an object whose issues are texts, not
    objects. *)
Definition sample_text_issues_world : World :=
  Samples.world
    [("good.py", Samples.ten_text); ("bad.py", Samples.broken_text)]
    [(Samples.ten_text, sample_assignments 10)]
    [("<completion body>", Samples.completion_body "<reply text>");
     ("<reply text>", VDict [("issues", VList [VStr "line 3 is too long"])])]
    (respond 200).



(** A unit the batch can read and for which the reply (the decoded reply,
    or the default) is a dictionary whose issues can be counted.  Nothing is
    asked of the parser. *)
Definition unit_answered (w : World) (self : CodeAnalyzer.t) (f : string) : Prop :=
  exists (code : string) (d : dict),
    read_text w f = Ok code
    /\ CodeAnalyzer._analyze_with_ai w self code f = Ok (VDict d)
    /\ well_shaped_issues (dict_get d "issues" (VList [])) = true.

(** The file can be read and the parser returns a tree for its text or
    rejects it with [SyntaxError]. *)
Definition parsed_or_rejected (w : World) (f : string) : bool :=
  match read_text w f with
  | Ok code =>
      match ast_parse w code with
      | Ok _ => true
      | Raise e => is_SyntaxError e
      end
  | Raise _ => false
  end.

(** A text with a null byte in it. *)
Definition null_text : string := "x = 1" ++ String Ascii.zero EmptyString.

(** Three files: the parser returns a tree for the first, raises
    [ValueError] on the null byte of the second and rejects the third with
    [SyntaxError]; the remote end is out of reach. *)
Definition sample_null_byte_world : World :=
  {| environ := [];
     path_exists := fun _ => false;
     is_file := fun _ => false;
     rglob_py := fun _ => ["good.py"; "null.py"; "bad.py"];
     read_text := fun p =>
       if String.eqb p "good.py" then Ok Samples.ten_text
       else if String.eqb p "null.py" then Ok null_text
       else if String.eqb p "bad.py" then Ok Samples.broken_text
       else Raise OSError;
     yaml_safe_load := fun _ => Ok VNone;
     ast_parse := fun code =>
       if String.eqb code Samples.ten_text then Ok (sample_assignments 10)
       else if String.eqb code null_text
            then Raise (ValueError "source code string cannot contain null bytes")
            else Raise SyntaxError;
     json_loads := fun _ => Raise JSONDecodeError;
     requests_request := offline;
     cleandoc := fun s => s;
     round2 := fun q => q |}.

(** [sep.join(lines)] with a line break as the separator. *)
Fixpoint join_lines (lines : list string) : string :=
  match lines with
  | [] => EmptyString
  | line :: rest =>
      match rest with
      | [] => line
      | _ => line ++ String LF (join_lines rest)
      end
  end.

Definition concat_all (l : list string) : string :=
  fold_right String.append EmptyString l.

(** A line that is made of white space characters only. *)
Definition blank (line : string) : Prop :=
  exists ws : list string,
    Forall (fun s => In s white_space) ws /\ line = concat_all ws.

(** [bool(line.strip())] *)
Definition strip_is_text (line : string) : bool :=
  negb (String.eqb (rstrip (lstrip line)) EmptyString).

(** A file of three lines: text, an em space and a no-break space only,
    text after an ideographic space. *)
Definition sample_spaces_text : string :=
  "x = 1" ++ String LF (bytes [226; 128; 131; 194; 160]%nat
                        ++ String LF (bytes [227; 128; 128]%nat ++ "y = 2")).

(** * Properties *)

Open Scope list_scope.

(** ** The walk visits every node once *)

Lemma sum_nat_app (l l' : list nat) :
  sum_nat (l ++ l') = (sum_nat l + sum_nat l')%nat.
Proof.
  unfold sum_nat. induction l as [|x l IH]; simpl; [reflexivity|].
  rewrite IH. lia.
Qed.

Lemma sizes_app (l l' : list ast) : sizes (l ++ l') = (sizes l + sizes l')%nat.
Proof. unfold sizes. rewrite map_app. apply sum_nat_app. Qed.

Lemma sizes_cons (n : ast) (l : list ast) : sizes (n :: l) = (size n + sizes l)%nat.
Proof. reflexivity. Qed.

Lemma sizes_opt (o : option ast) :
  sizes (opt_nodes o) = match o with Some n => size n | None => 0%nat end.
Proof. destruct o; unfold sizes; simpl; lia. Qed.

(** A node is one more than its children together. *)
Lemma size_children (n : ast) : size n = S (sizes (iter_child_nodes n)).
Proof.
  destruct n; cbn [iter_child_nodes];
    repeat (rewrite ?sizes_app, ?sizes_cons, ?sizes_opt);
    cbn [size]; fold (sizes); unfold sizes; simpl; lia.
Qed.

Lemma nodes_opt (o : option ast) :
  flat_map nodes (opt_nodes o) = match o with Some n => nodes n | None => [] end.
Proof. destruct o; simpl; [apply app_nil_r | reflexivity]. Qed.

(** The nodes of a tree are its root and the nodes of its children. *)
Lemma nodes_children (n : ast) :
  nodes n = n :: flat_map nodes (iter_child_nodes n).
Proof.
  destruct n; cbn [iter_child_nodes nodes];
    repeat (rewrite ?flat_map_app, ?nodes_opt); simpl;
    rewrite ?app_nil_r; reflexivity.
Qed.

(** With fuel for every node in the queue, the loop yields the nodes of the
    queued trees, each once. *)
Lemma walk_loop_nodes (fuel : nat) :
  forall todo, (sizes todo <= fuel)%nat ->
    Permutation (walk_loop fuel todo) (flat_map nodes todo).
Proof.
  induction fuel as [|fuel IH]; intros todo Hfuel.
  - destruct todo as [|n rest]; [constructor|].
    rewrite sizes_cons, size_children in Hfuel. lia.
  - destruct todo as [|n rest]; [constructor|].
    cbn [walk_loop flat_map]. rewrite nodes_children. cbn [app].
    constructor.
    rewrite IH.
    + rewrite flat_map_app. apply Permutation_app_comm.
    + rewrite sizes_cons, size_children in Hfuel. rewrite sizes_app. lia.
Qed.

(** More fuel than nodes changes nothing: the loop has ended by itself. *)
Lemma walk_loop_fuel (fuel : nat) :
  forall todo extra, (sizes todo <= fuel)%nat ->
    walk_loop (fuel + extra) todo = walk_loop fuel todo.
Proof.
  induction fuel as [|fuel IH]; intros todo extra Hfuel.
  - destruct todo as [|n rest].
    + destruct extra; reflexivity.
    + rewrite sizes_cons, size_children in Hfuel. lia.
  - destruct todo as [|n rest]; [reflexivity|].
    cbn [Nat.add walk_loop]. f_equal. apply IH.
    rewrite sizes_cons, size_children in Hfuel. rewrite sizes_app. lia.
Qed.

Lemma walk_nodes (tree : ast) : Permutation (walk tree) (nodes tree).
Proof.
  unfold walk. rewrite walk_loop_nodes.
  - simpl. rewrite app_nil_r. reflexivity.
  - rewrite sizes_cons. unfold sizes. simpl. lia.
Qed.

(** The walk yields its root first. *)
Lemma walk_head (tree : ast) : walk tree = tree :: tl (walk tree).
Proof. unfold walk. rewrite size_children. reflexivity. Qed.

Lemma walk_length (n : ast) : List.length (walk n) = size n.
Proof.
  rewrite (Permutation_length (walk_nodes n)).
  remember (size n) as k eqn:Hk. revert n Hk.
  induction k as [k IH] using lt_wf_ind. intros n Hk.
  rewrite nodes_children. rewrite size_children in Hk. subst k. simpl. f_equal.
  assert (Hall : forall c, In c (iter_child_nodes n) ->
                           List.length (nodes c) = size c).
  { intros c Hc. apply (IH (size c)); [|reflexivity].
    clear IH. induction (iter_child_nodes n) as [|x l IHl]; [contradiction|].
    rewrite sizes_cons. destruct Hc as [->|Hc]; [lia|].
    specialize (IHl Hc). lia. }
  clear IH. induction (iter_child_nodes n) as [|x l IHl]; [reflexivity|].
  cbn [flat_map]. rewrite length_app, sizes_cons.
  rewrite Hall by (left; reflexivity).
  rewrite IHl; [reflexivity|]. intros c Hc. apply Hall. right. exact Hc.
Qed.

Lemma child_smaller (n c : ast) :
  In c (iter_child_nodes n) -> (size c < size n)%nat.
Proof.
  rewrite (size_children n).
  induction (iter_child_nodes n) as [|x l IH]; [contradiction|].
  rewrite sizes_cons. intros [->|Hc]; [lia|]. specialize (IH Hc). lia.
Qed.

Lemma nodes_no_larger (n : ast) :
  forall x, In x (nodes n) -> (size x <= size n)%nat.
Proof.
  remember (size n) as k eqn:Hk. revert n Hk.
  induction k as [k IH] using lt_wf_ind. intros n Hk x Hx.
  rewrite nodes_children in Hx. destruct Hx as [<-|Hx]; [lia|].
  apply in_flat_map in Hx. destruct Hx as [c [Hc Hx]].
  pose proof (child_smaller n c Hc) as Hlt.
  assert (size x <= size c)%nat by (apply (IH (size c)) with (n := c); [lia | reflexivity | exact Hx]).
  lia.
Qed.

(** Every node the walk yields after its root lies strictly below the
    root: none of them is the root again. *)
Lemma walk_tail_below (n x : ast) :
  In x (tl (walk n)) -> (size x < size n)%nat /\ x <> n.
Proof.
  intros Hx.
  assert (Hperm : Permutation (tl (walk n)) (flat_map nodes (iter_child_nodes n))).
  { apply (Permutation_cons_inv (a := n)).
    rewrite <- walk_head, <- nodes_children. apply walk_nodes. }
  apply (Permutation_in _ Hperm) in Hx.
  apply in_flat_map in Hx. destruct Hx as [c [Hc Hx]].
  pose proof (child_smaller n c Hc). pose proof (nodes_no_larger c x Hx).
  split; [lia|]. intros ->. lia.
Qed.

(** ** Complexity (analyzer.py) *)

Lemma complexity_step_contribution (complexity : Z) (node : ast) :
  CodeAnalyzer.complexity_step complexity node = complexity + contribution node.
Proof. destruct node; unfold contribution; simpl; lia. Qed.

Lemma fold_complexity (l : list ast) :
  forall complexity,
    fold_left CodeAnalyzer.complexity_step l complexity
    = complexity + sum_contributions l.
Proof.
  unfold sum_contributions.
  induction l as [|n l IH]; intros c; simpl; [lia|].
  rewrite IH, complexity_step_contribution. lia.
Qed.

Lemma sum_contributions_perm (l l' : list ast) :
  Permutation l l' -> sum_contributions l = sum_contributions l'.
Proof.
  unfold sum_contributions.
  induction 1; simpl; lia.
Qed.

Lemma sum_contributions_app (l l' : list ast) :
  sum_contributions (l ++ l') = sum_contributions l + sum_contributions l'.
Proof.
  unfold sum_contributions. induction l as [|n l IH]; simpl; lia.
Qed.

Lemma sum_contributions_flat (l : list ast) :
  sum_contributions (flat_map nodes l)
  = fold_right Z.add 0 (map (fun n => sum_contributions (nodes n)) l).
Proof.
  induction l as [|n l IH]; [reflexivity|].
  cbn [flat_map map fold_right]. rewrite sum_contributions_app, IH. reflexivity.
Qed.

(** The result is 1 plus what each node of the tree adds, whatever the
    order of the traversal. *)
Lemma calculate_complexity_sum (tree : ast) :
  CodeAnalyzer._calculate_complexity tree
  = inject_Z (1 + sum_contributions (nodes tree)).
Proof.
  unfold CodeAnalyzer._calculate_complexity.
  rewrite fold_complexity, (sum_contributions_perm _ _ (walk_nodes tree)).
  reflexivity.
Qed.

Lemma contribution_split (node : ast) :
  contribution node
  = (if counted_once node then 1 else 0) + Spec.boolean_contribution node.
Proof. destruct node; unfold contribution; simpl; lia. Qed.

Lemma sum_contributions_split (l : list ast) :
  sum_contributions l
  = Z.of_nat (List.length (filter counted_once l))
    + fold_right Z.add 0 (map Spec.boolean_contribution l).
Proof.
  unfold sum_contributions.
  induction l as [|n l IH]; [reflexivity|].
  cbn [map fold_right filter]. rewrite IH, contribution_split.
  destruct (counted_once n); cbn [List.length]; lia.
Qed.

Lemma sum_contributions_none (l : list ast) :
  forallb (fun n => negb (counted_once n) && negb (is_BoolOp n)) l = true ->
  sum_contributions l = 0.
Proof.
  unfold sum_contributions.
  induction l as [|n l IH]; [reflexivity|].
  cbn [forallb map fold_right]. intros H.
  apply andb_true_iff in H. destruct H as [Hn Hl].
  rewrite (IH Hl).
  destruct n; simpl in Hn; try discriminate; reflexivity.
Qed.

(** C1, as the claim states it, fails: a unit whose only statement is a
    [with] block has no conditional branch, no loop, no exception handler
    and no boolean combination, and [_calculate_complexity] returns 2.0 for
    it where the claim's count gives 1.0. *)
Lemma complexity_of_with_statement :
  existsb Spec.is_branching (nodes Samples.with_unit) = false
  /\ existsb is_BoolOp (nodes Samples.with_unit) = false
  /\ Spec.computeComplexity Samples.with_unit = 1%Q
  /\ CodeAnalyzer._calculate_complexity Samples.with_unit = 2%Q
  /\ ~ (CodeAnalyzer._calculate_complexity Samples.with_unit
        == Spec.computeComplexity Samples.with_unit)%Q.
Proof.
  repeat split; try reflexivity.
  intros H. vm_compute in H. discriminate H.
Qed.

(** A loop the code does not count: [async for] adds nothing. *)
Example complexity_of_async_for :
  existsb Spec.is_branching (nodes Samples.async_for_unit) = true
  /\ CodeAnalyzer._calculate_complexity Samples.async_for_unit = 1%Q.
Proof. split; reflexivity. Qed.

(** C1 (amended): [_calculate_complexity] returns, as a float, 1 plus one
    for every [If], [For], [While], [With] and [ExceptHandler] node of the
    tree plus the number of operands less one of every [BoolOp] node; a
    tree with no node of these six classes gives exactly 1.0. *)
Theorem calculate_complexity_counts (tree : ast) :
  CodeAnalyzer._calculate_complexity tree
  = inject_Z (1 + Z.of_nat (List.length (filter counted_once (nodes tree)))
                + fold_right Z.add 0 (map Spec.boolean_contribution (nodes tree)))
  /\ (forallb (fun n => negb (counted_once n) && negb (is_BoolOp n)) (nodes tree) = true ->
      CodeAnalyzer._calculate_complexity tree = 1%Q).
Proof.
  split.
  - rewrite calculate_complexity_sum, sum_contributions_split. f_equal. lia.
  - intros H. rewrite calculate_complexity_sum, (sum_contributions_none _ H).
    reflexivity.
Qed.

Lemma calculate_complexity_counts_witness :
  CodeAnalyzer._calculate_complexity Samples.plain_unit = 1%Q
  /\ CodeAnalyzer._calculate_complexity Samples.and3_unit = 4%Q.
Proof.
  split.
  - apply (proj2 (calculate_complexity_counts Samples.plain_unit)). reflexivity.
  - rewrite (proj1 (calculate_complexity_counts Samples.and3_unit)). reflexivity.
Defined.

(** What a node gives with the nodes below it: 1 plus what it adds plus,
    for each of its children, the complexity of the child less 1. *)
Lemma calculate_complexity_children (node : ast) :
  (CodeAnalyzer._calculate_complexity node
   == 1 + inject_Z (contribution node)
      + fold_right Qplus 0
          (map (fun child => CodeAnalyzer._calculate_complexity child - 1)
               (iter_child_nodes node)))%Q.
Proof.
  rewrite calculate_complexity_sum, nodes_children.
  unfold sum_contributions at 1. cbn [map fold_right].
  fold (sum_contributions (flat_map nodes (iter_child_nodes node))).
  rewrite sum_contributions_flat, !inject_Z_plus. change (inject_Z 1) with 1%Q.
  rewrite <- Qplus_assoc. apply Qplus_comp; [reflexivity|].
  apply Qplus_comp; [reflexivity|].
  induction (iter_child_nodes node) as [|child children IH]; [reflexivity|].
  cbn [map fold_right]. rewrite inject_Z_plus, IH, calculate_complexity_sum.
  rewrite inject_Z_plus. change (inject_Z 1) with 1%Q. ring.
Qed.

(** C8: for every [BoolOp] node of n operands, n >= 2, of a tree,
    [_calculate_complexity] adds exactly n - 1 (at least 1) for that node:
    the walk reaches the node, the accumulator leaves the node's step n - 1
    above what it entered it with, and the result is n - 1 more than the
    loop gives over the other nodes of the walk.  The complexity of a
    boolean combination is n - 1 above what its operator and its operands
    bring. *)
Theorem boolop_adds_operands_less_one (tree op : ast) (values : list ast) (n : nat) :
  In (BoolOp op values) (nodes tree) ->
  List.length values = n -> (2 <= n)%nat ->
  (exists before after : list ast,
      walk tree = before ++ BoolOp op values :: after
      /\ CodeAnalyzer._calculate_complexity tree
         = inject_Z (fold_left CodeAnalyzer.complexity_step after
                       (fold_left CodeAnalyzer.complexity_step before 1
                        + (Z.of_nat n - 1)))
      /\ CodeAnalyzer._calculate_complexity tree
         = inject_Z (fold_left CodeAnalyzer.complexity_step (before ++ after) 1
                     + (Z.of_nat n - 1)))
  /\ (CodeAnalyzer._calculate_complexity (BoolOp op values)
      == 1 + inject_Z (Z.of_nat n - 1)
         + fold_right Qplus 0
             (map (fun child => CodeAnalyzer._calculate_complexity child - 1)
                  (op :: values)))%Q
  /\ 1 <= Z.of_nat n - 1.
Proof.
  intros Hnode Hlen Hn. subst n. split; [|split; [|lia]].
  - apply (Permutation_in _ (Permutation_sym (walk_nodes tree))) in Hnode.
    destruct (in_split _ _ Hnode) as [before [after Hwalk]].
    exists before, after. split; [exact Hwalk|].
    unfold CodeAnalyzer._calculate_complexity. rewrite Hwalk. split.
    + rewrite fold_left_app. reflexivity.
    + f_equal. rewrite !fold_complexity, !sum_contributions_app.
      change (BoolOp op values :: after) with ([BoolOp op values] ++ after)%list.
      rewrite sum_contributions_app. unfold sum_contributions at 2.
      unfold contribution. cbn [map fold_right CodeAnalyzer.complexity_step]. lia.
  - apply (calculate_complexity_children (BoolOp op values)).
Qed.

Lemma boolop_adds_operands_less_one_witness :
  (exists before after : list ast,
      walk Samples.and3_unit
      = before ++ BoolOp (Other "And" [])
                    [Samples.Name "a"; Samples.Name "b"; Samples.Name "c"] :: after
      /\ CodeAnalyzer._calculate_complexity Samples.and3_unit
         = inject_Z (fold_left CodeAnalyzer.complexity_step after
                       (fold_left CodeAnalyzer.complexity_step before 1 + (3 - 1)))
      /\ CodeAnalyzer._calculate_complexity Samples.and3_unit
         = inject_Z (fold_left CodeAnalyzer.complexity_step (before ++ after) 1
                     + (3 - 1)))
  /\ In (BoolOp (Other "And" []) [Samples.Name "a"; Samples.Name "b"; Samples.Name "c"])
       (nodes Samples.and3_unit).
Proof.
  assert (Hnode : In (BoolOp (Other "And" [])
                        [Samples.Name "a"; Samples.Name "b"; Samples.Name "c"])
                    (nodes Samples.and3_unit))
    by (simpl; right; right; left; reflexivity).
  split; [|exact Hnode].
  exact (proj1 (boolop_adds_operands_less_one Samples.and3_unit (Other "And" [])
                  [Samples.Name "a"; Samples.Name "b"; Samples.Name "c"] 3
                  Hnode eq_refl (le_S _ _ (le_n 2)))).
Defined.

(** The walk of the sample reaches the combination third, with 2 gathered:
    the step takes the accumulator to 4, which is the result. *)
Example boolop_in_sample_walk :
  exists after : list ast,
    walk Samples.and3_unit
    = [Samples.and3_unit;
       If (BoolOp (Other "And" []) [Samples.Name "a"; Samples.Name "b"; Samples.Name "c"])
          [Samples.Pass] []]
      ++ BoolOp (Other "And" []) [Samples.Name "a"; Samples.Name "b"; Samples.Name "c"]
      :: after
    /\ CodeAnalyzer._calculate_complexity Samples.and3_unit = 4%Q.
Proof. eexists. split; reflexivity. Qed.

(** ** Declarations (documentor.py) *)

Lemma extract_function_other (w : World) (functions : list Documentor.FunctionInfo)
  (node : ast) :
  is_FunctionDef node = false ->
  Documentor.extract_function w functions node = Ok functions.
Proof. destruct node; simpl; intros H; try discriminate; reflexivity. Qed.

Lemma extract_function_raises (w : World) (functions : list Documentor.FunctionInfo)
  (node : ast) :
  is_FunctionDef node = true ->
  Documentor.extract_function w functions node = Raise AttributeError.
Proof. destruct node; simpl; intros H; try discriminate; reflexivity. Qed.

Lemma extract_functions_loop (w : World) (l : list ast) :
  forall functions,
    foldM (Documentor.extract_function w) functions l
    = if existsb is_FunctionDef l then Raise AttributeError else Ok functions.
Proof.
  induction l as [|n l IH]; intros functions; [reflexivity|].
  cbn [foldM existsb]. destruct (is_FunctionDef n) eqn:Hn.
  - rewrite (extract_function_raises _ _ _ Hn). reflexivity.
  - rewrite (extract_function_other _ _ _ Hn). simpl. apply IH.
Qed.

(** [_extract_functions] returns only for a unit with no function
    definition at all: the first [FunctionDef] the walk reaches, method or
    not, makes it raise. *)
Lemma extract_functions_outcome (w : World) (tree : ast) :
  Documentor._extract_functions w tree
  = if existsb is_FunctionDef (walk tree) then Raise AttributeError else Ok [].
Proof. apply extract_functions_loop. Qed.

(** C2: on a unit with one class of two methods and one free function,
    [_extract_classes] returns the class with its two methods in order, and
    [_extract_functions] raises [AttributeError] where the claim has it
    return the one free function; so does the extraction as a whole. *)
Theorem extract_declarations_raises (w : World) :
  Documentor._extract_classes w Samples.class_unit
  = Ok [{| Documentor.class_name := "A";
           Documentor.class_docstring := None;
           Documentor.methods :=
             [{| Documentor.name := "f"; Documentor.docstring := None;
                 Documentor.args := ["self"] |};
              {| Documentor.name := "g"; Documentor.docstring := None;
                 Documentor.args := ["self"; "x"] |}] |}]
  /\ Documentor._extract_functions w Samples.class_unit = Raise AttributeError
  /\ Documentor.extract_declarations w Samples.class_unit = Raise AttributeError.
Proof. repeat split. Qed.

(** ** Review score (reviewer.py) *)

Lemma count_severity_tally (tier : string) (issues : list value) :
  forallb is_dict issues = true ->
  CodeReviewer.count_severity tier issues
  = Ok (tally tier (map severity_of issues)).
Proof.
  unfold tally.
  induction issues as [|i issues IH]; intros Hd; [reflexivity|].
  cbn [forallb] in Hd. apply andb_true_iff in Hd. destruct Hd as [Hi Hd].
  destruct i; try discriminate Hi.
  cbn [CodeReviewer.count_severity get bind map severity_of filter].
  rewrite (IH Hd). cbn [bind].
  destruct (eq_str (dict_get d "severity" VNone) tier); cbn [List.length]; f_equal; lia.
Qed.

Lemma tally_cons (tier : string) (s : value) (l : list value) :
  tally tier (s :: l) = (if eq_str s tier then 1 else 0) + tally tier l.
Proof.
  unfold tally. cbn [filter]. destruct (eq_str s tier); cbn [List.length]; lia.
Qed.

(** The weights of the three tiers exclude one another. *)
Lemma tier_weight_tally (s : value) :
  (Spec.tier_weight s
   == inject_Z ((if eq_str s "critical" then 1 else 0) * 2
                + (if eq_str s "medium" then 1 else 0) * 1)
      + inject_Z (if eq_str s "low" then 1 else 0) * (1 # 2))%Q.
Proof.
  unfold Spec.tier_weight.
  destruct s; try reflexivity. cbn [eq_str].
  destruct (String.eqb_spec s "critical") as [->|_]; [reflexivity|].
  destruct (String.eqb_spec s "medium") as [->|_]; [reflexivity|].
  destruct (String.eqb s "low"); reflexivity.
Qed.

Lemma raw_score_fold (severities : list value) :
  forall acc : Q,
    (fold_left (fun acc s => acc - Spec.tier_weight s) severities acc
     == acc
        - inject_Z (tally "critical" severities * 2 + tally "medium" severities * 1)
        - inject_Z (tally "low" severities) * (1 # 2))%Q.
Proof.
  induction severities as [|s l IH]; intros acc.
  - unfold tally. simpl. ring.
  - cbn [fold_left]. rewrite IH, !tally_cons, (tier_weight_tally s).
    rewrite !inject_Z_plus, !inject_Z_mult, !inject_Z_plus. ring.
Qed.

(** [int] of a float is the truncation toward zero. *)
Lemma int_of_float_truncate (x : Q) : CodeReviewer.int_of_float x = Spec.truncate x.
Proof.
  unfold CodeReviewer.int_of_float, Spec.truncate.
  destruct x as [n d]. cbn [Qnum Qden].
  destruct (Qle_bool 0 (n # d)) eqn:Hle.
  - apply Qle_bool_iff in Hle. unfold Qle in Hle. cbn in Hle.
    unfold Qfloor. apply Z.quot_div_nonneg; lia.
  - assert (Hn : n < 0).
    { destruct (Z.lt_ge_cases n 0) as [H|H]; [exact H|].
      assert (Qle_bool 0 (n # d) = true) as Ht
          by (apply Qle_bool_iff; unfold Qle; cbn; lia).
      congruence. }
    unfold Qceiling, Qfloor. cbn [Qopp Qnum Qden].
    rewrite <- (Z.opp_involutive n) at 1.
    rewrite Z.quot_opp_l by lia.
    f_equal. apply Z.quot_div_nonneg; lia.
Qed.

Lemma truncate_comp (x y : Q) : (x == y)%Q -> Spec.truncate x = Spec.truncate y.
Proof.
  intros H. unfold Spec.truncate.
  assert (Hb : Qle_bool 0 x = Qle_bool 0 y).
  { destruct (Qle_bool 0 x) eqn:Hx, (Qle_bool 0 y) eqn:Hy; try reflexivity.
    - apply Qle_bool_iff in Hx. rewrite H in Hx. apply Qle_bool_iff in Hx. congruence.
    - apply Qle_bool_iff in Hy. rewrite <- H in Hy. apply Qle_bool_iff in Hy. congruence. }
  rewrite Hb. destruct (Qle_bool 0 y).
  - apply Qfloor_comp, H.
  - apply Qceiling_comp, H.
Qed.

Lemma clamp_max_min (x : Z) : Z.max 1 (Z.min 10 x) = Spec.clamp 1 10 x.
Proof.
  unfold Spec.clamp.
  destruct (Z.ltb_spec x 1), (Z.ltb_spec 10 x); lia.
Qed.

Lemma truncate_below_one (x : Q) : (x < 1)%Q -> Spec.truncate x <= 0.
Proof.
  intros Hx. unfold Spec.truncate. destruct (Qle_bool 0 x) eqn:Hle.
  - pose proof (Qfloor_le x) as Hf.
    assert (H1 : (inject_Z (Qfloor x) < inject_Z 1)%Q)
      by (eapply Qle_lt_trans; [exact Hf | exact Hx]).
    rewrite <- Zlt_Qlt in H1. lia.
  - assert (Hneg : (x < 0)%Q).
    { apply Qnot_le_lt. intros H0. apply Qle_bool_iff in H0. congruence. }
    pose proof (Qceiling_lt x) as Hc.
    assert (H1 : (inject_Z (Qceiling x - 1) < inject_Z 0)%Q)
      by (eapply Qlt_trans; [exact Hc | exact Hneg]).
    rewrite <- Zlt_Qlt in H1. lia.
Qed.

Lemma inject_Z_sub (a b : Z) : (inject_Z (a - b) == inject_Z a - inject_Z b)%Q.
Proof. unfold Z.sub. rewrite inject_Z_plus, inject_Z_opp. reflexivity. Qed.

Lemma calculate_score_refines (review : dict) (issues : list value) :
  dict_get review "issues" (VList []) = VList issues ->
  forallb is_dict issues = true ->
  CodeReviewer._calculate_score (VDict review)
  = Ok (Spec.computeReviewScore (map severity_of issues)
          (truthy (dict_get review "suggestions" VNone))).
Proof.
  intros Hissues Hdicts.
  unfold CodeReviewer._calculate_score, CodeReviewer.issues_of_tier.
  cbn [get bind]. rewrite Hissues. cbn [iter bind].
  rewrite !(count_severity_tally _ _ Hdicts). cbn [bind].
  f_equal. rewrite clamp_max_min, int_of_float_truncate.
  unfold Spec.computeReviewScore. f_equal. apply truncate_comp.
  unfold Spec.raw_score.
  destruct (truthy (dict_get review "suggestions" VNone));
    rewrite raw_score_fold, !inject_Z_sub, !inject_Z_plus;
    change (inject_Z 10) with 10%Q; ring.
Qed.

(** C3: for a review whose issues and suggestions are lists, the score is
    10 less 2 per critical, 1 per medium and one half per low issue, plus 1
    when there is a suggestion, truncated toward zero and clamped to
    [1, 10]: 10 with no issue and no suggestion, 4 with three critical
    issues and no suggestion, and 1 whenever the raw value is below 1. *)
Theorem calculate_score_contract (review : dict) (issues suggestions : list value) :
  dict_get review "issues" (VList []) = VList issues ->
  forallb is_dict issues = true ->
  dict_get review "suggestions" VNone = VList suggestions ->
  exists score : Z,
    CodeReviewer._calculate_score (VDict review) = Ok score
    /\ score = Spec.computeReviewScore (map severity_of issues) (nonempty suggestions)
    /\ 1 <= score <= 10
    /\ (issues = [] -> suggestions = [] -> score = 10)
    /\ (map severity_of issues = [VStr "critical"; VStr "critical"; VStr "critical"] ->
        suggestions = [] -> score = 4)
    /\ ((Spec.raw_score (map severity_of issues) (nonempty suggestions) < 1)%Q ->
        score = 1).
Proof.
  intros Hissues Hdicts Hsuggestions.
  eexists. split; [apply (calculate_score_refines _ _ Hissues Hdicts)|].
  rewrite Hsuggestions.
  replace (truthy (VList suggestions)) with (nonempty suggestions)
    by (destruct suggestions; reflexivity).
  split; [reflexivity|]. split; [|split; [|split]].
  - unfold Spec.computeReviewScore, Spec.clamp.
    destruct (Z.ltb_spec (Spec.truncate (Spec.raw_score (map severity_of issues)
                                           (nonempty suggestions))) 1);
      [lia|].
    destruct (Z.ltb_spec 10 (Spec.truncate (Spec.raw_score (map severity_of issues)
                                              (nonempty suggestions)))); lia.
  - intros -> ->. reflexivity.
  - intros -> ->. reflexivity.
  - intros Hraw. apply truncate_below_one in Hraw.
    unfold Spec.computeReviewScore, Spec.clamp.
    destruct (Z.ltb_spec (Spec.truncate (Spec.raw_score (map severity_of issues)
                                           (nonempty suggestions))) 1); lia.
Qed.

Lemma calculate_score_contract_witness :
  CodeReviewer._calculate_score
    (VDict [("summary", VStr "Risky change.");
            ("issues",
             VList [VDict [("severity", VStr "critical"); ("line", VInt 3)];
                    VDict [("severity", VStr "critical"); ("line", VInt 9)];
                    VDict [("severity", VStr "critical"); ("line", VInt 12)]]);
            ("suggestions", VList [])])
  = Ok 4.
Proof.
  destruct (calculate_score_contract
              [("summary", VStr "Risky change.");
               ("issues",
                VList [VDict [("severity", VStr "critical"); ("line", VInt 3)];
                       VDict [("severity", VStr "critical"); ("line", VInt 9)];
                       VDict [("severity", VStr "critical"); ("line", VInt 12)]]);
               ("suggestions", VList [])]
              [VDict [("severity", VStr "critical"); ("line", VInt 3)];
               VDict [("severity", VStr "critical"); ("line", VInt 9)];
               VDict [("severity", VStr "critical"); ("line", VInt 12)]]
              [] eq_refl eq_refl eq_refl)
    as [score [Hrun [_ [_ [_ [Hthree _]]]]]].
  rewrite Hrun, (Hthree eq_refl eq_refl). reflexivity.
Defined.

(** Sample scores: the clamp floor, one half truncated, the bonus. *)
Example calculate_score_samples :
  CodeReviewer._calculate_score (VDict []) = Ok 10
  /\ CodeReviewer._calculate_score
       (VDict [("issues", VList (repeat (VDict [("severity", VStr "critical")]) 6))])
     = Ok 1
  /\ CodeReviewer._calculate_score
       (VDict [("issues", VList [VDict [("severity", VStr "low")]])])
     = Ok 9
  /\ CodeReviewer._calculate_score
       (VDict [("issues", VList [VDict [("severity", VStr "medium")]]);
               ("suggestions", VList [VDict [("title", VStr "Rename")]])])
     = Ok 10.
Proof. repeat split. Qed.

(** ** Nested loops (optimizer.py) *)

Lemma scan_children_found (file_path : string) (lineno : Z) (children : list ast)
  (suggestions : list value) :
  CodeOptimizer.scan_children file_path lineno children suggestions
  = if existsb CodeOptimizer.is_For children
    then suggestions ++ [CodeOptimizer.nested_loop_suggestion file_path lineno]
    else suggestions.
Proof.
  induction children as [|c l IH]; [reflexivity|].
  cbn [CodeOptimizer.scan_children existsb].
  destruct (CodeOptimizer.is_For c); [reflexivity | exact IH].
Qed.

Lemma check_node_found (file_path : string) (suggestions : list value) (node : ast) :
  CodeOptimizer.check_node file_path suggestions node
  = if has_inner_For node
    then suggestions
           ++ [CodeOptimizer.nested_loop_suggestion file_path (lineno_of node)]
    else suggestions.
Proof.
  unfold has_inner_For.
  destruct node; try reflexivity.
  cbn [CodeOptimizer.check_node CodeOptimizer.is_For andb lineno_of].
  apply scan_children_found.
Qed.

Lemma check_nodes_found (file_path : string) (l : list ast) :
  forall suggestions,
    fold_left (CodeOptimizer.check_node file_path) l suggestions
    = suggestions
        ++ map (fun L => CodeOptimizer.nested_loop_suggestion file_path (lineno_of L))
             (filter has_inner_For l).
Proof.
  induction l as [|n l IH]; intros suggestions.
  - simpl. symmetry. apply app_nil_r.
  - cbn [fold_left filter]. rewrite IH, check_node_found.
    destruct (has_inner_For n); [|reflexivity].
    cbn [map]. rewrite <- app_assoc. reflexivity.
Qed.

(** The findings are those of the [For] nodes with a [For] below them, in
    the order of the walk. *)
Lemma nested_iteration_walk (file_path : string) (tree : ast) :
  CodeOptimizer.detectNestedIteration file_path tree []
  = map (fun L => CodeOptimizer.nested_loop_suggestion file_path (lineno_of L))
      (filter has_inner_For (walk tree)).
Proof.
  unfold CodeOptimizer.detectNestedIteration. rewrite check_nodes_found.
  reflexivity.
Qed.

Lemma filter_length_perm {A : Type} (f : A -> bool) (l l' : list A) :
  Permutation l l' -> List.length (filter f l) = List.length (filter f l').
Proof.
  induction 1 as [|x l l' _ IH|x y l|l l' l'' _ IH1 _ IH2]; cbn [filter].
  - reflexivity.
  - destruct (f x); cbn [List.length]; congruence.
  - destruct (f x), (f y); reflexivity.
  - congruence.
Qed.

Lemma filter_length_implied {A : Type} (f g : A -> bool) (l : list A) :
  (forall x, f x = true -> g x = true) ->
  (List.length (filter f l) <= List.length (filter g l))%nat.
Proof.
  intros Hfg. induction l as [|x l IH]; [reflexivity|].
  cbn [filter]. destruct (f x) eqn:Hf.
  - rewrite (Hfg x Hf). cbn [List.length]. lia.
  - destruct (g x); cbn [List.length]; lia.
Qed.

Lemma filter_none {A : Type} (f : A -> bool) (l : list A) :
  (forall x, In x l -> f x = false) -> filter f l = [].
Proof.
  intros H. induction l as [|x l IH]; [reflexivity|].
  cbn [filter]. rewrite (H x (or_introl eq_refl)).
  apply IH. intros y Hy. apply H. right. exact Hy.
Qed.

Lemma existsb_none {A : Type} (f : A -> bool) (l : list A) :
  existsb f l = false -> forall x, In x l -> f x = false.
Proof.
  intros H x Hx. destruct (f x) eqn:Hf; [|reflexivity].
  rewrite <- H. symmetry. apply existsb_exists. exists x. split; assumption.
Qed.

(** C4, as the claim states it, fails: for a loop that contains a loop
    that contains a loop, two findings are emitted, one tagged with the
    line of the outermost loop and one with the line of the middle loop. *)
Lemma nested_iteration_three_deep :
  List.length (filter CodeOptimizer.is_For (nodes Samples.three_deep)) = 3%nat
  /\ CodeOptimizer.detectNestedIteration "app.py" Samples.three_deep []
     = [CodeOptimizer.nested_loop_suggestion "app.py" 1;
        CodeOptimizer.nested_loop_suggestion "app.py" 2]
  /\ List.length (CodeOptimizer.detectNestedIteration "app.py" Samples.three_deep [])
     <> 1%nat.
Proof. repeat split. discriminate. Qed.

(** Loops that are not [for] statements are not looked at. *)
Example nested_iteration_while :
  CodeOptimizer.detectNestedIteration "app.py" Samples.while_nest [] = [].
Proof. reflexivity. Qed.

(** C4 (amended): the findings are one for each [For] node that has
    another [For] node anywhere below it, tagged with its line, in the order
    of the walk, so at most one for each [For] node of the tree.  A [For]
    loop with no [For] below it yields nothing; a [For] loop with exactly
    two [For] loops below it, neither of which has a [For] below itself,
    yields exactly one finding. *)
Theorem nested_iteration_findings (file_path : string) (tree : ast) :
  CodeOptimizer.detectNestedIteration file_path tree []
  = map (fun L => CodeOptimizer.nested_loop_suggestion file_path (lineno_of L))
      (filter has_inner_For (walk tree))
  /\ (List.length (CodeOptimizer.detectNestedIteration file_path tree [])
      <= List.length (filter CodeOptimizer.is_For (nodes tree)))%nat
  /\ (CodeOptimizer.is_For tree = true ->
      existsb CodeOptimizer.is_For (tl (walk tree)) = false ->
      CodeOptimizer.detectNestedIteration file_path tree [] = [])
  /\ (forall L1 L2 : ast,
         CodeOptimizer.is_For tree = true ->
         filter CodeOptimizer.is_For (tl (walk tree)) = [L1; L2] ->
         has_inner_For L1 = false -> has_inner_For L2 = false ->
         CodeOptimizer.detectNestedIteration file_path tree []
         = [CodeOptimizer.nested_loop_suggestion file_path (lineno_of tree)]).
Proof.
  pose proof (nested_iteration_walk file_path tree) as Hfound.
  split; [exact Hfound|]. rewrite Hfound. split; [|split].
  - rewrite length_map, <- (filter_length_perm _ _ _ (walk_nodes tree)).
    apply filter_length_implied. intros x Hx.
    unfold has_inner_For in Hx. apply andb_true_iff in Hx. apply Hx.
  - intros Hfor Hnone. rewrite walk_head. cbn [filter].
    unfold has_inner_For at 1. rewrite Hfor, Hnone. cbn [andb].
    rewrite filter_none; [reflexivity|].
    intros x Hx. unfold has_inner_For.
    rewrite (existsb_none _ _ Hnone x Hx). reflexivity.
  - intros L1 L2 Hfor Hinner H1 H2. rewrite walk_head. cbn [filter].
    assert (Hsome : existsb CodeOptimizer.is_For (tl (walk tree)) = true).
    { apply existsb_exists. exists L1.
      apply filter_In. rewrite Hinner. left. reflexivity. }
    unfold has_inner_For at 1. rewrite Hfor, Hsome. cbn [andb map].
    rewrite filter_none; [reflexivity|].
    intros x Hx. destruct (has_inner_For x) eqn:Hhas; [|reflexivity].
    assert (Hin : In x (filter CodeOptimizer.is_For (tl (walk tree)))).
    { apply filter_In. split; [exact Hx|].
      unfold has_inner_For in Hhas. apply andb_true_iff in Hhas. apply Hhas. }
    rewrite Hinner in Hin.
    destruct Hin as [<-|[<-|[]]]; congruence.
Qed.

Lemma nested_iteration_findings_witness :
  CodeOptimizer.detectNestedIteration "app.py" Samples.two_inside []
  = [CodeOptimizer.nested_loop_suggestion "app.py" 1]
  /\ CodeOptimizer.detectNestedIteration "app.py" Samples.loop_j [] = [].
Proof.
  split.
  - apply (proj2 (proj2 (proj2 (nested_iteration_findings "app.py" Samples.two_inside)))
             Samples.loop_j Samples.loop_k4); reflexivity.
  - apply (proj1 (proj2 (proj2 (nested_iteration_findings "app.py" Samples.loop_j))));
      reflexivity.
Defined.

(** ** String concatenation (optimizer.py) *)

Lemma nested_loop_findings_medium (file_path : string) (tree : ast) :
  filter (priority_is "low") (CodeOptimizer.detectNestedIteration file_path tree [])
  = [].
Proof.
  rewrite nested_iteration_walk.
  induction (filter has_inner_For (walk tree)) as [|L l IH]; [reflexivity|].
  exact IH.
Qed.

Lemma static_analysis_parsed (w : World) (code file_path : string) (tree : ast) :
  ast_parse w code = Ok tree ->
  CodeOptimizer._static_analysis w code file_path
  = Ok (CodeOptimizer.detectNestedIteration file_path tree []
          ++ (if (10 <? count code "+=") && contains "str" code
              then [CodeOptimizer.concatenation_suggestion file_path]
              else [])).
Proof.
  intros Hparse. unfold CodeOptimizer._static_analysis. rewrite Hparse.
  unfold CodeOptimizer.detectConcatenationHeuristic.
  rewrite Z.gtb_ltb.
  destruct ((10 <? count code "+=") && contains "str" code);
    [reflexivity | rewrite app_nil_r; reflexivity].
Qed.

(** C5, as the claim states it, fails: a text with eleven occurrences of
    the token and the marker in it, which the parser rejects, yields no
    finding; [_static_analysis] returns before the check. *)
Lemma concatenation_unparsed_text :
  count Samples.broken_text "+=" = 11
  /\ contains "str" Samples.broken_text = true
  /\ ast_parse sample_text_world Samples.broken_text = Raise SyntaxError
  /\ CodeOptimizer._static_analysis sample_text_world Samples.broken_text "broken.py"
     = Ok [].
Proof. repeat split. Qed.

(** C5 (amended): for a text the parser accepts, the low-priority findings
    of [_static_analysis] are the one concatenation finding if the token
    occurs more than 10 times and the marker occurs in the text, and none
    otherwise: none with exactly 10 occurrences, none with 11 occurrences
    and no marker.  For a text the parser rejects there is no finding. *)
Theorem concatenation_heuristic (w : World) (code file_path : string) :
  (forall tree : ast,
      ast_parse w code = Ok tree ->
      exists suggestions : list value,
        CodeOptimizer._static_analysis w code file_path = Ok suggestions
        /\ filter (priority_is "low") suggestions
           = (if (10 <? count code "+=") && contains "str" code
              then [CodeOptimizer.concatenation_suggestion file_path]
              else [])
        /\ (filter (priority_is "low") suggestions
            = [CodeOptimizer.concatenation_suggestion file_path]
            <-> 10 < count code "+=" /\ contains "str" code = true)
        /\ (count code "+=" = 10 -> filter (priority_is "low") suggestions = [])
        /\ (contains "str" code = false -> filter (priority_is "low") suggestions = []))
  /\ (ast_parse w code = Raise SyntaxError ->
      CodeOptimizer._static_analysis w code file_path = Ok []).
Proof.
  split.
  - intros tree Hparse. eexists. split; [apply (static_analysis_parsed _ _ _ _ Hparse)|].
    rewrite filter_app, nested_loop_findings_medium. cbn [app].
    assert (Hlow : filter (priority_is "low")
                     (if (10 <? count code "+=") && contains "str" code
                      then [CodeOptimizer.concatenation_suggestion file_path]
                      else [])
                   = (if (10 <? count code "+=") && contains "str" code
                      then [CodeOptimizer.concatenation_suggestion file_path]
                      else []))
      by (destruct ((10 <? count code "+=") && contains "str" code); reflexivity).
    rewrite Hlow. split; [reflexivity|]. split; [|split].
    + destruct (Z.ltb_spec 10 (count code "+=")) as [Hc|Hc];
        destruct (contains "str" code); cbn [andb]; split;
        try (intros _; split; [assumption | reflexivity]);
        try reflexivity; try discriminate;
        intros [H1 H2]; try discriminate H2; lia.
    + intros ->. reflexivity.
    + intros ->. rewrite andb_false_r. reflexivity.
  - intros Hparse. unfold CodeOptimizer._static_analysis. rewrite Hparse. reflexivity.
Qed.

Lemma concatenation_heuristic_witness :
  (exists suggestions : list value,
      CodeOptimizer._static_analysis sample_text_world Samples.eleven_text "eleven.py"
      = Ok suggestions
      /\ filter (priority_is "low") suggestions
         = [CodeOptimizer.concatenation_suggestion "eleven.py"])
  /\ CodeOptimizer._static_analysis sample_text_world Samples.broken_text "broken.py"
     = Ok [].
Proof.
  split.
  - destruct (proj1 (concatenation_heuristic sample_text_world Samples.eleven_text
                       "eleven.py") (sample_assignments 11) eq_refl)
      as [suggestions [Hrun [Hlow _]]].
    exists suggestions. split; [exact Hrun | exact Hlow].
  - apply (proj2 (concatenation_heuristic sample_text_world Samples.broken_text
                    "broken.py")).
    reflexivity.
Defined.

(** The three sample texts of the specification. *)
Example concatenation_samples :
  count Samples.ten_text "+=" = 10
  /\ CodeOptimizer._static_analysis sample_text_world Samples.ten_text "ten.py" = Ok []
  /\ count Samples.eleven_text "+=" = 11
  /\ CodeOptimizer._static_analysis sample_text_world Samples.eleven_text "eleven.py"
     = Ok [CodeOptimizer.concatenation_suggestion "eleven.py"]
  /\ count Samples.eleven_numeric_text "+=" = 11
  /\ contains "str" Samples.eleven_numeric_text = false
  /\ CodeOptimizer._static_analysis sample_text_world Samples.eleven_numeric_text
       "numeric.py" = Ok [].
Proof. repeat split. Qed.

(** ** Remote calls (analyzer.py, reviewer.py, optimizer.py) *)

(** The shape the [_analyze_with_ai] methods share: the call, the [strip],
    the decoding, all inside one [try] whose handler returns a default. *)
Lemma guarded_call_never_raises (w : World) (req : request) (default : value) :
  exists v : value,
    try_except
      (content <- completion w req ;;
       result_text <- strip content ;;
       json_loads w result_text)
      (fun _ => Ok default)
    = Ok v.
Proof.
  destruct (content <- completion w req ;;
            result_text <- strip content ;;
            json_loads w result_text) as [v|e].
  - exists v. reflexivity.
  - exists default. reflexivity.
Qed.

Lemma guarded_call_default (w : World) (req : request) (default : value) :
  remote_failure w req ->
  try_except
    (content <- completion w req ;;
     result_text <- strip content ;;
     json_loads w result_text)
    (fun _ => Ok default)
  = Ok default.
Proof.
  intros [e He | r Hr Hstatus | r e Hr He | content e Hc He].
  - unfold completion. rewrite He. reflexivity.
  - unfold completion, raise_for_status. rewrite Hr. cbn [bind].
    destruct (Z.leb_spec 400 (status_code r)); [|lia].
    destruct (Z.ltb_spec (status_code r) 600); [|lia].
    reflexivity.
  - unfold completion. rewrite Hr. cbn [bind].
    destruct (raise_for_status r); [|reflexivity].
    cbn [bind]. rewrite He. reflexivity.
  - rewrite Hc. cbn [bind strip]. rewrite He. reflexivity.
Qed.

(** C7, as the claim states it, fails: a response with status 300, which
    is not a 2xx status, passes [raise_for_status]; its well-formed
    completion is decoded and returned in place of the default. *)
Lemma remote_status_300_is_used :
  requests_request multiple_choices_world
    (analyzer_request (CodeAnalyzer.init multiple_choices_world Samples.no_config)
       Samples.broken_text "broken.py")
  = Ok {| status_code := 300; text := "<completion body>" |}
  /\ CodeAnalyzer._analyze_with_ai multiple_choices_world
       (CodeAnalyzer.init multiple_choices_world Samples.no_config)
       Samples.broken_text "broken.py"
     = Ok sample_reply
  /\ sample_reply <> CodeAnalyzer.analysis_default.
Proof. repeat split. discriminate. Qed.

(** C7 (amended): when the remote call fails by a network error or a
    timeout, by a response with a 4xx or 5xx status, by a body that is not
    JSON or by a completion text that is not JSON, [_analyze_with_ai]
    returns its default (empty lists, for the reviewer with the fixed
    summary; the empty list for the optimizer); and on no outcome of the
    call does it raise. *)
Theorem remote_failure_defaults (w : World) :
  (forall (self : CodeAnalyzer.t) (code file_path : string),
      (remote_failure w (analyzer_request self code file_path) ->
       CodeAnalyzer._analyze_with_ai w self code file_path
       = Ok (VDict [("issues", VList []); ("patterns", VList []);
                    ("dependencies", VList [])]))
      /\ exists v, CodeAnalyzer._analyze_with_ai w self code file_path = Ok v)
  /\ (forall (self : CodeReviewer.t) (diff : string),
         (remote_failure w (reviewer_request self diff) ->
          CodeReviewer._analyze_with_ai w self diff
          = Ok (VDict [("summary", VStr "Unable to perform AI review due to an error.");
                       ("issues", VList []); ("suggestions", VList []);
                       ("comments", VList [])]))
         /\ exists v, CodeReviewer._analyze_with_ai w self diff = Ok v)
  /\ (forall (self : CodeOptimizer.t) (code file_path : string),
         (remote_failure w (optimizer_request self code file_path) ->
          CodeOptimizer._analyze_with_ai w self code file_path = Ok (VList []))
         /\ exists v, CodeOptimizer._analyze_with_ai w self code file_path = Ok v).
Proof.
  repeat split.
  - apply guarded_call_default.
  - apply guarded_call_never_raises.
  - apply guarded_call_default.
  - apply guarded_call_never_raises.
  - apply guarded_call_default.
  - apply guarded_call_never_raises.
Qed.

Lemma remote_failure_defaults_witness :
  CodeAnalyzer._analyze_with_ai timeout_world
    (CodeAnalyzer.init timeout_world Samples.no_config) Samples.ten_text "ten.py"
  = Ok CodeAnalyzer.analysis_default
  /\ CodeReviewer._analyze_with_ai unavailable_world
       (CodeReviewer.init unavailable_world Samples.no_config) "+ x = 1"
     = Ok CodeReviewer.review_default.
Proof.
  split.
  - apply (proj1 (proj1 (remote_failure_defaults timeout_world)
                    (CodeAnalyzer.init timeout_world Samples.no_config)
                    Samples.ten_text "ten.py")).
    apply (NoResponse _ _ Timeout). reflexivity.
  - apply (proj1 (proj1 (proj2 (remote_failure_defaults unavailable_world))
                    (CodeReviewer.init unavailable_world Samples.no_config)
                    "+ x = 1")).
    apply (ErrorStatus _ _ {| status_code := 503; text := "<completion body>" |});
      [reflexivity | simpl; lia].
Defined.

(** ** Batches (analyzer.py) *)

Lemma analyze_file_unparsed (w : World) (self : CodeAnalyzer.t) (f code : string)
  (d : dict) :
  read_text w f = Ok code ->
  ast_parse w code = Raise SyntaxError ->
  CodeAnalyzer._analyze_with_ai w self code f = Ok (VDict d) ->
  exists r : CodeAnalyzer.AnalysisResult,
    CodeAnalyzer.analyze_file w self f = Ok r
    /\ CodeAnalyzer.file_path r = f
    /\ CodeAnalyzer.complexity_score r = 0%Q
    /\ CodeAnalyzer.issues_found r = dict_get d "issues" (VList [])
    /\ CodeAnalyzer.patterns_detected r = dict_get d "patterns" (VList []).
Proof.
  intros Hread Hparse Hreply. unfold CodeAnalyzer.analyze_file.
  rewrite Hread. cbn [bind]. rewrite Hparse. cbn [bind try_except_SyntaxError is_SyntaxError].
  rewrite Hreply. cbn [bind get].
  eexists. split; [reflexivity|]. repeat split.
Qed.

Lemma count_issues_returns (items : list value) :
  forallb well_shaped_issue items = true ->
  forall issue_types,
  exists issue_types',
    foldM CodeAnalyzer.count_issue issue_types items = Ok issue_types'.
Proof.
  induction items as [|i items IH]; intros Hshape issue_types.
  - exists issue_types. reflexivity.
  - cbn [forallb] in Hshape. apply andb_true_iff in Hshape.
    destruct Hshape as [Hi Hitems].
    destruct i; try discriminate Hi. cbn [well_shaped_issue] in Hi.
    cbn [foldM]. unfold CodeAnalyzer.count_issue at 1. cbn [get bind].
    rewrite Hi. cbn [bind]. apply (IH Hitems).
Qed.

Lemma count_results_returns (rs : list CodeAnalyzer.AnalysisResult) :
  Forall (fun r => well_shaped_issues (CodeAnalyzer.issues_found r) = true) rs ->
  forall issue_types,
  exists issue_types',
    foldM CodeAnalyzer.count_result issue_types rs = Ok issue_types'.
Proof.
  induction 1 as [|r rs Hr _ IH]; intros issue_types.
  - exists issue_types. reflexivity.
  - cbn [foldM]. unfold CodeAnalyzer.count_result at 1.
    destruct (CodeAnalyzer.issues_found r) as [| | | | |items|]; try discriminate Hr.
    cbn [iter bind]. cbn [well_shaped_issues] in Hr.
    destruct (count_issues_returns items Hr issue_types) as [t Ht].
    rewrite Ht. cbn [bind]. apply IH.
Qed.

Lemma generate_summary_returns (w : World) (rs : list CodeAnalyzer.AnalysisResult) :
  Forall (fun r => well_shaped_issues (CodeAnalyzer.issues_found r) = true) rs ->
  exists s, CodeAnalyzer._generate_summary w rs = Ok s.
Proof.
  intros Hshape. unfold CodeAnalyzer._generate_summary.
  destruct rs as [|r rs]; [eexists; reflexivity|].
  destruct (count_results_returns _ Hshape []) as [t Ht].
  rewrite Ht. eexists. reflexivity.
Qed.

Lemma issue_counts_return (rs : list CodeAnalyzer.AnalysisResult) :
  Forall (fun r => well_shaped_issues (CodeAnalyzer.issues_found r) = true) rs ->
  exists lens, mapM (fun r => len (CodeAnalyzer.issues_found r)) rs = Ok lens.
Proof.
  induction 1 as [|r rs Hr _ [lens IH]].
  - exists []. reflexivity.
  - cbn [mapM].
    destruct (CodeAnalyzer.issues_found r) as [| | | | |items|]; try discriminate Hr.
    cbn [len bind]. rewrite IH. eexists. reflexivity.
Qed.

(** C6, as the claim states it, fails: the unit the parser rejects is
    still sent to the remote end, and its result carries the issues and
    patterns of the reply, which need not be empty. *)
Lemma unparsed_unit_keeps_remote_findings :
  ast_parse sample_batch_world Samples.broken_text = Raise SyntaxError
  /\ CodeAnalyzer.analyze_file sample_batch_world
       (CodeAnalyzer.init sample_batch_world Samples.no_config) "bad.py"
     = Ok {| CodeAnalyzer.file_path := "bad.py";
             CodeAnalyzer.complexity_score := 0;
             CodeAnalyzer.lines_of_code := 4;
             CodeAnalyzer.issues_found :=
               VList [VDict [("severity", VStr "high");
                             ("message", VStr "unbalanced bracket");
                             ("line_number", VInt 1)]];
             CodeAnalyzer.patterns_detected :=
               VList [VDict [("pattern_name", VStr "accumulator");
                             ("description", VStr "builds a string piecewise")]];
             CodeAnalyzer.dependencies := VList [] |}
  /\ match CodeAnalyzer.analyze_directory sample_batch_world
             (CodeAnalyzer.init sample_batch_world Samples.no_config) "src" with
     | Ok report =>
         map (fun r => (CodeAnalyzer.file_path r, CodeAnalyzer.complexity_score r,
                        nonempty match CodeAnalyzer.issues_found r with
                                 | VList items => items
                                 | _ => []
                                 end))
           (CodeAnalyzer.details report)
         = [("good.py", 1%Q, true); ("bad.py", 0%Q, true)]
     | Raise _ => False
     end.
Proof. split; [|split]; vm_compute; reflexivity. Qed.

(** What [analyze_file] does with a unit that can be read and answered:
    it returns when the parser returns or raises [SyntaxError], and raises
    what the parser raised otherwise. *)
Lemma analyze_file_answered (w : World) (self : CodeAnalyzer.t) (f : string) :
  unit_answered w self f ->
  if parsed_or_rejected w f
  then exists r : CodeAnalyzer.AnalysisResult,
         CodeAnalyzer.analyze_file w self f = Ok r
         /\ well_shaped_issues (CodeAnalyzer.issues_found r) = true
  else exists e : exn, CodeAnalyzer.analyze_file w self f = Raise e.
Proof.
  intros [code [d [Hread [Hreply Hshape]]]].
  unfold parsed_or_rejected, CodeAnalyzer.analyze_file. rewrite Hread. cbn [bind].
  destruct (ast_parse w code) as [tree|e].
  - cbn [bind try_except_SyntaxError]. rewrite Hreply. cbn [bind get].
    eexists. split; [reflexivity | exact Hshape].
  - destruct e; cbn [is_SyntaxError bind try_except_SyntaxError];
      try (eexists; reflexivity).
    rewrite Hreply. cbn [bind get].
    eexists. split; [reflexivity | exact Hshape].
Qed.

Lemma analyze_file_parser_raises (w : World) (self : CodeAnalyzer.t) (f code : string)
  (e : exn) :
  read_text w f = Ok code -> ast_parse w code = Raise e -> e <> SyntaxError ->
  CodeAnalyzer.analyze_file w self f = Raise e.
Proof.
  intros Hread Hparse Hne. unfold CodeAnalyzer.analyze_file.
  rewrite Hread. cbn [bind]. rewrite Hparse. cbn [bind try_except_SyntaxError].
  destruct e; try reflexivity. contradiction.
Qed.

(** The loop keeps one result for each unit on which the parser returns or
    raises [SyntaxError], in order, and leaves the others out. *)
Lemma analyze_files_answered (w : World) (self : CodeAnalyzer.t) (fs : list string) :
  (forall f, In f fs -> unit_answered w self f) ->
  forall results,
  exists rs : list CodeAnalyzer.AnalysisResult,
    CodeAnalyzer.analyze_files w self fs results = results ++ rs
    /\ Forall2 (fun f r => CodeAnalyzer.analyze_file w self f = Ok r)
         (filter (parsed_or_rejected w) fs) rs
    /\ Forall (fun r => well_shaped_issues (CodeAnalyzer.issues_found r) = true) rs.
Proof.
  induction fs as [|f fs IH]; intros Hall results.
  - exists []. rewrite app_nil_r. repeat split; constructor.
  - pose proof (analyze_file_answered w self f (Hall f (or_introl eq_refl))) as Hf.
    cbn [filter CodeAnalyzer.analyze_files].
    destruct (parsed_or_rejected w f).
    + destruct Hf as [r [Hr Hshape]].
      destruct (IH (fun g Hg => Hall g (or_intror Hg)) (results ++ [r]))
        as [rs [Hrs [Hpairs Hshapes]]].
      exists (r :: rs). rewrite Hr, Hrs, <- app_assoc.
      repeat split; try constructor; assumption.
    + destruct Hf as [e He].
      destruct (IH (fun g Hg => Hall g (or_intror Hg)) results)
        as [rs [Hrs [Hpairs Hshapes]]].
      exists rs. rewrite He. repeat split; assumption.
Qed.

Lemma filter_all {A : Type} (keep : A -> bool) (l : list A) :
  (forall x, In x l -> keep x = true) -> filter keep l = l.
Proof.
  induction l as [|x l IH]; intros Hall; [reflexivity|].
  cbn [filter]. rewrite (Hall x (or_introl eq_refl)). f_equal.
  apply IH. intros y Hy. apply Hall. right. exact Hy.
Qed.

(** C6 (amended): for a batch of N units that can all be read and for
    each of which the reply (the decoded reply, or the default after a
    failed call) is a dictionary with countable issues, [analyze_directory]
    returns a report whose results are those of the units on which the
    parser returns or raises [SyntaxError], in order.  When the parser
    fails on units with [SyntaxError] only, there are N results; the result
    of such a unit has complexity 0 and the issue and pattern lists of the
    reply for it: empty lists when the remote call failed.  When the parser
    fails on one unit with another exception, that exception leaves
    [analyze_file], the unit is left out and the N - 1 others have their
    results. *)
Theorem batch_with_unparsed_unit (w : World) (self : CodeAnalyzer.t)
  (directory : string) (fs : list string) :
  CodeAnalyzer.filter_files
    (Config.get (CodeAnalyzer.config self) "analysis.exclude" (VList []))
    (rglob_py w directory) = Ok fs ->
  (forall f, In f fs -> unit_answered w self f) ->
  (exists report : CodeAnalyzer.Report,
      CodeAnalyzer.analyze_directory w self directory = Ok report
      /\ Forall2 (fun f r => CodeAnalyzer.analyze_file w self f = Ok r)
           (filter (parsed_or_rejected w) fs) (CodeAnalyzer.details report)
      /\ CodeAnalyzer.files_analyzed report
         = Z.of_nat (List.length (CodeAnalyzer.details report))
      /\ ((forall f code e, In f fs -> read_text w f = Ok code ->
                            ast_parse w code = Raise e -> e = SyntaxError) ->
          CodeAnalyzer.files_analyzed report = Z.of_nat (List.length fs)
          /\ List.length (CodeAnalyzer.details report) = List.length fs
          /\ Forall2 (fun f r => CodeAnalyzer.analyze_file w self f = Ok r)
               fs (CodeAnalyzer.details report))
      /\ (forall (before after : list string) (f code : string) (e : exn),
             fs = before ++ f :: after ->
             read_text w f = Ok code -> ast_parse w code = Raise e ->
             e <> SyntaxError ->
             (forall g code' e', In g (before ++ after) -> read_text w g = Ok code' ->
                                 ast_parse w code' = Raise e' -> e' = SyntaxError) ->
             CodeAnalyzer.files_analyzed report = Z.of_nat (List.length fs) - 1
             /\ Forall2 (fun f r => CodeAnalyzer.analyze_file w self f = Ok r)
                  (before ++ after) (CodeAnalyzer.details report)))
  /\ (forall (f code : string) (d : dict),
         read_text w f = Ok code ->
         ast_parse w code = Raise SyntaxError ->
         CodeAnalyzer._analyze_with_ai w self code f = Ok (VDict d) ->
         exists r : CodeAnalyzer.AnalysisResult,
           CodeAnalyzer.analyze_file w self f = Ok r
           /\ CodeAnalyzer.complexity_score r = 0%Q
           /\ CodeAnalyzer.issues_found r = dict_get d "issues" (VList [])
           /\ CodeAnalyzer.patterns_detected r = dict_get d "patterns" (VList []))
  /\ (forall f code : string,
         read_text w f = Ok code ->
         ast_parse w code = Raise SyntaxError ->
         remote_failure w (analyzer_request self code f) ->
         exists r : CodeAnalyzer.AnalysisResult,
           CodeAnalyzer.analyze_file w self f = Ok r
           /\ CodeAnalyzer.complexity_score r = 0%Q
           /\ CodeAnalyzer.issues_found r = VList []
           /\ CodeAnalyzer.patterns_detected r = VList [])
  /\ (forall (f code : string) (e : exn),
         read_text w f = Ok code -> ast_parse w code = Raise e ->
         e <> SyntaxError ->
         CodeAnalyzer.analyze_file w self f = Raise e).
Proof.
  intros Hfiles Hall.
  assert (Hkept : forall g,
             In g fs ->
             (forall code e, read_text w g = Ok code -> ast_parse w code = Raise e ->
                             e = SyntaxError) ->
             parsed_or_rejected w g = true).
  { intros g Hg Hparse. destruct (Hall g Hg) as [code [d [Hread _]]].
    unfold parsed_or_rejected. rewrite Hread.
    destruct (ast_parse w code) as [tree|e] eqn:Hp; [reflexivity|].
    rewrite (Hparse code e Hread Hp). reflexivity. }
  split; [|split; [|split]].
  - destruct (analyze_files_answered w self fs Hall []) as [rs [Hrs [Hpairs Hshapes]]].
    cbn [app] in Hrs.
    destruct (generate_summary_returns w rs Hshapes) as [s Hs].
    destruct (issue_counts_return rs Hshapes) as [lens Hlens].
    unfold CodeAnalyzer.analyze_directory. rewrite Hfiles. cbn [bind].
    rewrite Hrs, Hs. cbn [bind]. rewrite Hlens. cbn [bind].
    eexists. split; [reflexivity|].
    cbn [CodeAnalyzer.details CodeAnalyzer.files_analyzed].
    split; [exact Hpairs|]. split; [reflexivity|]. split.
    + intros Hparse.
      assert (Hsame : filter (parsed_or_rejected w) fs = fs).
      { apply filter_all. intros g Hg. apply (Hkept g Hg).
        intros code e. apply (Hparse g code e Hg). }
      rewrite Hsame in Hpairs. rewrite <- (Forall2_length Hpairs).
      repeat split. exact Hpairs.
    + intros before after f code e Hsplit Hread Hparse Hne Hothers.
      assert (Hsame : filter (parsed_or_rejected w) fs = before ++ after).
      { rewrite Hsplit, filter_app. cbn [filter].
        assert (Hf : parsed_or_rejected w f = false).
        { unfold parsed_or_rejected. rewrite Hread, Hparse.
          destruct e; try reflexivity. contradiction. }
        rewrite Hf, <- filter_app. apply filter_all.
        intros g Hg. apply Hkept.
        - rewrite Hsplit. apply in_app_or in Hg. apply in_or_app.
          destruct Hg as [Hg|Hg]; [left; exact Hg | right; right; exact Hg].
        - intros code' e'. apply (Hothers g code' e' Hg). }
      rewrite Hsame in Hpairs. rewrite <- (Forall2_length Hpairs).
      split; [|exact Hpairs].
      rewrite Hsplit, !length_app. cbn [List.length]. lia.
  - intros f code d Hread Hparse Hreply.
    destruct (analyze_file_unparsed w self f code d Hread Hparse Hreply)
      as [r [Hr [_ [Hc [Hi Hp]]]]].
    exists r. repeat split; assumption.
  - intros f code Hread Hparse Hfail.
    pose proof (guarded_call_default w (analyzer_request self code f)
                  CodeAnalyzer.analysis_default Hfail) as Hreply.
    destruct (analyze_file_unparsed w self f code
                [("issues", VList []); ("patterns", VList []);
                 ("dependencies", VList [])] Hread Hparse Hreply)
      as [r [Hr [_ [Hc [Hi Hp]]]]].
    exists r. repeat split; assumption.
  - apply analyze_file_parser_raises.
Qed.

Lemma batch_with_unparsed_unit_witness :
  (exists report : CodeAnalyzer.Report,
      CodeAnalyzer.analyze_directory sample_offline_world
        (CodeAnalyzer.init sample_offline_world Samples.no_config) "src" = Ok report
      /\ CodeAnalyzer.files_analyzed report = 2)
  /\ (exists report : CodeAnalyzer.Report,
         CodeAnalyzer.analyze_directory sample_null_byte_world
           (CodeAnalyzer.init sample_null_byte_world Samples.no_config) "src"
         = Ok report
         /\ CodeAnalyzer.files_analyzed report = 3 - 1
         /\ Forall2 (fun f r =>
                       CodeAnalyzer.analyze_file sample_null_byte_world
                         (CodeAnalyzer.init sample_null_byte_world Samples.no_config) f
                       = Ok r)
              ["good.py"; "bad.py"] (CodeAnalyzer.details report)).
Proof.
  split.
  - assert (Hall : forall f, In f ["good.py"; "bad.py"] ->
                             unit_answered sample_offline_world
                               (CodeAnalyzer.init sample_offline_world Samples.no_config)
                               f).
    { intros f [<-|[<-|[]]].
      - exists Samples.ten_text,
          [("issues", VList []); ("patterns", VList []); ("dependencies", VList [])].
        repeat split.
      - exists Samples.broken_text,
          [("issues", VList []); ("patterns", VList []); ("dependencies", VList [])].
        repeat split. }
    destruct (proj1 (batch_with_unparsed_unit sample_offline_world
                       (CodeAnalyzer.init sample_offline_world Samples.no_config)
                       "src" ["good.py"; "bad.py"] eq_refl Hall))
      as [report [Hrun [_ [_ [Hcount _]]]]].
    exists report. split; [exact Hrun|].
    apply Hcount. intros f code e [<-|[<-|[]]] Hread Hparse;
      vm_compute in Hread; injection Hread as <-; vm_compute in Hparse;
      [discriminate Hparse | injection Hparse as <-; reflexivity].
  - assert (Hall : forall f, In f ["good.py"; "null.py"; "bad.py"] ->
                             unit_answered sample_null_byte_world
                               (CodeAnalyzer.init sample_null_byte_world
                                  Samples.no_config) f).
    { intros f [<-|[<-|[<-|[]]]].
      - exists Samples.ten_text,
          [("issues", VList []); ("patterns", VList []); ("dependencies", VList [])].
        repeat split.
      - exists null_text,
          [("issues", VList []); ("patterns", VList []); ("dependencies", VList [])].
        repeat split.
      - exists Samples.broken_text,
          [("issues", VList []); ("patterns", VList []); ("dependencies", VList [])].
        repeat split. }
    destruct (proj1 (batch_with_unparsed_unit sample_null_byte_world
                       (CodeAnalyzer.init sample_null_byte_world Samples.no_config)
                       "src" ["good.py"; "null.py"; "bad.py"] eq_refl Hall))
      as [report [Hrun [_ [_ [_ Hdropped]]]]].
    exists report. split; [exact Hrun|].
    apply (Hdropped ["good.py"] ["bad.py"] "null.py" null_text
             (ValueError "source code string cannot contain null bytes"));
      try reflexivity; [discriminate|].
    intros g code' e' [<-|[<-|[]]] Hread Hparse;
      vm_compute in Hread; injection Hread as <-; vm_compute in Hparse;
      [discriminate Hparse | injection Hparse as <-; reflexivity].
Defined.

(** The unit with the null byte is dropped: two results for three files. *)
Example batch_with_null_byte :
  CodeAnalyzer.analyze_file sample_null_byte_world
    (CodeAnalyzer.init sample_null_byte_world Samples.no_config) "null.py"
  = Raise (ValueError "source code string cannot contain null bytes")
  /\ match CodeAnalyzer.analyze_directory sample_null_byte_world
             (CodeAnalyzer.init sample_null_byte_world Samples.no_config) "src" with
     | Ok report =>
         map CodeAnalyzer.file_path (CodeAnalyzer.details report) = ["good.py"; "bad.py"]
     | Raise _ => False
     end.
Proof. split; vm_compute; reflexivity. Qed.

(** A reply that decodes to something other than a dictionary makes
    [analyze_file] raise; the loop logs the unit and leaves it out. *)
Example batch_with_array_replies :
  CodeAnalyzer.analyze_file sample_array_world
    (CodeAnalyzer.init sample_array_world Samples.no_config) "good.py"
  = Raise AttributeError
  /\ match CodeAnalyzer.analyze_directory sample_array_world
             (CodeAnalyzer.init sample_array_world Samples.no_config) "src" with
     | Ok report => CodeAnalyzer.details report = []
     | Raise _ => False
     end.
Proof. split; vm_compute; reflexivity. Qed.

(** ** Dictionaries and the configuration (config.py) *)

Lemma lookup_dict_set_same (d : dict) (k : string) (v : value) :
  lookup k (dict_set d k v) = Some v.
Proof.
  induction d as [|[k' v'] d IH]; cbn [dict_set lookup].
  - rewrite String.eqb_refl. reflexivity.
  - destruct (String.eqb k k') eqn:Hk; cbn [lookup].
    + rewrite String.eqb_refl. reflexivity.
    + rewrite Hk. exact IH.
Qed.

Lemma lookup_dict_set_other (d : dict) (k k' : string) (v : value) :
  k' <> k -> lookup k' (dict_set d k v) = lookup k' d.
Proof.
  intros Hne. induction d as [|[k0 v0] d IH]; cbn [dict_set lookup].
  - destruct (String.eqb_spec k' k); [contradiction | reflexivity].
  - destruct (String.eqb_spec k k0) as [->|Hk]; cbn [lookup].
    + destruct (String.eqb_spec k' k0); [contradiction | reflexivity].
    + destruct (String.eqb k' k0); [reflexivity | exact IH].
Qed.

Lemma dict_get_set_same (d : dict) (k : string) (v default : value) :
  dict_get (dict_set d k v) k default = v.
Proof. unfold dict_get. rewrite lookup_dict_set_same. reflexivity. Qed.

Lemma dict_get_set_other (d : dict) (k k' : string) (v default : value) :
  k' <> k -> dict_get (dict_set d k v) k' default = dict_get d k' default.
Proof. intros H. unfold dict_get. rewrite (lookup_dict_set_other _ _ _ _ H). reflexivity. Qed.

(** What [set_in_section] returns when it returns. *)
Lemma set_in_section_returns (cfg cfg' : value) (section key : string) (v : value) :
  Config.set_in_section cfg section key v = Ok cfg' ->
  exists d sd : dict,
    cfg = VDict d
    /\ dict_get d section (VDict []) = VDict sd
    /\ cfg' = VDict (dict_set d section (VDict (dict_set sd key v))).
Proof.
  unfold Config.set_in_section. intros H.
  destruct cfg as [| | | | | |d]; try discriminate H.
  destruct (dict_get d section (VDict [])) as [| | | | | |sd] eqn:Hsd;
    try discriminate H.
  injection H as <-. exists d, sd. repeat split. exact Hsd.
Qed.

Lemma set_in_section_stored (cfg cfg' : value) (section key : string) (v : value) :
  Config.set_in_section cfg section key v = Ok cfg' ->
  forall default, Config.get_path cfg' [section; key] default = v.
Proof.
  intros H default.
  destruct (set_in_section_returns _ _ _ _ _ H) as [d [sd [-> [_ ->]]]].
  cbn [Config.get_path]. rewrite lookup_dict_set_same, lookup_dict_set_same.
  reflexivity.
Qed.

Lemma set_in_section_kept (cfg cfg' : value) (section key : string) (v : value) :
  Config.set_in_section cfg section key v = Ok cfg' ->
  forall (s k : string) (default : value),
    s <> section \/ k <> key ->
    Config.get_path cfg' [s; k] default = Config.get_path cfg [s; k] default.
Proof.
  intros H s k default Hne.
  destruct (set_in_section_returns _ _ _ _ _ H) as [d [sd [-> [Hsd ->]]]].
  cbn [Config.get_path].
  destruct (String.eqb_spec s section) as [->|Hs].
  - destruct Hne as [Hne|Hne]; [contradiction|].
    rewrite lookup_dict_set_same, (lookup_dict_set_other _ _ _ _ Hne).
    unfold dict_get in Hsd.
    destruct (lookup section d) as [x|]; [rewrite Hsd; reflexivity|].
    injection Hsd as <-. reflexivity.
  - rewrite (lookup_dict_set_other _ _ _ _ Hs). reflexivity.
Qed.

Lemma override_one_stored (w : World) (cfg cfg' : value) (name section key s : string) :
  Config.override_one w cfg name section key = Ok cfg' ->
  Config.environ_get w name = Some s ->
  forall default, Config.get_path cfg' [section; key] default = VStr s.
Proof.
  unfold Config.override_one. intros H Henv. rewrite Henv in H.
  apply (set_in_section_stored _ _ _ _ _ H).
Qed.

Lemma override_one_kept (w : World) (cfg cfg' : value) (name section key : string) :
  Config.override_one w cfg name section key = Ok cfg' ->
  forall (s k : string) (default : value),
    s <> section \/ k <> key ->
    Config.get_path cfg' [s; k] default = Config.get_path cfg [s; k] default.
Proof.
  unfold Config.override_one. intros H.
  destruct (Config.environ_get w name).
  - apply (set_in_section_kept _ _ _ _ _ H).
  - injection H as <-. reflexivity.
Qed.

(** The three steps of [_override_with_env], when all return. *)
Lemma override_with_env_steps (w : World) (cfg cfg' : value) :
  Config._override_with_env w cfg = Ok cfg' ->
  exists cfg1 cfg2 : value,
    Config.override_one w cfg "IFLOW_API_KEY" "ai" "api_key" = Ok cfg1
    /\ Config.override_one w cfg1 "GITHUB_TOKEN" "github" "token" = Ok cfg2
    /\ Config.override_one w cfg2 "GITHUB_REPOSITORY" "github" "repository" = Ok cfg'.
Proof.
  unfold Config._override_with_env. intros H.
  destruct (Config.override_one w cfg "IFLOW_API_KEY" "ai" "api_key")
    as [cfg1|] eqn:H1; [|discriminate H].
  cbn [bind] in H.
  destruct (Config.override_one w cfg1 "GITHUB_TOKEN" "github" "token")
    as [cfg2|] eqn:H2; [|discriminate H].
  cbn [bind] in H. exists cfg1, cfg2. split; [reflexivity|].
  split; [exact H2 | exact H].
Qed.

Lemma init_returns (w : World) (self : Config.t) :
  Config.init w = Ok self ->
  exists cfg : value,
    Config._load_config w Config.default_path = Ok cfg
    /\ Config._override_with_env w cfg = Ok (Config.config self).
Proof.
  unfold Config.init. intros H.
  destruct (Config._load_config w Config.default_path) as [cfg|]; [|discriminate H].
  cbn [bind] in H.
  destruct (Config._override_with_env w cfg) as [cfg'|] eqn:Hover; [|discriminate H].
  injection H as <-. exists cfg. split; [reflexivity | exact Hover].
Qed.

Lemma init_token_from_environment (w : World) (self : Config.t) (s : string) :
  Config.init w = Ok self ->
  Config.environ_get w "GITHUB_TOKEN" = Some s ->
  forall default, Config.get self "github.token" default = VStr s.
Proof.
  intros Hinit Henv default.
  destruct (init_returns w self Hinit) as [cfg [_ Hover]].
  destruct (override_with_env_steps w _ _ Hover) as [cfg1 [cfg2 [_ [H2 H3]]]].
  change (Config.get self "github.token" default)
    with (Config.get_path (Config.config self) ["github"; "token"] default).
  rewrite (override_one_kept w _ _ _ _ _ H3) by (right; discriminate).
  apply (override_one_stored w _ _ _ _ _ _ H2 Henv).
Qed.




(** ** The REST client and its credential (github_api.py, config.py) *)






(** A token in the environment is enough for the constructor to return. *)
Example rest_client_with_token :
  let w := {| environ := [("GITHUB_TOKEN", "ghp_sample")];
              path_exists := fun _ => false;
              is_file := fun _ => false;
              rglob_py := fun _ => [];
              read_text := fun _ => Raise OSError;
              yaml_safe_load := fun _ => Ok VNone;
              ast_parse := fun _ => Raise SyntaxError;
              json_loads := fun _ => Raise JSONDecodeError;
              requests_request := offline;
              cleandoc := fun s => s;
              round2 := fun q => q |} in
  exists (loaded : Config.t) (api : GitHubAPI.t),
    Config.init w = Ok loaded
    /\ GitHubAPI.init w loaded = Ok api
    /\ GitHubAPI.token api = VStr "ghp_sample".
Proof. eexists. eexists. repeat split. Qed.

(** ** The limit on suggestions (optimizer.py) *)

Lemma slice_to_firstn {A : Type} (l : list A) (stop : Z) :
  0 <= stop -> CodeOptimizer.slice_to l stop = firstn (Z.to_nat stop) l.
Proof.
  intros H. unfold CodeOptimizer.slice_to.
  destruct (Z.leb_spec 0 stop); [reflexivity | lia].
Qed.

(** C10: for every path and every limit K >= 0, a result [optimize_code]
    returns has at most K suggestions, the first K of those gathered, and
    its [total_suggestions] is the length of that truncated list; it
    returns whenever gathering the suggestions returned. *)
Theorem optimize_code_limit (w : World) (self : CodeOptimizer.t) (path : string)
  (K : Z) :
  0 <= K ->
  (forall r : CodeOptimizer.OptimizeResult,
      CodeOptimizer.optimize_code w self path K = Ok r ->
      Z.of_nat (List.length (CodeOptimizer.suggestions r)) <= K
      /\ CodeOptimizer.total_suggestions r
         = Z.of_nat (List.length (CodeOptimizer.suggestions r))
      /\ CodeOptimizer.path r = path)
  /\ (forall gathered : list value,
         (if is_file w path then CodeOptimizer._optimize_file w self path
          else CodeOptimizer.optimize_files w self (rglob_py w path) [])
         = Ok gathered ->
         exists r : CodeOptimizer.OptimizeResult,
           CodeOptimizer.optimize_code w self path K = Ok r
           /\ CodeOptimizer.suggestions r = firstn (Z.to_nat K) gathered
           /\ CodeOptimizer.total_suggestions r
              = Z.min K (Z.of_nat (List.length gathered))).
Proof.
  intros HK. unfold CodeOptimizer.optimize_code. split.
  - intros r Hrun.
    destruct (if is_file w path then CodeOptimizer._optimize_file w self path
              else CodeOptimizer.optimize_files w self (rglob_py w path) [])
      as [gathered|e]; [|discriminate Hrun].
    cbn [bind] in Hrun. injection Hrun as <-.
    cbn [CodeOptimizer.suggestions CodeOptimizer.total_suggestions CodeOptimizer.path].
    rewrite (slice_to_firstn _ _ HK), length_firstn. repeat split. lia.
  - intros gathered Hgather. rewrite Hgather. cbn [bind].
    eexists. split; [reflexivity|].
    cbn [CodeOptimizer.suggestions CodeOptimizer.total_suggestions].
    rewrite (slice_to_firstn _ _ HK), length_firstn. split; [reflexivity | lia].
Qed.

Lemma optimize_code_limit_witness :
  exists r : CodeOptimizer.OptimizeResult,
    CodeOptimizer.optimize_code sample_optimize_world
      (CodeOptimizer.init sample_optimize_world Samples.no_config) "eleven.py" 2
    = Ok r
    /\ CodeOptimizer.suggestions r = sample_suggestions
    /\ CodeOptimizer.total_suggestions r = 2.
Proof.
  assert (HK : 0 <= 2) by lia.
  destruct (proj2 (optimize_code_limit sample_optimize_world
                     (CodeOptimizer.init sample_optimize_world Samples.no_config)
                     "eleven.py" 2 HK)
              (sample_suggestions
                 ++ [CodeOptimizer.concatenation_suggestion "eleven.py"])
              eq_refl)
    as [r [Hrun [Hlist Htotal]]].
  exists r. split; [exact Hrun|]. split; [exact Hlist | exact Htotal].
Defined.

(** A negative limit counts from the end of the list. *)
Example optimize_code_negative_limit :
  exists r : CodeOptimizer.OptimizeResult,
    CodeOptimizer.optimize_code sample_optimize_world
      (CodeOptimizer.init sample_optimize_world Samples.no_config) "eleven.py" (-1)
    = Ok r
    /\ CodeOptimizer.total_suggestions r = 2.
Proof. eexists. split; reflexivity. Qed.

(** * Further properties *)

(** ** Configuration (config.py) *)

(** X2: in a configuration [Config()] has returned, each of the three
    environment variables that is set is what the dotted lookup of its key
    finds, whatever the file held for that key; so a token from the
    environment that is not empty is the token of the REST client, which
    the constructor then returns. *)
Theorem environment_overrides_file (w : World) (self : Config.t) :
  Config.init w = Ok self ->
  (forall s default, Config.environ_get w "IFLOW_API_KEY" = Some s ->
                     Config.get self "ai.api_key" default = VStr s)
  /\ (forall s default, Config.environ_get w "GITHUB_TOKEN" = Some s ->
                        Config.get self "github.token" default = VStr s)
  /\ (forall s default, Config.environ_get w "GITHUB_REPOSITORY" = Some s ->
                        Config.get self "github.repository" default = VStr s)
  /\ (forall s, Config.environ_get w "GITHUB_TOKEN" = Some s -> s <> "" ->
                exists api : GitHubAPI.t,
                  GitHubAPI.init w self = Ok api /\ GitHubAPI.token api = VStr s).
Proof.
  intros Hinit.
  destruct (init_returns w self Hinit) as [cfg [_ Hover]].
  destruct (override_with_env_steps w _ _ Hover) as [cfg1 [cfg2 [H1 [H2 H3]]]].
  split; [|split; [|split]].
  - intros s default Henv.
    change (Config.get self "ai.api_key" default)
      with (Config.get_path (Config.config self) ["ai"; "api_key"] default).
    rewrite (override_one_kept w _ _ _ _ _ H3) by (left; discriminate).
    rewrite (override_one_kept w _ _ _ _ _ H2) by (left; discriminate).
    apply (override_one_stored w _ _ _ _ _ _ H1 Henv).
  - intros s default Henv. apply (init_token_from_environment w self s Hinit Henv).
  - intros s default Henv.
    change (Config.get self "github.repository" default)
      with (Config.get_path (Config.config self) ["github"; "repository"] default).
    apply (override_one_stored w _ _ _ _ _ _ H3 Henv).
  - intros s Henv Hs.
    assert (Htoken : Config.github_token w self = VStr s).
    { unfold Config.github_token.
      rewrite (init_token_from_environment w self s Hinit Henv).
      unfold py_or. cbn [truthy].
      destruct (String.eqb_spec s ""); [contradiction | reflexivity]. }
    unfold GitHubAPI.init. cbn [GitHubAPI.token]. rewrite Htoken. cbn [truthy].
    destruct (String.eqb_spec s ""); [contradiction|].
    eexists. split; reflexivity.
Qed.

Lemma environment_overrides_file_witness :
  exists (self : Config.t) (api : GitHubAPI.t),
    Config.init sample_env_world = Ok self
    /\ Config.get_path sample_yaml ["github"; "token"] VNone = VStr "from-file"
    /\ GitHubAPI.init sample_env_world self = Ok api
    /\ GitHubAPI.token api = VStr "ghp_sample".
Proof.
  destruct (Config.init sample_env_world) as [self|e] eqn:Hinit;
    [|vm_compute in Hinit; discriminate Hinit].
  assert (Hs : "ghp_sample" <> "") by discriminate.
  destruct (proj2 (proj2 (proj2 (environment_overrides_file sample_env_world self Hinit)))
              "ghp_sample" eq_refl Hs) as [api [Hapi Htoken]].
  exists self, api. repeat split; assumption.
Defined.

(** X3: [_override_with_env] leaves the loaded configuration as it is when
    none of the three variables is set; when one is set and the loaded
    value is not a mapping it raises [AttributeError]; and when the token
    is set and the file's [github] entry is not a mapping it raises
    [TypeError]. *)
Theorem override_with_env_outcomes (w : World) (cfg : value) :
  (Config.environ_get w "IFLOW_API_KEY" = None ->
   Config.environ_get w "GITHUB_TOKEN" = None ->
   Config.environ_get w "GITHUB_REPOSITORY" = None ->
   Config._override_with_env w cfg = Ok cfg)
  /\ (is_dict cfg = false ->
      (exists name s,
          In name ["IFLOW_API_KEY"; "GITHUB_TOKEN"; "GITHUB_REPOSITORY"]
          /\ Config.environ_get w name = Some s) ->
      Config._override_with_env w cfg = Raise AttributeError)
  /\ (forall (d : dict) (x : value) (s : string),
         cfg = VDict d ->
         Config.environ_get w "IFLOW_API_KEY" = None ->
         Config.environ_get w "GITHUB_TOKEN" = Some s ->
         lookup "github" d = Some x -> is_dict x = false ->
         Config._override_with_env w cfg = Raise TypeError).
Proof.
  unfold Config._override_with_env, Config.override_one. split; [|split].
  - intros -> -> ->. reflexivity.
  - intros Hcfg [name [s [Hname Henv]]].
    assert (Hset : forall section key v,
               Config.set_in_section cfg section key v = Raise AttributeError)
      by (intros; destruct cfg; try reflexivity; discriminate Hcfg).
    destruct (Config.environ_get w "IFLOW_API_KEY") as [s1|] eqn:H1;
      [rewrite Hset; reflexivity|].
    cbn [bind].
    destruct (Config.environ_get w "GITHUB_TOKEN") as [s2|] eqn:H2;
      [rewrite Hset; reflexivity|].
    cbn [bind].
    destruct (Config.environ_get w "GITHUB_REPOSITORY") as [s3|] eqn:H3;
      [rewrite Hset; reflexivity|].
    destruct Hname as [<-|[<-|[<-|[]]]]; congruence.
  - intros d x s -> -> -> Hx Hnot. cbn [bind].
    unfold Config.set_in_section, dict_get. rewrite Hx.
    destruct x; try reflexivity. discriminate Hnot.
Qed.

Lemma override_with_env_outcomes_witness :
  Config._override_with_env sample_offline_world (VList [VStr "not a mapping"])
  = Ok (VList [VStr "not a mapping"])
  /\ Config._override_with_env sample_env_world (VList [VStr "not a mapping"])
     = Raise AttributeError
  /\ Config._override_with_env sample_env_world (VDict [("github", VStr "octo")])
     = Raise TypeError.
Proof.
  split; [|split].
  - apply (proj1 (override_with_env_outcomes sample_offline_world _)); reflexivity.
  - apply (proj1 (proj2 (override_with_env_outcomes sample_env_world _)));
      [reflexivity|].
    exists "GITHUB_TOKEN", "ghp_sample". split; [right; left; reflexivity | reflexivity].
  - apply (proj2 (proj2 (override_with_env_outcomes sample_env_world _))
             [("github", VStr "octo")] (VStr "octo") "ghp_sample");
      reflexivity.
Defined.

(** ** The REST client (github_api.py) *)

(** X4: [_make_request] has no handler.  A failed exchange raises what the
    exchange raised, a 4xx or 5xx status raises [HTTPError] with that
    status, any other status returns the decoding of the body or raises
    what the decoding raised; so a value is returned only from a response
    whose status is not an error and whose body decodes to it.  The request
    carries the token of the client, which is not empty for a client the
    constructor returned. *)
Theorem make_request_outcomes (w : World) (self : GitHubAPI.t)
  (method endpoint : string) (data : value) :
  (forall e, requests_request w (github_request self method endpoint data) = Raise e ->
             GitHubAPI._make_request w self method endpoint data = Raise e)
  /\ (forall r, requests_request w (github_request self method endpoint data) = Ok r ->
                400 <= status_code r < 600 ->
                GitHubAPI._make_request w self method endpoint data
                = Raise (HTTPError (status_code r)))
  /\ (forall r, requests_request w (github_request self method endpoint data) = Ok r ->
                ~ (400 <= status_code r < 600) ->
                GitHubAPI._make_request w self method endpoint data
                = json_loads w (text r))
  /\ (forall v, GitHubAPI._make_request w self method endpoint data = Ok v ->
                exists r,
                  requests_request w (github_request self method endpoint data) = Ok r
                  /\ ~ (400 <= status_code r < 600)
                  /\ json_loads w (text r) = Ok v)
  /\ (forall config, GitHubAPI.init w config = Ok self ->
                     truthy (credential (github_request self method endpoint data))
                     = true).
Proof.
  unfold GitHubAPI._make_request, raise_for_status.
  fold (github_request self method endpoint data).
  split; [|split; [|split; [|split]]].
  - intros e ->. reflexivity.
  - intros r -> Hs. cbn [bind].
    destruct (Z.leb_spec 400 (status_code r)); [|lia].
    destruct (Z.ltb_spec (status_code r) 600); [|lia]. reflexivity.
  - intros r -> Hs. cbn [bind].
    destruct (Z.leb_spec 400 (status_code r));
      destruct (Z.ltb_spec (status_code r) 600); cbn [andb bind];
      try (destruct (json_loads w (text r)); reflexivity).
    exfalso. apply Hs. lia.
  - intros v Hrun.
    destruct (requests_request w (github_request self method endpoint data))
      as [r|e]; [|discriminate Hrun].
    cbn [bind] in Hrun. exists r. split; [reflexivity|].
    destruct (Z.leb_spec 400 (status_code r));
      destruct (Z.ltb_spec (status_code r) 600); cbn [andb bind] in Hrun;
      try discriminate Hrun;
      (split; [lia|]);
      destruct (json_loads w (text r)); try discriminate Hrun; exact Hrun.
  - intros config Hinit. cbn [credential github_request].
    unfold GitHubAPI.init in Hinit. cbn [GitHubAPI.token] in Hinit.
    destruct (truthy (Config.github_token w config)) eqn:Ht; [|discriminate Hinit].
    cbn [negb] in Hinit. injection Hinit as <-. exact Ht.
Qed.

Lemma make_request_outcomes_witness :
  GitHubAPI._make_request
    (answering_world 404 "<not found>" (VDict [("message", VStr "Not Found")]))
    sample_client "GET" "repos/octo/repo/pulls/7" VNone
  = Raise (HTTPError 404)
  /\ GitHubAPI._make_request
       (answering_world 200 "<pull request>" (VDict [("number", VInt 7)]))
       sample_client "GET" "repos/octo/repo/pulls/7" VNone
     = Ok (VDict [("number", VInt 7)]).
Proof.
  split.
  - apply (proj1 (proj2 (make_request_outcomes
                           (answering_world 404 "<not found>"
                              (VDict [("message", VStr "Not Found")]))
                           sample_client "GET" "repos/octo/repo/pulls/7" VNone))
             {| status_code := 404; text := "<not found>" |});
      [reflexivity | simpl; lia].
  - rewrite (proj1 (proj2 (proj2 (make_request_outcomes
                                    (answering_world 200 "<pull request>"
                                       (VDict [("number", VInt 7)]))
                                    sample_client "GET" "repos/octo/repo/pulls/7"
                                    VNone)))
               {| status_code := 200; text := "<pull request>" |});
      [reflexivity | reflexivity | simpl; lia].
Defined.

(** ** Text search *)

Lemma prefix_app (sub s : string) :
  String.prefix sub s = true <-> exists post, s = (sub ++ post)%string.
Proof.
  revert s. induction sub as [|c sub IH]; intros s.
  - split; [intros _; exists s; reflexivity | intros _; destruct s; reflexivity].
  - destruct s as [|c' s]; cbn [String.prefix].
    + split; [discriminate | intros [post H]; discriminate H].
    + destruct (Ascii.ascii_dec c c') as [->|Hc].
      * rewrite IH. split; intros [post H]; exists post.
        -- cbn. rewrite H. reflexivity.
        -- cbn in H. injection H as H. exact H.
      * split; [discriminate|]. intros [post H]. cbn in H.
        injection H as H _. congruence.
Qed.

Lemma contains_unfold (sub s : string) :
  contains sub s
  = if String.prefix sub s then true
    else match s with
         | EmptyString => false
         | String _ s' => contains sub s'
         end.
Proof. destruct s; reflexivity. Qed.

(** [sub in s] holds exactly when [s] is some text, then [sub], then some
    text. *)
Lemma contains_occurs (sub s : string) :
  contains sub s = true <-> exists pre post, s = (pre ++ sub ++ post)%string.
Proof.
  split.
  - induction s as [|c s IH]; rewrite contains_unfold;
      destruct (String.prefix sub _) eqn:Hp; intros H.
    + apply prefix_app in Hp. destruct Hp as [post Hp].
      exists EmptyString, post. exact Hp.
    + discriminate H.
    + apply prefix_app in Hp. destruct Hp as [post Hp].
      exists EmptyString, post. exact Hp.
    + destruct (IH H) as [pre [post Hs]].
      exists (String c pre), post. cbn. rewrite Hs. reflexivity.
  - intros [pre [post Hs]]. revert s Hs.
    induction pre as [|c pre IH]; intros s Hs; rewrite contains_unfold.
    + cbn in Hs.
      assert (Hp : String.prefix sub s = true)
        by (apply prefix_app; exists post; exact Hs).
      rewrite Hp. reflexivity.
    + destruct (String.prefix sub s); [reflexivity|].
      cbn in Hs. subst s. apply IH. reflexivity.
Qed.

(** ** Security patterns (reviewer.py) *)

Lemma matches_length (name severity code : string) (patterns : list string) :
  (List.length
     (flat_map
        (fun pattern =>
           if contains pattern code
           then [VDict [("type", VStr name); ("severity", VStr severity);
                        ("pattern", VStr pattern)]]
           else [])
        patterns)
   <= List.length patterns)%nat.
Proof.
  induction patterns as [|p ps IH]; [reflexivity|].
  cbn [flat_map]. rewrite length_app.
  destruct (contains p code); cbn [List.length]; lia.
Qed.

Lemma flat_map_length_bound {A B : Type} (f : A -> list B) (g : A -> nat)
  (l : list A) :
  (forall x, List.length (f x) <= g x)%nat ->
  (List.length (flat_map f l) <= list_sum (map g l))%nat.
Proof.
  intros Hf. induction l as [|x l IH]; [reflexivity|].
  cbn [flat_map map]. rewrite length_app.
  change (list_sum (g x :: map g l)) with (g x + list_sum (map g l))%nat.
  specialize (Hf x). lia.
Qed.

(** X5: [check_security] reports exactly the patterns of its table that
    occur somewhere in the text, each under the name and the severity of its
    table entry, and so at most ten issues; it reports nothing exactly when
    no pattern of the table occurs. *)
Theorem check_security_reports (code : string) :
  (forall issue : value,
      In issue (CodeReviewer.check_security code)
      <-> exists (name : string) (patterns : list string) (severity pattern : string),
          In (name, patterns, severity) CodeReviewer.security_patterns
          /\ In pattern patterns
          /\ (exists pre post, code = (pre ++ pattern ++ post)%string)
          /\ issue = VDict [("type", VStr name); ("severity", VStr severity);
                            ("pattern", VStr pattern)])
  /\ (List.length (CodeReviewer.check_security code) <= 10)%nat
  /\ (CodeReviewer.check_security code = []
      <-> forall (name : string) (patterns : list string) (severity pattern : string),
          In (name, patterns, severity) CodeReviewer.security_patterns ->
          In pattern patterns -> contains pattern code = false).
Proof.
  assert (Hin : forall issue : value,
             In issue (CodeReviewer.check_security code)
             <-> exists (name : string) (patterns : list string)
                        (severity pattern : string),
                 In (name, patterns, severity) CodeReviewer.security_patterns
                 /\ In pattern patterns
                 /\ contains pattern code = true
                 /\ issue = VDict [("type", VStr name); ("severity", VStr severity);
                                   ("pattern", VStr pattern)]).
  { intros issue. unfold CodeReviewer.check_security. rewrite in_flat_map. split.
    - intros [[[name patterns] severity] [Hentry Hissue]].
      apply in_flat_map in Hissue. destruct Hissue as [pattern [Hp Hissue]].
      destruct (contains pattern code) eqn:Hc; [|contradiction].
      destruct Hissue as [<-|[]].
      exists name, patterns, severity, pattern. repeat split; assumption.
    - intros [name [patterns [severity [pattern [Hentry [Hp [Hc ->]]]]]]].
      exists (name, patterns, severity). split; [exact Hentry|].
      apply in_flat_map. exists pattern. split; [exact Hp|].
      rewrite Hc. left. reflexivity. }
  split; [|split].
  - intros issue. rewrite Hin. split;
      intros [name [patterns [severity [pattern [He [Hp [Hc Hi]]]]]]];
      exists name, patterns, severity, pattern; repeat split; try assumption;
      apply contains_occurs; exact Hc.
  - unfold CodeReviewer.check_security.
    etransitivity;
      [apply (flat_map_length_bound _ (fun entry => List.length (snd (fst entry))))|].
    + intros [[name patterns] severity]. apply matches_length.
    + apply Nat.le_refl.
  - split.
    + intros Hnone name patterns severity pattern He Hp.
      destruct (contains pattern code) eqn:Hc; [|reflexivity].
      assert (Hissue : In (VDict [("type", VStr name); ("severity", VStr severity);
                                  ("pattern", VStr pattern)])
                         (CodeReviewer.check_security code)).
      { apply Hin. exists name, patterns, severity, pattern. repeat split; assumption. }
      rewrite Hnone in Hissue. contradiction.
    + intros Hnone.
      destruct (CodeReviewer.check_security code) as [|issue rest];
        [reflexivity|].
      destruct (proj1 (Hin issue) (or_introl eq_refl))
        as [name [patterns [severity [pattern [He [Hp [Hc _]]]]]]].
      rewrite (Hnone name patterns severity pattern He Hp) in Hc. discriminate Hc.
Qed.

(** A text with two patterns of one entry and one of another. *)
Example check_security_sample :
  CodeReviewer.check_security "password = secret_store.get(name)"
  = [VDict [("type", VStr "Hardcoded Password"); ("severity", VStr "high");
            ("pattern", VStr "password")];
     VDict [("type", VStr "Hardcoded Password"); ("severity", VStr "high");
            ("pattern", VStr "secret")]].
Proof. reflexivity. Qed.

(** ** More on complexity (analyzer.py) *)

(** X6: the complexity does not depend on the order in which the nodes are
    visited: the loop of [_calculate_complexity] run over any arrangement of
    the nodes of the walk ends with the same count. *)
Theorem complexity_order_invariant (tree : ast) (order : list ast) :
  Permutation order (walk tree) ->
  inject_Z (fold_left CodeAnalyzer.complexity_step order 1)
  = CodeAnalyzer._calculate_complexity tree.
Proof.
  intros Hperm. unfold CodeAnalyzer._calculate_complexity.
  rewrite !fold_complexity, (sum_contributions_perm _ _ Hperm). reflexivity.
Qed.

Lemma complexity_order_invariant_witness :
  inject_Z (fold_left CodeAnalyzer.complexity_step (rev (walk Samples.and3_unit)) 1)
  = CodeAnalyzer._calculate_complexity Samples.and3_unit.
Proof.
  apply (complexity_order_invariant Samples.and3_unit (rev (walk Samples.and3_unit))).
  apply Permutation_sym, Permutation_rev.
Defined.

(** X7: the complexity of a module is 1 plus, for each of its statements,
    the complexity of the statement less 1; so the complexity of two bodies
    put one after the other is the sum of their complexities less 1. *)
Theorem complexity_of_module (body body' : list ast) :
  (CodeAnalyzer._calculate_complexity (Module body)
   == 1 + fold_right Qplus 0
            (map (fun stmt => CodeAnalyzer._calculate_complexity stmt - 1) body))%Q
  /\ (CodeAnalyzer._calculate_complexity (Module (body ++ body'))
      == CodeAnalyzer._calculate_complexity (Module body)
         + CodeAnalyzer._calculate_complexity (Module body') - 1)%Q.
Proof.
  assert (Hmodule : forall stmts,
             CodeAnalyzer._calculate_complexity (Module stmts)
             = inject_Z (1 + fold_right Z.add 0
                               (map (fun n => sum_contributions (nodes n)) stmts))).
  { intros stmts. rewrite calculate_complexity_sum, nodes_children.
    cbn [iter_child_nodes]. unfold sum_contributions at 1. cbn [map fold_right].
    fold (sum_contributions (flat_map nodes stmts)).
    rewrite sum_contributions_flat. reflexivity. }
  split.
  - rewrite Hmodule, inject_Z_plus. change (inject_Z 1) with 1%Q.
    apply Qplus_comp; [reflexivity|].
    induction body as [|stmt body IH]; [reflexivity|].
    cbn [map fold_right]. rewrite inject_Z_plus, IH, calculate_complexity_sum.
    rewrite inject_Z_plus. change (inject_Z 1) with 1%Q. ring.
  - rewrite !Hmodule, map_app, fold_right_app.
    assert (Hfold : forall (l : list Z) (acc : Z),
               fold_right Z.add acc l = fold_right Z.add 0 l + acc)
      by (induction l; intros; simpl; [lia | rewrite IHl; lia]).
    rewrite Hfold. rewrite !inject_Z_plus. change (inject_Z 1) with 1%Q. ring.
Qed.

Lemma sum_contributions_nonnegative (l : list ast) :
  forallb has_operands l = true -> 0 <= sum_contributions l.
Proof.
  unfold sum_contributions. induction l as [|n l IH]; [reflexivity|].
  cbn [forallb map fold_right]. intros H. apply andb_true_iff in H.
  destruct H as [Hn Hl]. specialize (IH Hl).
  assert (0 <= contribution n).
  { destruct n; unfold contribution; cbn; try lia.
    destruct values; [discriminate Hn|]. cbn [List.length]. lia. }
  lia.
Qed.

(** X8: for a tree in which every boolean combination has an operand, as
    in every tree the parser builds, the complexity is at least 1.0; a
    boolean combination with no operand takes 1 off. *)
Theorem complexity_at_least_one (tree : ast) :
  (forallb has_operands (nodes tree) = true ->
   (1 <= CodeAnalyzer._calculate_complexity tree)%Q)
  /\ (forall op, CodeAnalyzer._calculate_complexity (BoolOp op [])
                 == CodeAnalyzer._calculate_complexity op - 1)%Q.
Proof.
  split.
  - intros H. rewrite calculate_complexity_sum.
    change 1%Q with (inject_Z 1). rewrite <- Zle_Qle.
    pose proof (sum_contributions_nonnegative _ H). lia.
  - intros op. rewrite !calculate_complexity_sum.
    rewrite (nodes_children (BoolOp op [])). cbn [iter_child_nodes app flat_map].
    rewrite app_nil_r. unfold sum_contributions at 1. cbn [map fold_right].
    fold (sum_contributions (nodes op)).
    change (contribution (BoolOp op [])) with (-1).
    rewrite !inject_Z_plus. change (inject_Z 1) with 1%Q.
    change (inject_Z (-1)) with (-1 # 1)%Q. ring.
Qed.

Lemma complexity_at_least_one_witness :
  (1 <= CodeAnalyzer._calculate_complexity Samples.three_deep)%Q.
Proof.
  apply (proj1 (complexity_at_least_one Samples.three_deep)). reflexivity.
Defined.

(** ** More on batches (analyzer.py) *)

Lemma analyze_file_path (w : World) (self : CodeAnalyzer.t) (f : string)
  (r : CodeAnalyzer.AnalysisResult) :
  CodeAnalyzer.analyze_file w self f = Ok r ->
  CodeAnalyzer.file_path r = f
  /\ exists code, read_text w f = Ok code
                  /\ CodeAnalyzer.lines_of_code r = nonblank_lines code.
Proof.
  unfold CodeAnalyzer.analyze_file. intros H.
  destruct (read_text w f) as [code|]; [|discriminate H]. cbn [bind] in H.
  destruct (try_except_SyntaxError _ _) as [c|]; [|discriminate H]. cbn [bind] in H.
  destruct (CodeAnalyzer._analyze_with_ai w self code f) as [v|]; [|discriminate H].
  cbn [bind] in H.
  destruct v as [| | | | | |d]; try discriminate H.
  cbn [get bind] in H. injection H as <-.
  split; [reflexivity|]. exists code. split; reflexivity.
Qed.

(** X9: [analyze_file] returns a result exactly when the file can be read,
    the parser accepts the text or rejects it with [SyntaxError], and the
    reply is a dictionary; the result carries the path it was given.  A read
    error and any other parser exception leave the call as they are, and a
    reply that is not a dictionary raises [AttributeError]. *)
Theorem analyze_file_outcomes (w : World) (self : CodeAnalyzer.t) (f : string) :
  ((exists r, CodeAnalyzer.analyze_file w self f = Ok r)
   <-> exists (code : string) (d : dict),
       read_text w f = Ok code
       /\ (forall e, ast_parse w code = Raise e -> e = SyntaxError)
       /\ CodeAnalyzer._analyze_with_ai w self code f = Ok (VDict d))
  /\ (forall r, CodeAnalyzer.analyze_file w self f = Ok r ->
                CodeAnalyzer.file_path r = f)
  /\ (forall e, read_text w f = Raise e ->
                CodeAnalyzer.analyze_file w self f = Raise e)
  /\ (forall code e, read_text w f = Ok code -> ast_parse w code = Raise e ->
                     e <> SyntaxError ->
                     CodeAnalyzer.analyze_file w self f = Raise e)
  /\ (forall code v, read_text w f = Ok code ->
                     (forall e, ast_parse w code = Raise e -> e = SyntaxError) ->
                     CodeAnalyzer._analyze_with_ai w self code f = Ok v ->
                     is_dict v = false ->
                     CodeAnalyzer.analyze_file w self f = Raise AttributeError).
Proof.
  split; [|split; [|split; [|split]]].
  - split.
    + intros [r H]. unfold CodeAnalyzer.analyze_file in H.
      destruct (read_text w f) as [code|]; [|discriminate H]. cbn [bind] in H.
      exists code.
      destruct (ast_parse w code) as [tree|e] eqn:Hparse.
      * cbn [bind try_except_SyntaxError] in H.
        destruct (CodeAnalyzer._analyze_with_ai w self code f) as [v|];
          [|discriminate H].
        destruct v as [| | | | | |d]; try discriminate H.
        exists d. repeat split. intros e He. discriminate He.
      * cbn [bind try_except_SyntaxError] in H.
        destruct e; try discriminate H. cbn [is_SyntaxError bind] in H.
        destruct (CodeAnalyzer._analyze_with_ai w self code f) as [v|];
          [|discriminate H].
        destruct v as [| | | | | |d]; try discriminate H.
        exists d. repeat split. intros e He. injection He as <-. reflexivity.
    + intros [code [d [Hread [Hparse Hreply]]]].
      unfold CodeAnalyzer.analyze_file. rewrite Hread. cbn [bind].
      destruct (ast_parse w code) as [tree|e] eqn:Hp.
      * cbn [bind try_except_SyntaxError]. rewrite Hreply. eexists. reflexivity.
      * rewrite (Hparse e eq_refl). cbn [bind try_except_SyntaxError is_SyntaxError].
        rewrite Hreply. eexists. reflexivity.
  - intros r H. apply (analyze_file_path w self f r H).
  - intros e He. unfold CodeAnalyzer.analyze_file. rewrite He. reflexivity.
  - intros code e Hread Hparse Hne. unfold CodeAnalyzer.analyze_file.
    rewrite Hread. cbn [bind]. rewrite Hparse. cbn [bind try_except_SyntaxError].
    destruct e; try reflexivity. contradiction.
  - intros code v Hread Hparse Hreply Hv. unfold CodeAnalyzer.analyze_file.
    rewrite Hread. cbn [bind].
    assert (Hc : exists c, try_except_SyntaxError
                             (tree <- ast_parse w code ;;
                              Ok (CodeAnalyzer._calculate_complexity tree))
                             (Ok 0%Q) = Ok c).
    { destruct (ast_parse w code) as [tree|e] eqn:Hp.
      - eexists. reflexivity.
      - rewrite (Hparse e eq_refl). eexists. reflexivity. }
    destruct Hc as [c ->]. cbn [bind]. rewrite Hreply. cbn [bind].
    destruct v; try reflexivity. discriminate Hv.
Qed.

Lemma analyze_file_outcomes_witness :
  (exists r, CodeAnalyzer.analyze_file sample_batch_world
               (CodeAnalyzer.init sample_batch_world Samples.no_config) "bad.py" = Ok r)
  /\ CodeAnalyzer.analyze_file sample_batch_world
       (CodeAnalyzer.init sample_batch_world Samples.no_config) "gone.py"
     = Raise OSError.
Proof.
  split.
  - apply (proj1 (analyze_file_outcomes sample_batch_world
                    (CodeAnalyzer.init sample_batch_world Samples.no_config) "bad.py")).
    exists Samples.broken_text. eexists. repeat split.
    intros e He. vm_compute in He. injection He as <-. reflexivity.
  - apply (proj1 (proj2 (proj2 (analyze_file_outcomes sample_batch_world
                                  (CodeAnalyzer.init sample_batch_world
                                     Samples.no_config) "gone.py")))).
    reflexivity.
Defined.

Lemma analyze_files_kept (w : World) (self : CodeAnalyzer.t) (fs : list string) :
  forall results,
    CodeAnalyzer.analyze_files w self fs results
    = results ++ flat_map (kept_result w self) fs.
Proof.
  induction fs as [|f fs IH]; intros results.
  - symmetry. apply app_nil_r.
  - cbn [CodeAnalyzer.analyze_files flat_map]. unfold kept_result at 1.
    destruct (CodeAnalyzer.analyze_file w self f) as [r|e]; rewrite IH.
    + rewrite <- app_assoc. reflexivity.
    + reflexivity.
Qed.

Lemma any_pattern_in_strings (patterns : list string) (f : string) :
  CodeAnalyzer.any_pattern_in (map VStr patterns) f
  = Ok (existsb (fun pattern => contains pattern f) patterns).
Proof.
  induction patterns as [|p ps IH]; [reflexivity|].
  cbn [map CodeAnalyzer.any_pattern_in existsb].
  destruct (contains p f); [reflexivity | exact IH].
Qed.

Lemma filter_files_strings (patterns : list string) (files : list string) :
  CodeAnalyzer.filter_files (VList (map VStr patterns)) files
  = Ok (filter (not_excluded_by patterns) files).
Proof.
  induction files as [|f files IH]; [reflexivity|].
  cbn [CodeAnalyzer.filter_files filter]. unfold CodeAnalyzer.not_excluded.
  cbn [iter bind]. rewrite any_pattern_in_strings. cbn [bind]. rewrite IH.
  cbn [bind]. unfold not_excluded_by.
  destruct (existsb (fun pattern => contains pattern f) patterns); reflexivity.
Qed.

Lemma analyze_directory_returns (w : World) (self : CodeAnalyzer.t)
  (directory : string) (report : CodeAnalyzer.Report) :
  CodeAnalyzer.analyze_directory w self directory = Ok report ->
  exists (fs : list string) (lens : list Z),
    CodeAnalyzer.filter_files
      (Config.get (CodeAnalyzer.config self) "analysis.exclude" (VList []))
      (rglob_py w directory) = Ok fs
    /\ CodeAnalyzer.details report = flat_map (kept_result w self) fs
    /\ CodeAnalyzer._generate_summary w (CodeAnalyzer.details report)
       = Ok (CodeAnalyzer.summary report)
    /\ mapM (fun r => len (CodeAnalyzer.issues_found r)) (CodeAnalyzer.details report)
       = Ok lens
    /\ CodeAnalyzer.report_issues_found report = CodeAnalyzer.sum_Z lens
    /\ CodeAnalyzer.files_analyzed report
       = Z.of_nat (List.length (CodeAnalyzer.details report))
    /\ CodeAnalyzer.report_complexity_score report
       = CodeAnalyzer.avg_complexity (CodeAnalyzer.summary report).
Proof.
  unfold CodeAnalyzer.analyze_directory. intros H.
  destruct (CodeAnalyzer.filter_files _ _) as [fs|]; [|discriminate H].
  cbn [bind] in H. rewrite analyze_files_kept in H. cbn [app] in H.
  destruct (CodeAnalyzer._generate_summary w (flat_map (kept_result w self) fs))
    as [s|] eqn:Hs; [|discriminate H].
  cbn [bind] in H.
  destruct (mapM _ (flat_map (kept_result w self) fs)) as [lens|] eqn:Hlens;
    [|discriminate H].
  cbn [bind] in H. injection H as <-. exists fs, lens.
  cbn. repeat split; assumption.
Qed.

Lemma list_sum_ones {A : Type} (l : list A) :
  list_sum (map (fun _ => 1%nat) l) = List.length l.
Proof.
  induction l as [|x l IH]; [reflexivity|].
  cbn [map List.length].
  change (list_sum (1%nat :: map (fun _ => 1%nat) l))
    with (S (list_sum (map (fun _ : A => 1%nat) l))).
  rewrite IH. reflexivity.
Qed.

(** X10: with a list of texts as the patterns to exclude, the results of
    [analyze_directory] are those of the files in whose path no pattern
    occurs and whose analysis returns, in the order the files were found:
    no result is for a path with an excluded pattern in it, there are no
    more results than such files, and the empty pattern excludes every
    file. *)
Theorem analyze_directory_details (w : World) (self : CodeAnalyzer.t)
  (directory : string) (patterns : list string) (report : CodeAnalyzer.Report) :
  Config.get (CodeAnalyzer.config self) "analysis.exclude" (VList [])
  = VList (map VStr patterns) ->
  CodeAnalyzer.analyze_directory w self directory = Ok report ->
  CodeAnalyzer.details report
  = flat_map (kept_result w self)
      (filter (not_excluded_by patterns) (rglob_py w directory))
  /\ (forall r, In r (CodeAnalyzer.details report) ->
                In (CodeAnalyzer.file_path r) (rglob_py w directory)
                /\ forall pattern, In pattern patterns ->
                     ~ exists pre post,
                         CodeAnalyzer.file_path r = (pre ++ pattern ++ post)%string)
  /\ (0 <= CodeAnalyzer.files_analyzed report
      <= Z.of_nat (List.length (filter (not_excluded_by patterns)
                                  (rglob_py w directory))))
  /\ (In EmptyString patterns -> CodeAnalyzer.details report = []).
Proof.
  intros Hpatterns Hrun.
  destruct (analyze_directory_returns w self directory report Hrun)
    as [fs [lens [Hfs [Hdetails [_ [_ [_ [Hcount _]]]]]]]].
  rewrite Hpatterns, filter_files_strings in Hfs. injection Hfs as <-.
  split; [exact Hdetails|]. split; [|split].
  - intros r Hr. rewrite Hdetails in Hr. apply in_flat_map in Hr.
    destruct Hr as [f [Hf Hr]]. unfold kept_result in Hr.
    destruct (CodeAnalyzer.analyze_file w self f) as [r'|] eqn:Hfile; [|contradiction].
    destruct Hr as [<-|[]].
    destruct (analyze_file_path w self f r' Hfile) as [-> _].
    apply filter_In in Hf. destruct Hf as [Hf Hkeep]. split; [exact Hf|].
    intros pattern Hp Hocc. apply contains_occurs in Hocc.
    unfold not_excluded_by in Hkeep. apply negb_true_iff in Hkeep.
    rewrite (existsb_none _ _ Hkeep pattern Hp) in Hocc. discriminate Hocc.
  - rewrite Hcount, Hdetails. split; [lia|]. apply inj_le.
    etransitivity; [apply (flat_map_length_bound _ (fun _ => 1%nat))|].
    + intros f. unfold kept_result.
      destruct (CodeAnalyzer.analyze_file w self f); cbn; lia.
    + rewrite list_sum_ones. apply Nat.le_refl.
  - intros Hempty. rewrite Hdetails.
    rewrite (filter_none (not_excluded_by patterns)); [reflexivity|].
    intros f _. unfold not_excluded_by. apply negb_false_iff.
    apply existsb_exists. exists EmptyString. split; [exact Hempty|].
    destruct f; reflexivity.
Qed.

Lemma analyze_directory_details_witness :
  exists report : CodeAnalyzer.Report,
    CodeAnalyzer.analyze_directory sample_batch_world
      (CodeAnalyzer.init sample_batch_world excluding_config) "src" = Ok report
    /\ map CodeAnalyzer.file_path (CodeAnalyzer.details report) = ["good.py"].
Proof.
  destruct (CodeAnalyzer.analyze_directory sample_batch_world
              (CodeAnalyzer.init sample_batch_world excluding_config) "src")
    as [report|e] eqn:Hrun; [|vm_compute in Hrun; discriminate Hrun].
  exists report. split; [reflexivity|].
  rewrite (proj1 (analyze_directory_details sample_batch_world
                    (CodeAnalyzer.init sample_batch_world excluding_config)
                    "src" ["bad"] report eq_refl Hrun)).
  reflexivity.
Defined.

(** ** The summary (analyzer.py) *)

Lemma bump_total (issue_types : list (value * Z)) (severity : value) :
  histogram_total (CodeAnalyzer.bump issue_types severity)
  = histogram_total issue_types + 1.
Proof.
  unfold histogram_total.
  induction issue_types as [|[k n] rest IH]; [reflexivity|].
  cbn [CodeAnalyzer.bump]. destruct (CodeAnalyzer.key_eqb severity k);
    cbn [map fold_right snd] in *; lia.
Qed.

Lemma bump_keys (P : value * Z -> bool) (issue_types : list (value * Z))
  (severity : value) :
  (forall k n n', P (k, n) = P (k, n')) ->
  forallb P issue_types = true -> P (severity, 1) = true ->
  forallb P (CodeAnalyzer.bump issue_types severity) = true.
Proof.
  intros Hkey. induction issue_types as [|[k n] rest IH]; intros Hall Hs.
  - cbn. rewrite Hs. reflexivity.
  - cbn [forallb] in Hall. apply andb_true_iff in Hall. destruct Hall as [Hk Hrest].
    cbn [CodeAnalyzer.bump]. destruct (CodeAnalyzer.key_eqb severity k); cbn [forallb].
    + rewrite (Hkey k (n + 1) n), Hk, Hrest. reflexivity.
    + rewrite Hk, (IH Hrest Hs). reflexivity.
Qed.

Lemma bump_distinct (issue_types : list (value * Z)) (severity : value) :
  distinct_keys issue_types = true ->
  distinct_keys (CodeAnalyzer.bump issue_types severity) = true.
Proof.
  induction issue_types as [|[k n] rest IH]; intros H; [reflexivity|].
  cbn [distinct_keys] in H. apply andb_true_iff in H. destruct H as [Hk Hrest].
  cbn [CodeAnalyzer.bump].
  destruct (CodeAnalyzer.key_eqb severity k) eqn:Heq; cbn [distinct_keys].
  - rewrite Hk, Hrest. reflexivity.
  - rewrite (IH Hrest), andb_true_r.
    apply bump_keys; [reflexivity | exact Hk |].
    cbn [fst]. rewrite Heq. reflexivity.
Qed.

Lemma bump_counted (issue_types : list (value * Z)) (severity : value) :
  CodeAnalyzer.hashable severity = true ->
  forallb counted_entry issue_types = true ->
  forallb counted_entry (CodeAnalyzer.bump issue_types severity) = true.
Proof.
  intros Hs. induction issue_types as [|[k n] rest IH]; intros H.
  - cbn. unfold counted_entry. cbn. rewrite Hs. reflexivity.
  - cbn [forallb] in H. apply andb_true_iff in H. destruct H as [Hk Hrest].
    cbn [CodeAnalyzer.bump]. destruct (CodeAnalyzer.key_eqb severity k); cbn [forallb].
    + rewrite Hrest, andb_true_r. unfold counted_entry in *. cbn [fst snd] in *.
      apply andb_true_iff in Hk. destruct Hk as [Hh Hn]. rewrite Hh. cbn [andb].
      apply Z.leb_le. apply Z.leb_le in Hn. lia.
    + rewrite Hk, (IH Hrest). reflexivity.
Qed.

(** What one issue does to the histogram, when it is counted. *)
Lemma count_issue_returns (t t' : list (value * Z)) (issue : value) :
  CodeAnalyzer.count_issue t issue = Ok t' ->
  histogram_total t' = histogram_total t + 1
  /\ (distinct_keys t = true -> distinct_keys t' = true)
  /\ (forallb counted_entry t = true -> forallb counted_entry t' = true).
Proof.
  unfold CodeAnalyzer.count_issue. intros H.
  destruct (get issue "severity" (VStr "unknown")) as [severity|]; [|discriminate H].
  cbn [bind] in H.
  destruct (CodeAnalyzer.hashable severity) eqn:Hh; [|discriminate H].
  injection H as <-. split; [apply bump_total|]. split.
  - apply bump_distinct.
  - apply (bump_counted _ _ Hh).
Qed.

Lemma count_issues_total (items : list value) :
  forall t t',
    foldM CodeAnalyzer.count_issue t items = Ok t' ->
    histogram_total t' = histogram_total t + Z.of_nat (List.length items)
    /\ (distinct_keys t = true -> distinct_keys t' = true)
    /\ (forallb counted_entry t = true -> forallb counted_entry t' = true).
Proof.
  induction items as [|i items IH]; intros t t' H.
  - injection H as <-. cbn. repeat split; try lia; auto.
  - cbn [foldM] in H.
    destruct (CodeAnalyzer.count_issue t i) as [t1|] eqn:H1; [|discriminate H].
    cbn [bind] in H.
    destruct (count_issue_returns _ _ _ H1) as [Ht [Hd Hc]].
    destruct (IH _ _ H) as [Ht' [Hd' Hc']].
    cbn [List.length]. repeat split; [lia | auto | auto].
Qed.

Lemma iter_len (x : value) (items : list value) :
  iter x = Ok items -> len x = Ok (Z.of_nat (List.length items)).
Proof.
  destruct x; cbn [iter len]; intros H; try discriminate H; injection H as <-.
  - unfold chars. rewrite length_map. reflexivity.
  - reflexivity.
  - rewrite length_map. reflexivity.
Qed.

Lemma sum_Z_fold (l : list Z) : CodeAnalyzer.sum_Z l = fold_right Z.add 0 l.
Proof.
  unfold CodeAnalyzer.sum_Z.
  assert (H : forall acc, fold_left Z.add l acc = acc + fold_right Z.add 0 l)
    by (induction l as [|x l IH]; intros acc; cbn; [lia | rewrite IH; lia]).
  rewrite H. lia.
Qed.

Lemma count_results_total (rs : list CodeAnalyzer.AnalysisResult) :
  forall t t' lens,
    foldM CodeAnalyzer.count_result t rs = Ok t' ->
    mapM (fun r => len (CodeAnalyzer.issues_found r)) rs = Ok lens ->
    histogram_total t' = histogram_total t + fold_right Z.add 0 lens
    /\ (distinct_keys t = true -> distinct_keys t' = true)
    /\ (forallb counted_entry t = true -> forallb counted_entry t' = true).
Proof.
  induction rs as [|r rs IH]; intros t t' lens Hfold Hlens.
  - injection Hfold as <-. injection Hlens as <-. cbn. repeat split; try lia; auto.
  - cbn [foldM] in Hfold. unfold CodeAnalyzer.count_result at 1 in Hfold.
    destruct (iter (CodeAnalyzer.issues_found r)) as [items|] eqn:Hiter;
      [|discriminate Hfold].
    cbn [bind] in Hfold.
    destruct (foldM CodeAnalyzer.count_issue t items) as [t1|] eqn:H1;
      [|discriminate Hfold].
    cbn [bind] in Hfold.
    cbn [mapM] in Hlens. rewrite (iter_len _ _ Hiter) in Hlens. cbn [bind] in Hlens.
    destruct (mapM _ rs) as [lens'|] eqn:Hrest; [|discriminate Hlens].
    cbn [bind] in Hlens. injection Hlens as <-.
    destruct (count_issues_total _ _ _ H1) as [Ht [Hd Hc]].
    destruct (IH _ _ _ Hfold eq_refl) as [Ht' [Hd' Hc']].
    cbn [fold_right]. repeat split; [lia | auto | auto].
Qed.

Lemma generate_summary_fields (w : World) (rs : list CodeAnalyzer.AnalysisResult)
  (s : CodeAnalyzer.Summary) :
  CodeAnalyzer._generate_summary w rs = Ok s ->
  foldM CodeAnalyzer.count_result [] rs = Ok (CodeAnalyzer.issue_types s)
  /\ CodeAnalyzer.total_lines s
     = CodeAnalyzer.sum_Z (map CodeAnalyzer.lines_of_code rs)
  /\ (rs = [] -> CodeAnalyzer.avg_complexity s = 0%Q).
Proof.
  unfold CodeAnalyzer._generate_summary. intros H.
  destruct rs as [|r rs].
  - injection H as <-. repeat split.
  - destruct (foldM CodeAnalyzer.count_result [] (r :: rs)) as [t|]; [|discriminate H].
    cbn [bind] in H. injection H as <-. repeat split. discriminate.
Qed.

(** X11: in a report [analyze_directory] has returned, the number of
    issues is the sum of the counts of the histogram of severities: every
    issue of every result is counted once.  No severity is listed twice in
    the histogram, every count is at least 1, the number of lines is the sum
    over the results, and a report with no result has average complexity
    0. *)
Theorem summary_counts_every_issue (w : World) (self : CodeAnalyzer.t)
  (directory : string) (report : CodeAnalyzer.Report) :
  CodeAnalyzer.analyze_directory w self directory = Ok report ->
  CodeAnalyzer.report_issues_found report
  = histogram_total (CodeAnalyzer.issue_types (CodeAnalyzer.summary report))
  /\ distinct_keys (CodeAnalyzer.issue_types (CodeAnalyzer.summary report)) = true
  /\ forallb counted_entry (CodeAnalyzer.issue_types (CodeAnalyzer.summary report))
     = true
  /\ CodeAnalyzer.total_lines (CodeAnalyzer.summary report)
     = fold_right Z.add 0 (map CodeAnalyzer.lines_of_code (CodeAnalyzer.details report))
  /\ (CodeAnalyzer.details report = [] ->
      CodeAnalyzer.report_complexity_score report = 0%Q
      /\ CodeAnalyzer.report_issues_found report = 0).
Proof.
  intros Hrun.
  destruct (analyze_directory_returns w self directory report Hrun)
    as [fs [lens [_ [_ [Hsummary [Hlens [Hissues [_ Havg]]]]]]]].
  destruct (generate_summary_fields w _ _ Hsummary) as [Hfold [Hlines Hnone]].
  destruct (count_results_total _ _ _ _ Hfold Hlens) as [Htotal [Hd Hc]].
  rewrite Hissues, sum_Z_fold.
  split; [cbn in Htotal; lia|]. split; [apply Hd; reflexivity|].
  split; [apply Hc; reflexivity|]. split; [rewrite Hlines; apply sum_Z_fold|].
  intros Hempty. rewrite Havg. split; [apply Hnone, Hempty|].
  rewrite Hempty in Hlens. injection Hlens as <-. reflexivity.
Qed.

Lemma summary_counts_every_issue_witness :
  exists report : CodeAnalyzer.Report,
    CodeAnalyzer.analyze_directory sample_batch_world
      (CodeAnalyzer.init sample_batch_world Samples.no_config) "src" = Ok report
    /\ CodeAnalyzer.report_issues_found report
       = histogram_total (CodeAnalyzer.issue_types (CodeAnalyzer.summary report))
    /\ CodeAnalyzer.issue_types (CodeAnalyzer.summary report) = [(VStr "high", 2)].
Proof.
  destruct (CodeAnalyzer.analyze_directory sample_batch_world
              (CodeAnalyzer.init sample_batch_world Samples.no_config) "src")
    as [report|e] eqn:Hrun; [|vm_compute in Hrun; discriminate Hrun].
  exists report. split; [reflexivity|]. split.
  - apply (proj1 (summary_counts_every_issue sample_batch_world
                    (CodeAnalyzer.init sample_batch_world Samples.no_config)
                    "src" report Hrun)).
  - vm_compute in Hrun. injection Hrun as <-. reflexivity.
Defined.

(** ** Lines of code (analyzer.py) *)

Lemma contains_char_cons (sep c : ascii) (s : string) :
  contains (String sep EmptyString) (String c s)
  = if Ascii.eqb c sep then true else contains (String sep EmptyString) s.
Proof.
  rewrite contains_unfold. cbn [String.prefix].
  destruct (Ascii.ascii_dec sep c) as [->|Hne].
  - rewrite Ascii.eqb_refl. destruct s; reflexivity.
  - destruct (Ascii.eqb_spec c sep) as [->|_]; [contradiction | reflexivity].
Qed.

Lemma split_on_nonempty (sep : ascii) (s : string) : split_on sep s <> [].
Proof.
  destruct s as [|c s]; cbn [split_on]; [discriminate|].
  destruct (Ascii.eqb c sep); [discriminate|].
  destruct (split_on sep s); discriminate.
Qed.

Lemma split_on_app (sep : ascii) (a b : string) :
  split_on sep (a ++ String sep b)%string = split_on sep a ++ split_on sep b.
Proof.
  induction a as [|c a IH]; cbn [String.append split_on].
  - rewrite Ascii.eqb_refl. reflexivity.
  - destruct (Ascii.eqb c sep); [rewrite IH; reflexivity|].
    rewrite IH. pose proof (split_on_nonempty sep a) as Hne.
    destruct (split_on sep a) as [|w ws]; [contradiction | reflexivity].
Qed.

(** The lines of a split, joined again, are the text, and none has a
    separator in it. *)
Lemma join_split_on (s : string) : join_lines (split_on LF s) = s.
Proof.
  induction s as [|c s IH]; [reflexivity|].
  cbn [split_on]. pose proof (split_on_nonempty LF s) as Hne.
  destruct (Ascii.eqb_spec c LF) as [->|_].
  - cbn [join_lines]. destruct (split_on LF s) as [|w ws]; [contradiction|].
    rewrite IH. reflexivity.
  - destruct (split_on LF s) as [|w ws]; [contradiction|].
    rewrite <- IH. cbn [join_lines]. destruct ws; reflexivity.
Qed.

Lemma split_on_no_separator (sep : ascii) (s : string) :
  Forall (fun line => contains (String sep EmptyString) line = false) (split_on sep s).
Proof.
  induction s as [|c s IH]; [repeat constructor|].
  cbn [split_on]. destruct (Ascii.eqb c sep) eqn:Hc.
  - constructor; [reflexivity | exact IH].
  - destruct (split_on sep s) as [|w ws]; [repeat constructor; rewrite contains_char_cons, Hc; reflexivity|].
    inversion IH as [|? ? Hw Hws]; subst.
    constructor; [|exact Hws]. rewrite contains_char_cons, Hc. exact Hw.
Qed.

(** The lines are one more than the line breaks. *)
Lemma split_on_count (s : string) :
  Z.of_nat (List.length (split_on LF s)) = count s (String LF EmptyString) + 1.
Proof.
  unfold count. induction s as [|c s IH]; [reflexivity|].
  cbn [split_on count_from String.prefix String.length Nat.sub].
  destruct (Ascii.ascii_dec LF c) as [<-|Hne].
  - rewrite Ascii.eqb_refl. cbn [List.length].
    destruct s; cbn [String.prefix]; rewrite Nat2Z.inj_succ, IH; lia.
  - destruct (Ascii.eqb_spec c LF) as [->|_]; [contradiction|].
    pose proof (split_on_nonempty LF s) as Hs.
    destruct (split_on LF s) as [|w ws]; [contradiction|].
    cbn [List.length] in *. exact IH.
Qed.

(** A white space character at the front of a text is not text. *)
Lemma has_text_skip (x : string) :
  In x white_space -> forall rest, has_text (x ++ rest) = has_text rest.
Proof.
  intros H rest. unfold white_space in H. cbn [map] in H.
  repeat (destruct H as [<-|H]; [reflexivity|]). destruct H.
Qed.

Lemma lstrip_skip (x : string) :
  In x white_space -> forall rest, lstrip (x ++ rest) = lstrip rest.
Proof.
  intros H rest. unfold white_space in H. cbn [map] in H.
  repeat (destruct H as [<-|H]; [reflexivity|]). destruct H.
Qed.

Lemma is_white_space_in (x : string) : is_white_space x = true -> In x white_space.
Proof.
  unfold is_white_space. intros H. apply existsb_exists in H.
  destruct H as [y [Hy Heq]]. apply String.eqb_eq in Heq. subst y. exact Hy.
Qed.

Lemma blank_empty : blank EmptyString.
Proof. exists []. split; [constructor | reflexivity]. Qed.

Lemma blank_cons (x rest : string) :
  In x white_space -> blank rest -> blank (x ++ rest).
Proof.
  intros Hx [ws [Hws ->]]. exists (x :: ws). split; [constructor; assumption | reflexivity].
Qed.

(** A line has no text exactly when it is made of white space. *)
Lemma has_text_blank (line : string) : has_text line = false <-> blank line.
Proof.
  split.
  - remember (String.length line) as n eqn:Hn.
    assert (Hle : (String.length line <= n)%nat) by lia. clear Hn.
    revert line Hle. induction n as [|n IH]; intros line Hle H.
    + destruct line; [apply blank_empty | cbn in Hle; lia].
    + destruct line as [|c1 s1]; [apply blank_empty|].
      cbn [String.length] in Hle. cbn [has_text] in H.
      destruct (is_space c1) eqn:H1.
      { apply (blank_cons (String c1 EmptyString) s1);
          [apply is_white_space_in; exact H1 | apply IH; [lia | exact H]]. }
      destruct s1 as [|c2 s2]; [discriminate H|].
      cbn [String.length] in Hle.
      destruct (is_space2 c1 c2) eqn:H2.
      { apply (blank_cons (String c1 (String c2 EmptyString)) s2);
          [apply is_white_space_in; exact H2 | apply IH; [lia | exact H]]. }
      destruct s2 as [|c3 s3]; [discriminate H|].
      cbn [String.length] in Hle.
      destruct (is_space3 c1 c2 c3) eqn:H3; [|discriminate H].
      apply (blank_cons (String c1 (String c2 (String c3 EmptyString))) s3);
        [apply is_white_space_in; exact H3 | apply IH; [lia | exact H]].
  - intros [ws [Hws ->]]. induction Hws as [|x ws Hx _ IH]; [reflexivity|].
    cbn [concat_all fold_right]. rewrite (has_text_skip x Hx). exact IH.
Qed.

(** What [lstrip] drops is white space: the rest has text exactly when the
    line has. *)
Lemma has_text_lstrip (line : string) : has_text (lstrip line) = has_text line.
Proof.
  remember (String.length line) as n eqn:Hn.
  assert (Hle : (String.length line <= n)%nat) by lia. clear Hn.
  revert line Hle. induction n as [|n IH]; intros line Hle.
  - destruct line; [reflexivity | cbn in Hle; lia].
  - destruct line as [|c1 s1]; [reflexivity|].
    cbn [String.length] in Hle.
    change (lstrip (String c1 s1))
      with (if is_space c1 then lstrip s1
            else match s1 with
                 | String c2 s2 =>
                     if is_space2 c1 c2 then lstrip s2
                     else match s2 with
                          | String c3 s3 =>
                              if is_space3 c1 c2 c3 then lstrip s3 else String c1 s1
                          | EmptyString => String c1 s1
                          end
                 | EmptyString => String c1 s1
                 end).
    change (has_text (String c1 s1))
      with (if is_space c1 then has_text s1
            else match s1 with
                 | String c2 s2 =>
                     if is_space2 c1 c2 then has_text s2
                     else match s2 with
                          | String c3 s3 =>
                              if is_space3 c1 c2 c3 then has_text s3 else true
                          | EmptyString => true
                          end
                 | EmptyString => true
                 end).
    destruct (is_space c1) eqn:H1; [apply IH; lia|].
    destruct s1 as [|c2 s2].
    { cbn [has_text]. rewrite H1. reflexivity. }
    cbn [String.length] in Hle.
    destruct (is_space2 c1 c2) eqn:H2; [apply IH; lia|].
    destruct s2 as [|c3 s3].
    { cbn [has_text]. rewrite H1, H2. reflexivity. }
    cbn [String.length] in Hle.
    destruct (is_space3 c1 c2 c3) eqn:H3; [apply IH; lia|].
    cbn [has_text]. rewrite H1, H2, H3. reflexivity.
Qed.

(** [bool(line.strip())] is what [has_text] computes. *)
Lemma strip_is_text_has_text (line : string) : strip_is_text line = has_text line.
Proof.
  unfold strip_is_text. rewrite <- (has_text_lstrip line).
  destruct (lstrip line) as [|c s]; [reflexivity|].
  cbn [rstrip]. destruct (has_text (String c s)); reflexivity.
Qed.

(** X12: the [lines_of_code] of a result is the number of the lines of the
    text, as its line breaks delimit them, whose [strip()] is not empty;
    and the [strip()] of a line is empty exactly when the line is made of
    white space characters only, Unicode white space included.  The count
    is at most the number of line breaks plus one, a line break at the end
    of the text adds no line, and the count for two texts joined by a line
    break is the sum of their counts. *)
Theorem lines_of_code_counts (w : World) (self : CodeAnalyzer.t) (f code : string)
  (r : CodeAnalyzer.AnalysisResult) :
  read_text w f = Ok code ->
  CodeAnalyzer.analyze_file w self f = Ok r ->
  (exists lines : list string,
      code = join_lines lines
      /\ lines <> []
      /\ Forall (fun line => contains (String LF EmptyString) line = false) lines
      /\ CodeAnalyzer.lines_of_code r
         = Z.of_nat (List.length (filter strip_is_text lines)))
  /\ (forall line : string, rstrip (lstrip line) = EmptyString <-> blank line)
  /\ 0 <= CodeAnalyzer.lines_of_code r <= count code (String LF EmptyString) + 1
  /\ (forall (g : string) (r' : CodeAnalyzer.AnalysisResult),
         read_text w g = Ok (code ++ String LF EmptyString)%string ->
         CodeAnalyzer.analyze_file w self g = Ok r' ->
         CodeAnalyzer.lines_of_code r' = CodeAnalyzer.lines_of_code r)
  /\ (forall (g h a b : string) (rg rh : CodeAnalyzer.AnalysisResult),
         code = (a ++ String LF b)%string ->
         read_text w g = Ok a -> read_text w h = Ok b ->
         CodeAnalyzer.analyze_file w self g = Ok rg ->
         CodeAnalyzer.analyze_file w self h = Ok rh ->
         CodeAnalyzer.lines_of_code r
         = CodeAnalyzer.lines_of_code rg + CodeAnalyzer.lines_of_code rh).
Proof.
  intros Hread Hrun.
  assert (Hlines : forall g text r',
             read_text w g = Ok text -> CodeAnalyzer.analyze_file w self g = Ok r' ->
             CodeAnalyzer.lines_of_code r' = nonblank_lines text).
  { intros g text r' Hg Hr'.
    destruct (analyze_file_path w self g r' Hr') as [_ [text' [Hg' Hl]]].
    rewrite Hg in Hg'. injection Hg' as <-. exact Hl. }
  assert (Hjoin : forall a b : string,
             nonblank_lines (a ++ String LF b)%string
             = nonblank_lines a + nonblank_lines b).
  { intros a b. unfold nonblank_lines.
    rewrite split_on_app, filter_app, length_app. lia. }
  split; [|split; [|split; [|split]]].
  - exists (split_on LF code). split; [symmetry; apply join_split_on|].
    split; [apply split_on_nonempty|]. split; [apply split_on_no_separator|].
    rewrite (Hlines f code r Hread Hrun). unfold nonblank_lines.
    rewrite (filter_ext _ _ strip_is_text_has_text). reflexivity.
  - intros line. rewrite <- has_text_blank, <- strip_is_text_has_text.
    unfold strip_is_text.
    destruct (String.eqb_spec (rstrip (lstrip line)) EmptyString) as [Heq|Hne];
      cbn [negb]; split; intros H.
    + reflexivity.
    + exact Heq.
    + contradiction.
    + discriminate H.
  - rewrite (Hlines f code r Hread Hrun). unfold nonblank_lines.
    split; [lia|]. rewrite <- split_on_count. apply inj_le, filter_length_le.
  - intros g r' Hg Hr'.
    rewrite (Hlines g _ r' Hg Hr'), (Hlines f code r Hread Hrun), Hjoin.
    unfold nonblank_lines at 2. cbn. lia.
  - intros g h a b rg rh -> Hg Hh Hrg Hrh.
    rewrite (Hlines f _ r Hread Hrun), (Hlines g a rg Hg Hrg), (Hlines h b rh Hh Hrh).
    apply Hjoin.
Qed.

Lemma lines_of_code_counts_witness :
  exists r : CodeAnalyzer.AnalysisResult,
    CodeAnalyzer.analyze_file sample_offline_world
      (CodeAnalyzer.init sample_offline_world Samples.no_config) "good.py" = Ok r
    /\ 0 <= CodeAnalyzer.lines_of_code r
       <= count Samples.ten_text (String LF EmptyString) + 1.
Proof.
  destruct (CodeAnalyzer.analyze_file sample_offline_world
              (CodeAnalyzer.init sample_offline_world Samples.no_config) "good.py")
    as [r|e] eqn:Hrun; [|vm_compute in Hrun; discriminate Hrun].
  exists r. split; [reflexivity|].
  apply (proj1 (proj2 (proj2 (lines_of_code_counts sample_offline_world
                                (CodeAnalyzer.init sample_offline_world
                                   Samples.no_config)
                                "good.py" Samples.ten_text r eq_refl Hrun)))).
Defined.

(** A line of an em space and a no-break space is blank, a line that
    starts with an ideographic space is stripped of it: two lines of code
    in three. *)
Example lines_of_code_unicode_space :
  nonblank_lines sample_spaces_text = 2
  /\ rstrip (lstrip (bytes [226; 128; 131; 194; 160]%nat)) = EmptyString
  /\ rstrip (lstrip (bytes [227; 128; 128]%nat ++ "y = 2" ++ bytes [194; 133]%nat))
     = "y = 2"%string.
Proof. repeat split; vm_compute; reflexivity. Qed.

(** ** Reviews (reviewer.py) *)

Lemma calculate_score_range (review : value) (score : Z) :
  CodeReviewer._calculate_score review = Ok score -> 1 <= score <= 10.
Proof.
  unfold CodeReviewer._calculate_score. intros H.
  destruct (CodeReviewer.issues_of_tier review "critical"); [|discriminate H].
  cbn [bind] in H.
  destruct (CodeReviewer.issues_of_tier review "medium"); [|discriminate H].
  cbn [bind] in H.
  destruct (CodeReviewer.issues_of_tier review "low"); [|discriminate H].
  cbn [bind] in H.
  destruct (get review "suggestions" VNone); [|discriminate H].
  cbn [bind] in H. injection H as <-. lia.
Qed.

(** X13: when the remote call fails, [review_diff] returns the review with
    the fixed summary, no issue, no suggestion, no comment, and the highest
    score, 10.  Every review it returns carries the number it was given and
    a score from 1 to 10, with the issues, suggestions and comments of the
    reply; a reply that is not a dictionary makes it raise
    [AttributeError]. *)
Theorem review_diff_outcomes (w : World) (self : CodeReviewer.t) (diff : string)
  (pr_number : Z) :
  (remote_failure w (reviewer_request self diff) ->
   CodeReviewer.review_diff w self diff pr_number
   = Ok {| CodeReviewer.pr_number := pr_number;
           CodeReviewer.overall_score := 10;
           CodeReviewer.review_summary :=
             VStr "Unable to perform AI review due to an error.";
           CodeReviewer.issues := VList [];
           CodeReviewer.suggestions := VList [];
           CodeReviewer.comments := VList [] |})
  /\ (forall r, CodeReviewer.review_diff w self diff pr_number = Ok r ->
                CodeReviewer.pr_number r = pr_number
                /\ 1 <= CodeReviewer.overall_score r <= 10
                /\ exists d : dict,
                    CodeReviewer._analyze_with_ai w self diff = Ok (VDict d)
                    /\ CodeReviewer.issues r = dict_get d "issues" (VList [])
                    /\ CodeReviewer.suggestions r = dict_get d "suggestions" (VList [])
                    /\ CodeReviewer.comments r = dict_get d "comments" (VList [])
                    /\ CodeReviewer.review_summary r = dict_get d "summary" (VStr ""))
  /\ (forall v, CodeReviewer._analyze_with_ai w self diff = Ok v ->
                is_dict v = false ->
                CodeReviewer.review_diff w self diff pr_number = Raise AttributeError).
Proof.
  split; [|split].
  - intros Hfail. unfold CodeReviewer.review_diff.
    pose proof (guarded_call_default w (reviewer_request self diff)
                  CodeReviewer.review_default Hfail) as Hreply.
    change (CodeReviewer._analyze_with_ai w self diff = Ok CodeReviewer.review_default)
      in Hreply.
    rewrite Hreply. reflexivity.
  - intros r Hrun. unfold CodeReviewer.review_diff in Hrun.
    destruct (CodeReviewer._analyze_with_ai w self diff) as [review|];
      [|discriminate Hrun].
    cbn [bind] in Hrun.
    destruct (CodeReviewer._calculate_score review) as [score|] eqn:Hscore;
      [|discriminate Hrun].
    cbn [bind] in Hrun. apply calculate_score_range in Hscore.
    destruct review as [| | | | | |d]; try discriminate Hrun.
    cbn [get bind] in Hrun. injection Hrun as <-. cbn.
    split; [reflexivity|]. split; [exact Hscore|].
    exists d. repeat split.
  - intros v Hreply Hv. unfold CodeReviewer.review_diff. rewrite Hreply. cbn [bind].
    destruct v; try reflexivity. discriminate Hv.
Qed.

Lemma review_diff_outcomes_witness :
  CodeReviewer.review_diff timeout_world
    (CodeReviewer.init timeout_world Samples.no_config) "+ x = 1" 7
  = Ok {| CodeReviewer.pr_number := 7;
          CodeReviewer.overall_score := 10;
          CodeReviewer.review_summary :=
            VStr "Unable to perform AI review due to an error.";
          CodeReviewer.issues := VList [];
          CodeReviewer.suggestions := VList [];
          CodeReviewer.comments := VList [] |}.
Proof.
  apply (proj1 (review_diff_outcomes timeout_world
                  (CodeReviewer.init timeout_world Samples.no_config) "+ x = 1" 7)).
  apply (NoResponse _ _ Timeout). reflexivity.
Defined.

Lemma truncate_monotone (x y : Q) : (x <= y)%Q -> Spec.truncate x <= Spec.truncate y.
Proof.
  intros Hxy. unfold Spec.truncate.
  destruct (Qle_bool 0 x) eqn:Hx, (Qle_bool 0 y) eqn:Hy.
  - apply Qfloor_resp_le, Hxy.
  - apply Qle_bool_iff in Hx.
    assert (Hy' : Qle_bool 0 y = true)
      by (apply Qle_bool_iff; eapply Qle_trans; eassumption).
    congruence.
  - apply Qle_bool_iff in Hy.
    assert (Hneg : (x < 0)%Q).
    { apply Qnot_le_lt. intros H0. apply Qle_bool_iff in H0. congruence. }
    pose proof (Qceiling_lt x) as Hc.
    assert (H1 : (inject_Z (Qceiling x - 1) < inject_Z 0)%Q)
      by (eapply Qlt_trans; [exact Hc | exact Hneg]).
    rewrite <- Zlt_Qlt in H1.
    pose proof (Qfloor_resp_le _ _ Hy) as H2. change (Qfloor 0) with 0 in H2. lia.
  - apply Qceiling_resp_le, Hxy.
Qed.

Lemma clamp_monotone (x y : Z) : x <= y -> Spec.clamp 1 10 x <= Spec.clamp 1 10 y.
Proof.
  intros H. unfold Spec.clamp.
  destruct (Z.ltb_spec x 1), (Z.ltb_spec y 1), (Z.ltb_spec 10 x), (Z.ltb_spec 10 y);
    lia.
Qed.

Lemma tier_weight_nonnegative (s : value) : (0 <= Spec.tier_weight s)%Q.
Proof.
  unfold Spec.tier_weight.
  destruct (eq_str s "critical"); [discriminate|].
  destruct (eq_str s "medium"); [discriminate|].
  destruct (eq_str s "low"); discriminate.
Qed.

Lemma raw_score_cons (s : value) (l : list value) (b : bool) :
  (Spec.raw_score (s :: l) b == Spec.raw_score l b - Spec.tier_weight s)%Q.
Proof.
  unfold Spec.raw_score. cbn [fold_left].
  destruct b; rewrite !raw_score_fold; ring.
Qed.

Lemma raw_score_bonus (l : list value) :
  (Spec.raw_score l true == Spec.raw_score l false + 1)%Q.
Proof. reflexivity. Qed.

(** X14: one more issue in a review never raises its score, and a
    suggestion never lowers it. *)
Theorem score_monotone (review review' : dict) (issue : value) (issues : list value) :
  dict_get review "issues" (VList []) = VList issues ->
  dict_get review' "issues" (VList []) = VList (issue :: issues) ->
  forallb is_dict (issue :: issues) = true ->
  exists score score' : Z,
    CodeReviewer._calculate_score (VDict review) = Ok score
    /\ CodeReviewer._calculate_score (VDict review') = Ok score'
    /\ (dict_get review' "suggestions" VNone = dict_get review "suggestions" VNone ->
        score' <= score)
    /\ (truthy (dict_get review "suggestions" VNone) = false ->
        forall suggestions,
          truthy suggestions = true ->
          exists bonus : Z,
            CodeReviewer._calculate_score
              (VDict (dict_set review "suggestions" suggestions)) = Ok bonus
            /\ score <= bonus).
Proof.
  intros Hissues Hissues' Hdicts.
  assert (Hrest : forallb is_dict issues = true)
    by (cbn [forallb] in Hdicts; apply andb_true_iff in Hdicts; apply Hdicts).
  exists (Spec.computeReviewScore (map severity_of issues)
            (truthy (dict_get review "suggestions" VNone))).
  exists (Spec.computeReviewScore (map severity_of (issue :: issues))
            (truthy (dict_get review' "suggestions" VNone))).
  split; [apply (calculate_score_refines _ _ Hissues Hrest)|].
  split; [apply (calculate_score_refines _ _ Hissues' Hdicts)|]. split.
  - intros ->. unfold Spec.computeReviewScore.
    apply clamp_monotone, truncate_monotone. cbn [map].
    rewrite raw_score_cons.
    pose proof (tier_weight_nonnegative (severity_of issue)) as Hw.
    rewrite <- (Qplus_0_r (Spec.raw_score (map severity_of issues) _)) at 2.
    unfold Qminus. apply Qplus_le_r.
    rewrite <- (Qopp_involutive 0). apply Qopp_le_compat. exact Hw.
  - intros Hnone suggestions Hsome. eexists. split.
    + apply calculate_score_refines with (issues := issues); [|exact Hrest].
      rewrite dict_get_set_other by discriminate. exact Hissues.
    + rewrite dict_get_set_same, Hsome, Hnone.
      unfold Spec.computeReviewScore.
      apply clamp_monotone, truncate_monotone.
      rewrite raw_score_bonus.
      rewrite <- (Qplus_0_r (Spec.raw_score _ false)) at 1.
      apply Qplus_le_r. discriminate.
Qed.

Lemma score_monotone_witness :
  exists score score' : Z,
    CodeReviewer._calculate_score
      (VDict [("issues", VList [VDict [("severity", VStr "medium")]])]) = Ok score
    /\ CodeReviewer._calculate_score
         (VDict [("issues", VList [VDict [("severity", VStr "critical")];
                                   VDict [("severity", VStr "medium")]])]) = Ok score'
    /\ score' <= score.
Proof.
  destruct (score_monotone
              [("issues", VList [VDict [("severity", VStr "medium")]])]
              [("issues", VList [VDict [("severity", VStr "critical")];
                                 VDict [("severity", VStr "medium")]])]
              (VDict [("severity", VStr "critical")])
              [VDict [("severity", VStr "medium")]]
              eq_refl eq_refl eq_refl)
    as [score [score' [H [H' [Hle _]]]]].
  exists score, score'. split; [exact H|]. split; [exact H'|]. apply Hle. reflexivity.
Defined.

(** ** More on the optimizer (optimizer.py) *)

(** X15: for a file that can be read, [_optimize_file] returns the
    suggestions of the reply followed by those of the static analysis; when
    the remote call fails, those of the static analysis alone.  A reply that
    is not a list makes it raise [TypeError], and what the static analysis
    raises leaves the call. *)
Theorem optimize_file_outcomes (w : World) (self : CodeOptimizer.t) (f code : string) :
  read_text w f = Ok code ->
  (forall static : list value,
      CodeOptimizer._static_analysis w code f = Ok static ->
      (remote_failure w (optimizer_request self code f) ->
       CodeOptimizer._optimize_file w self f = Ok static)
      /\ (forall ai : list value,
             CodeOptimizer._analyze_with_ai w self code f = Ok (VList ai) ->
             CodeOptimizer._optimize_file w self f = Ok (ai ++ static))
      /\ (forall v : value,
             CodeOptimizer._analyze_with_ai w self code f = Ok v ->
             is_list v = false ->
             CodeOptimizer._optimize_file w self f = Raise TypeError))
  /\ (forall e, CodeOptimizer._static_analysis w code f = Raise e ->
                CodeOptimizer._optimize_file w self f = Raise e).
Proof.
  intros Hread. unfold CodeOptimizer._optimize_file. rewrite Hread. cbn [bind].
  split.
  - intros static Hstatic. split; [|split].
    + intros Hfail.
      pose proof (guarded_call_default w (optimizer_request self code f) (VList [])
                    Hfail) as Hreply.
      change (CodeOptimizer._analyze_with_ai w self code f = Ok (VList [])) in Hreply.
      rewrite Hreply, Hstatic. reflexivity.
    + intros ai Hreply. rewrite Hreply, Hstatic. reflexivity.
    + intros v Hreply Hv. rewrite Hreply, Hstatic. cbn [bind].
      destruct v; try reflexivity. discriminate Hv.
  - intros e Hstatic.
    destruct (guarded_call_never_raises w (optimizer_request self code f) (VList []))
      as [v Hreply].
    change (CodeOptimizer._analyze_with_ai w self code f = Ok v) in Hreply.
    rewrite Hreply, Hstatic. reflexivity.
Qed.

Lemma optimize_file_outcomes_witness :
  CodeOptimizer._optimize_file sample_text_world
    (CodeOptimizer.init sample_text_world Samples.no_config) "eleven.py"
  = Ok [CodeOptimizer.concatenation_suggestion "eleven.py"].
Proof.
  apply (proj1 (proj1 (optimize_file_outcomes sample_text_world
                         (CodeOptimizer.init sample_text_world Samples.no_config)
                         "eleven.py" Samples.eleven_text eq_refl)
                  [CodeOptimizer.concatenation_suggestion "eleven.py"] eq_refl)).
  apply (NoResponse _ _ ConnectionError). reflexivity.
Defined.

(** X16: over several files [optimize_files] returns the suggestions of
    every file, in the order of the files, after those it was given; and it
    has no handler: the first file whose processing raises ends the loop
    with that exception, whatever was gathered before. *)
Theorem optimize_files_all_or_nothing (w : World) (self : CodeOptimizer.t)
  (files : list string) (suggestions : list value) :
  (forall results : list (list value),
      Forall2 (fun f r => CodeOptimizer._optimize_file w self f = Ok r) files results ->
      CodeOptimizer.optimize_files w self files suggestions
      = Ok (suggestions ++ List.concat results))
  /\ (forall (before after : list string) (f : string) (e : exn)
             (results : list (list value)),
         files = before ++ f :: after ->
         Forall2 (fun f r => CodeOptimizer._optimize_file w self f = Ok r)
           before results ->
         CodeOptimizer._optimize_file w self f = Raise e ->
         CodeOptimizer.optimize_files w self files suggestions = Raise e).
Proof.
  split.
  - intros results Hall. revert suggestions.
    induction Hall as [|f r fs rs Hf _ IH]; intros suggestions.
    + cbn. rewrite app_nil_r. reflexivity.
    + cbn [CodeOptimizer.optimize_files List.concat]. rewrite Hf. cbn [bind].
      rewrite IH, app_assoc. reflexivity.
  - intros before after f e results -> Hall Hf. revert suggestions.
    induction Hall as [|g r gs rs Hg _ IH]; intros suggestions.
    + cbn [app CodeOptimizer.optimize_files]. rewrite Hf. reflexivity.
    + cbn [app CodeOptimizer.optimize_files]. rewrite Hg. cbn [bind]. apply IH.
Qed.

Lemma optimize_files_all_or_nothing_witness :
  CodeOptimizer.optimize_files sample_unreadable_world
    (CodeOptimizer.init sample_unreadable_world Samples.no_config)
    ["ten.py"; "gone.py"; "eleven.py"] []
  = Raise OSError
  /\ CodeOptimizer.optimize_code sample_unreadable_world
       (CodeOptimizer.init sample_unreadable_world Samples.no_config) "src" 5
     = Raise OSError.
Proof.
  assert (Hloop :
            CodeOptimizer.optimize_files sample_unreadable_world
              (CodeOptimizer.init sample_unreadable_world Samples.no_config)
              ["ten.py"; "gone.py"; "eleven.py"] []
            = Raise OSError).
  { apply (proj2 (optimize_files_all_or_nothing sample_unreadable_world
                    (CodeOptimizer.init sample_unreadable_world Samples.no_config)
                    ["ten.py"; "gone.py"; "eleven.py"] [])
             ["ten.py"] ["eleven.py"] "gone.py" OSError [[]]).
    - reflexivity.
    - constructor; [reflexivity | constructor].
    - reflexivity. }
  split; [exact Hloop|].
  unfold CodeOptimizer.optimize_code.
  change (is_file sample_unreadable_world "src") with false.
  change (rglob_py sample_unreadable_world "src")
    with ["ten.py"; "gone.py"; "eleven.py"].
  cbn iota. rewrite Hloop. reflexivity.
Defined.

Lemma nested_loop_findings_static (file_path : string) (tree : ast) :
  forallb (static_finding file_path)
    (CodeOptimizer.detectNestedIteration file_path tree []) = true.
Proof.
  rewrite nested_iteration_walk.
  induction (filter has_inner_For (walk tree)) as [|L l IH]; [reflexivity|].
  cbn [map forallb]. rewrite IH, andb_true_r.
  unfold static_finding, CodeOptimizer.nested_loop_suggestion.
  cbn. rewrite String.eqb_refl. reflexivity.
Qed.

Lemma concatenation_suggestion_static (file_path : string) :
  static_finding file_path (CodeOptimizer.concatenation_suggestion file_path) = true.
Proof.
  unfold static_finding, CodeOptimizer.concatenation_suggestion. cbn.
  rewrite String.eqb_refl. reflexivity.
Qed.

(** X17: every suggestion [_static_analysis] returns is a dictionary for
    the file it was given, of priority medium or low; for a text that parses
    there are at most as many as the tree has [for] loops, plus one; and a
    parser exception other than [SyntaxError] leaves the call. *)
Theorem static_analysis_findings (w : World) (code file_path : string) :
  (forall suggestions : list value,
      CodeOptimizer._static_analysis w code file_path = Ok suggestions ->
      forallb (static_finding file_path) suggestions = true)
  /\ (forall (tree : ast) (suggestions : list value),
         ast_parse w code = Ok tree ->
         CodeOptimizer._static_analysis w code file_path = Ok suggestions ->
         (List.length suggestions
          <= List.length (filter CodeOptimizer.is_For (nodes tree)) + 1)%nat)
  /\ (forall e, ast_parse w code = Raise e -> e <> SyntaxError ->
                CodeOptimizer._static_analysis w code file_path = Raise e).
Proof.
  split; [|split].
  - intros suggestions Hrun.
    destruct (ast_parse w code) as [tree|e] eqn:Hparse.
    + rewrite (static_analysis_parsed w code file_path tree Hparse) in Hrun.
      injection Hrun as <-.
      rewrite forallb_app, nested_loop_findings_static.
      match goal with
      | |- context [if ?c then _ else _] => destruct c
      end; [|reflexivity].
      cbn [forallb]. rewrite concatenation_suggestion_static. reflexivity.
    + unfold CodeOptimizer._static_analysis in Hrun. rewrite Hparse in Hrun.
      destruct (is_SyntaxError e); [|discriminate Hrun].
      injection Hrun as <-. reflexivity.
  - intros tree suggestions Hparse Hrun.
    rewrite (static_analysis_parsed w code file_path tree Hparse) in Hrun.
    injection Hrun as <-. rewrite length_app, nested_iteration_walk, length_map.
    rewrite <- (filter_length_perm _ _ _ (walk_nodes tree)).
    assert (Hinner : (List.length (filter has_inner_For (walk tree))
                      <= List.length (filter CodeOptimizer.is_For (walk tree)))%nat).
    { apply filter_length_implied. intros x Hx. unfold has_inner_For in Hx.
      apply andb_true_iff in Hx. apply Hx. }
    match goal with
    | |- context [if ?c then _ else _] => destruct c
    end; cbn [List.length]; lia.
  - intros e Hparse Hne. unfold CodeOptimizer._static_analysis. rewrite Hparse.
    destruct e; try reflexivity. contradiction.
Qed.

Lemma static_analysis_findings_witness :
  forallb (static_finding "eleven.py")
    [CodeOptimizer.concatenation_suggestion "eleven.py"] = true.
Proof.
  apply (proj1 (static_analysis_findings sample_text_world Samples.eleven_text
                  "eleven.py")).
  reflexivity.
Defined.

(** ** Classes (documentor.py) *)

Lemma function_info_name (w : World) (node : ast) (name : string)
  (info : Documentor.FunctionInfo) :
  Documentor.function_info w node name = Ok info -> Documentor.name info = name.
Proof.
  unfold Documentor.function_info. intros H.
  destruct (Documentor.get_docstring w node); [|discriminate H]. cbn [bind] in H.
  destruct (Documentor.args_of node); [|discriminate H]. cbn [bind] in H.
  destruct (mapM Documentor.arg_name a0); [|discriminate H]. cbn [bind] in H.
  injection H as <-. reflexivity.
Qed.

Lemma arg_names_return (args : list ast) :
  forallb (fun a => match a with arg _ _ => true | _ => false end) args = true ->
  exists names, mapM Documentor.arg_name args = Ok names.
Proof.
  induction args as [|a args IH]; intros H; [exists []; reflexivity|].
  cbn [forallb] in H. apply andb_true_iff in H. destruct H as [Ha Hargs].
  destruct (IH Hargs) as [names Hnames].
  destruct a; try discriminate Ha. cbn [mapM Documentor.arg_name bind].
  rewrite Hnames. eexists. reflexivity.
Qed.

Lemma extract_methods_names (w : World) (body : list ast) :
  forall methods methods',
    Documentor.extract_methods w body methods = Ok methods' ->
    map Documentor.name methods'
    = map Documentor.name methods ++ function_names body.
Proof.
  induction body as [|item body IH]; intros methods methods' H.
  - injection H as <-. cbn. rewrite app_nil_r. reflexivity.
  - cbn [Documentor.extract_methods] in H. unfold function_names. cbn [flat_map].
    fold (function_names body).
    destruct item; try (rewrite (IH _ _ H); reflexivity).
    destruct (Documentor.function_info w _ name) as [info|] eqn:Hinfo;
      [|discriminate H].
    cbn [bind] in H. rewrite (IH _ _ H), map_app. cbn [map].
    rewrite (function_info_name _ _ _ _ Hinfo), <- app_assoc. reflexivity.
Qed.

Lemma get_docstring_returns (w : World) (node : ast) (body : list ast) :
  Documentor.body_of node = Ok body ->
  exists doc, Documentor.get_docstring w node = Ok doc.
Proof.
  intros H. unfold Documentor.get_docstring. rewrite H. cbn [bind].
  repeat match goal with
         | |- context [match ?x with _ => _ end] => destruct x
         end; eexists; reflexivity.
Qed.

Lemma function_info_returns (w : World) (item : ast) (name : string) :
  is_FunctionDef item = true -> parsed_function item = true ->
  exists info, Documentor.function_info w item name = Ok info.
Proof.
  intros Hf Hp. destruct item; try discriminate Hf.
  match goal with
  | H : parsed_function (FunctionDef _ ?a _ _ _) = true |- _ =>
      destruct a; try discriminate H
  end.
  cbn [parsed_function] in Hp.
  destruct (arg_names_return _ Hp) as [names Hnames].
  unfold Documentor.function_info.
  match goal with
  | |- context [Documentor.get_docstring w ?n] =>
      destruct (get_docstring_returns w n _ eq_refl) as [doc ->]
  end.
  cbn [bind Documentor.args_of]. rewrite Hnames. eexists. reflexivity.
Qed.

Lemma extract_methods_return (w : World) (body : list ast) :
  forallb parsed_function body = true ->
  forall methods, exists methods',
    Documentor.extract_methods w body methods = Ok methods'.
Proof.
  induction body as [|item body IH]; intros H methods; [eexists; reflexivity|].
  cbn [forallb] in H. apply andb_true_iff in H. destruct H as [Hitem Hbody].
  cbn [Documentor.extract_methods].
  destruct (is_FunctionDef item) eqn:Hf.
  - destruct item; try discriminate Hf.
    match goal with
    | |- context [Documentor.function_info w ?n ?nm] =>
        destruct (function_info_returns w n nm Hf Hitem) as [info ->]
    end.
    cbn [bind]. apply (IH Hbody).
  - destruct item; try discriminate Hf; apply (IH Hbody).
Qed.

Lemma extract_classes_loop (w : World) (l : list ast) :
  forall classes classes',
    foldM (Documentor.extract_class w) classes l = Ok classes' ->
    exists new,
      classes' = classes ++ new
      /\ Forall2 (fun node info =>
                    Documentor.class_name info = class_name_of node
                    /\ map Documentor.name (Documentor.methods info)
                       = method_names_of node
                    /\ Documentor.get_docstring w node
                       = Ok (Documentor.class_docstring info))
           (filter Documentor.is_ClassDef l) new.
Proof.
  induction l as [|node l IH]; intros classes classes' H.
  - injection H as <-. exists []. rewrite app_nil_r. split; constructor.
  - cbn [foldM] in H.
    destruct (Documentor.extract_class w classes node) as [classes1|] eqn:H1;
      [|discriminate H].
    cbn [bind] in H. destruct (IH _ _ H) as [new [-> Hnew]].
    destruct node; cbn [filter Documentor.is_ClassDef];
      try (cbn in H1; injection H1 as <-; exists new; split; [reflexivity | exact Hnew]).
    cbn [Documentor.extract_class] in H1.
    destruct (Documentor.extract_methods w body []) as [methods|] eqn:Hm;
      [|discriminate H1].
    cbn [bind] in H1.
    destruct (Documentor.get_docstring w _) as [doc|] eqn:Hdoc; [|discriminate H1].
    cbn [bind] in H1. injection H1 as <-.
    eexists. split; [rewrite <- app_assoc; reflexivity|].
    constructor; [|exact Hnew].
    cbn [Documentor.class_name Documentor.methods Documentor.class_docstring
         class_name_of method_names_of].
    split; [reflexivity|]. split; [|exact Hdoc].
    apply (extract_methods_names _ _ _ _ Hm).
Qed.

Lemma extract_classes_loop_returns (w : World) (l : list ast) :
  forallb parsed_class l = true ->
  forall classes, exists classes',
    foldM (Documentor.extract_class w) classes l = Ok classes'.
Proof.
  induction l as [|node l IH]; intros H classes; [eexists; reflexivity|].
  cbn [forallb] in H. apply andb_true_iff in H. destruct H as [Hnode Hl].
  cbn [foldM].
  destruct (Documentor.is_ClassDef node) eqn:Hc.
  - destruct node; try discriminate Hc.
    cbn [parsed_class] in Hnode. cbn [Documentor.extract_class].
    match goal with
    | |- context [Documentor.extract_methods w ?b []] =>
        destruct (extract_methods_return w b Hnode []) as [methods ->]
    end.
    cbn [bind].
    match goal with
    | |- context [Documentor.get_docstring w ?n] =>
        destruct (get_docstring_returns w n _ eq_refl) as [doc ->]
    end.
    cbn [bind]. apply (IH Hl).
  - destruct node; try discriminate Hc; cbn [Documentor.extract_class bind];
      apply (IH Hl).
Qed.

(** X18: [_extract_classes] returns one entry for each class definition of
    the tree, nested or not, in the order of the walk, with the name of the
    class, its docstring, and the names of the functions defined directly in
    its body, in order; and it returns for every tree whose function nodes
    are as the parser builds them. *)
Theorem extract_classes_lists_classes (w : World) (tree : ast) :
  (forall classes : list Documentor.ClassInfo,
      Documentor._extract_classes w tree = Ok classes ->
      Forall2 (fun node info =>
                 Documentor.class_name info = class_name_of node
                 /\ map Documentor.name (Documentor.methods info)
                    = method_names_of node
                 /\ Documentor.get_docstring w node
                    = Ok (Documentor.class_docstring info))
        (filter Documentor.is_ClassDef (walk tree)) classes
      /\ List.length classes
         = List.length (filter Documentor.is_ClassDef (nodes tree)))
  /\ (forallb parsed_class (nodes tree) = true ->
      exists classes, Documentor._extract_classes w tree = Ok classes).
Proof.
  split.
  - intros classes H. unfold Documentor._extract_classes in H.
    destruct (extract_classes_loop w _ _ _ H) as [new [-> Hnew]]. cbn [app].
    split; [exact Hnew|].
    rewrite <- (Forall2_length Hnew). apply filter_length_perm, walk_nodes.
  - intros H. apply extract_classes_loop_returns.
    apply forallb_forall. intros x Hx.
    rewrite forallb_forall in H. apply H.
    apply (Permutation_in _ (walk_nodes tree)). exact Hx.
Qed.

Lemma extract_classes_lists_classes_witness :
  exists classes : list Documentor.ClassInfo,
    Documentor._extract_classes sample_offline_world sample_nested_classes = Ok classes
    /\ map (fun c => (Documentor.class_name c, Documentor.class_docstring c,
                      map Documentor.name (Documentor.methods c))) classes
       = [("Outer", Some "Outer doc.", ["run"]); ("Inner", None, ["ping"])].
Proof.
  destruct (proj2 (extract_classes_lists_classes sample_offline_world
                     sample_nested_classes) eq_refl) as [classes Hrun].
  exists classes. split; [exact Hrun|].
  vm_compute in Hrun. injection Hrun as <-. reflexivity.
Defined.

(** ** What ends a batch (analyzer.py) *)

Lemma kept_results_shaped (w : World) (self : CodeAnalyzer.t) (fs : list string) :
  (forall f r, CodeAnalyzer.analyze_file w self f = Ok r ->
               well_shaped_issues (CodeAnalyzer.issues_found r) = true) ->
  Forall (fun r => well_shaped_issues (CodeAnalyzer.issues_found r) = true)
    (flat_map (kept_result w self) fs).
Proof.
  intros H. apply Forall_forall. intros r Hr.
  apply in_flat_map in Hr. destruct Hr as [f [_ Hr]]. unfold kept_result in Hr.
  destruct (CodeAnalyzer.analyze_file w self f) as [r'|] eqn:Hf; [|contradiction].
  destruct Hr as [<-|[]]. apply (H f r' Hf).
Qed.

Lemma count_issues_raise (items : list value) :
  existsb (fun i => negb (is_dict i)) items = true ->
  forall t, exists e, foldM CodeAnalyzer.count_issue t items = Raise e.
Proof.
  induction items as [|i items IH]; intros H t; [discriminate H|].
  cbn [existsb] in H. cbn [foldM].
  destruct (CodeAnalyzer.count_issue t i) as [t1|e] eqn:Hi.
  - cbn [bind]. apply IH.
    destruct i; try (cbn in Hi; discriminate Hi). exact H.
  - exists e. reflexivity.
Qed.

Lemma count_results_raise (rs : list CodeAnalyzer.AnalysisResult) :
  (exists r items,
      In r rs /\ CodeAnalyzer.issues_found r = VList items
      /\ existsb (fun i => negb (is_dict i)) items = true) ->
  forall t, exists e, foldM CodeAnalyzer.count_result t rs = Raise e.
Proof.
  intros [r [items [Hin [Hitems Hbad]]]].
  induction rs as [|r0 rs IH]; intros t; [contradiction|].
  cbn [foldM].
  destruct (CodeAnalyzer.count_result t r0) as [t1|e] eqn:H0;
    [|exists e; reflexivity].
  cbn [bind]. destruct Hin as [->|Hin]; [|apply (IH Hin)].
  unfold CodeAnalyzer.count_result in H0. rewrite Hitems in H0. cbn [iter bind] in H0.
  destruct (count_issues_raise items Hbad t) as [e He]. congruence.
Qed.

(** X19: what a file does never ends [analyze_directory]: with texts as
    the patterns to exclude, it returns a report whenever the issues of
    every result are a list of dictionaries with a severity that can be a
    key, even if files cannot be read or replies are malformed.  The
    summary can end it: a result whose issues hold something other than a
    dictionary makes the whole call raise. *)
Theorem analyze_directory_ends (w : World) (self : CodeAnalyzer.t)
  (directory : string) (patterns : list string) :
  Config.get (CodeAnalyzer.config self) "analysis.exclude" (VList [])
  = VList (map VStr patterns) ->
  ((forall f r, CodeAnalyzer.analyze_file w self f = Ok r ->
                well_shaped_issues (CodeAnalyzer.issues_found r) = true) ->
   exists report, CodeAnalyzer.analyze_directory w self directory = Ok report)
  /\ (forall (f : string) (r : CodeAnalyzer.AnalysisResult) (items : list value),
         In f (rglob_py w directory) -> not_excluded_by patterns f = true ->
         CodeAnalyzer.analyze_file w self f = Ok r ->
         CodeAnalyzer.issues_found r = VList items ->
         existsb (fun i => negb (is_dict i)) items = true ->
         exists e, CodeAnalyzer.analyze_directory w self directory = Raise e).
Proof.
  intros Hpatterns. unfold CodeAnalyzer.analyze_directory.
  rewrite Hpatterns, filter_files_strings. cbn [bind].
  rewrite analyze_files_kept. cbn [app]. split.
  - intros Hshape.
    pose proof (kept_results_shaped w self
                  (filter (not_excluded_by patterns) (rglob_py w directory)) Hshape)
      as Hall.
    destruct (generate_summary_returns w _ Hall) as [s ->].
    destruct (issue_counts_return _ Hall) as [lens ->].
    eexists. reflexivity.
  - intros f r items Hf Hkeep Hr Hitems Hbad.
    assert (Hin : In r (flat_map (kept_result w self)
                          (filter (not_excluded_by patterns) (rglob_py w directory)))).
    { apply in_flat_map. exists f. split; [apply filter_In; split; assumption|].
      unfold kept_result. rewrite Hr. left. reflexivity. }
    unfold CodeAnalyzer._generate_summary.
    destruct (flat_map (kept_result w self)
                (filter (not_excluded_by patterns) (rglob_py w directory)))
      as [|r0 rs] eqn:Hrs; [contradiction|].
    destruct (count_results_raise (r0 :: rs)
                (ex_intro _ r (ex_intro _ items (conj Hin (conj Hitems Hbad)))) [])
      as [e ->].
    exists e. reflexivity.
Qed.

Lemma analyze_directory_ends_witness :
  (exists report,
      CodeAnalyzer.analyze_directory sample_unreadable_world
        (CodeAnalyzer.init sample_unreadable_world Samples.no_config) "src"
      = Ok report)
  /\ (exists e,
         CodeAnalyzer.analyze_directory sample_text_issues_world
           (CodeAnalyzer.init sample_text_issues_world Samples.no_config) "src"
         = Raise e).
Proof.
  split.
  - apply (proj1 (analyze_directory_ends sample_unreadable_world
                    (CodeAnalyzer.init sample_unreadable_world Samples.no_config)
                    "src" [] eq_refl)).
    intros f r Hr.
    unfold CodeAnalyzer.analyze_file in Hr.
    destruct (read_text sample_unreadable_world f) as [code'|]; [|discriminate Hr].
    cbn [bind] in Hr.
    destruct (try_except_SyntaxError _ _) as [c|]; [|discriminate Hr].
    cbn [bind] in Hr. change (CodeAnalyzer._analyze_with_ai sample_unreadable_world
                                (CodeAnalyzer.init sample_unreadable_world
                                   Samples.no_config) code' f)
      with (Ok CodeAnalyzer.analysis_default) in Hr.
    cbn in Hr. injection Hr as <-. reflexivity.
  - destruct (CodeAnalyzer.analyze_file sample_text_issues_world
                (CodeAnalyzer.init sample_text_issues_world Samples.no_config)
                "good.py") as [r|e] eqn:Hr; [|vm_compute in Hr; discriminate Hr].
    apply (proj2 (analyze_directory_ends sample_text_issues_world
                    (CodeAnalyzer.init sample_text_issues_world Samples.no_config)
                    "src" [] eq_refl)
             "good.py" r [VStr "line 3 is too long"]).
    + left. reflexivity.
    + reflexivity.
    + exact Hr.
    + vm_compute in Hr. injection Hr as <-. reflexivity.
    + reflexivity.
Defined.

(** ** The innermost loop (optimizer.py) *)

Lemma nodes_transitive (t : ast) :
  forall c x, In c (nodes t) -> In x (nodes c) -> In x (nodes t).
Proof.
  remember (size t) as k eqn:Hk. revert t Hk.
  induction k as [k IH] using lt_wf_ind. intros t Hk c x Hc Hx.
  rewrite nodes_children in Hc. destruct Hc as [<-|Hc]; [exact Hx|].
  apply in_flat_map in Hc. destruct Hc as [child [Hchild Hc]].
  rewrite nodes_children. right. apply in_flat_map. exists child.
  split; [exact Hchild|].
  apply (IH (size child)) with (c := c); [|reflexivity | exact Hc | exact Hx].
  pose proof (child_smaller t child Hchild). lia.
Qed.

Lemma smallest_node (l : list ast) :
  l <> [] -> exists m, In m l /\ forall x, In x l -> (size m <= size x)%nat.
Proof.
  induction l as [|a l IH]; [contradiction|]. intros _.
  destruct l as [|b l].
  - exists a. split; [left; reflexivity|]. intros x [<-|[]]. lia.
  - destruct IH as [m [Hm Hmin]]; [discriminate|].
    destruct (Nat.le_gt_cases (size a) (size m)).
    + exists a. split; [left; reflexivity|].
      intros x [<-|Hx]; [lia|]. specialize (Hmin x Hx). lia.
    + exists m. split; [right; exact Hm|].
      intros x [<-|Hx]; [lia | apply (Hmin x Hx)].
Qed.

Lemma filter_length_strict {A : Type} (f g : A -> bool) (l : list A) (m : A) :
  (forall x, f x = true -> g x = true) ->
  In m l -> g m = true -> f m = false ->
  (List.length (filter f l) < List.length (filter g l))%nat.
Proof.
  intros Hfg. induction l as [|x l IH]; [contradiction|].
  intros [->|Hm] Hg Hf; cbn [filter].
  - rewrite Hg, Hf. cbn [List.length].
    pose proof (filter_length_implied f g l Hfg). lia.
  - specialize (IH Hm Hg Hf). destruct (f x) eqn:Hfx.
    + rewrite (Hfg x Hfx). cbn [List.length]. lia.
    + destruct (g x); cbn [List.length]; lia.
Qed.

(** X20: a tree with n [for] loops, n >= 1, yields at most n - 1
    nested-loop findings, since a smallest loop has no loop inside it; so a
    tree with a single [for] loop yields none. *)
Theorem innermost_loop_not_reported (file_path : string) (tree : ast) :
  (List.length (CodeOptimizer.detectNestedIteration file_path tree [])
   <= List.length (filter CodeOptimizer.is_For (nodes tree)) - 1)%nat
  /\ (List.length (filter CodeOptimizer.is_For (nodes tree)) = 1%nat ->
      CodeOptimizer.detectNestedIteration file_path tree [] = []).
Proof.
  assert (Hbound :
            (List.length (CodeOptimizer.detectNestedIteration file_path tree [])
             <= List.length (filter CodeOptimizer.is_For (nodes tree)) - 1)%nat).
  { rewrite nested_iteration_walk, length_map.
    rewrite <- (filter_length_perm _ _ _ (walk_nodes tree)).
    assert (Himplied : forall x, has_inner_For x = true -> CodeOptimizer.is_For x = true)
      by (intros x Hx; unfold has_inner_For in Hx; apply andb_true_iff in Hx; apply Hx).
    destruct (filter CodeOptimizer.is_For (walk tree)) as [|L0 Ls] eqn:Hfors.
    - pose proof (filter_length_implied has_inner_For CodeOptimizer.is_For
                    (walk tree) Himplied) as Hle.
      rewrite Hfors in Hle. cbn [List.length] in *. lia.
    - destruct (smallest_node (L0 :: Ls)) as [m [Hm Hmin]]; [discriminate|].
      rewrite <- Hfors in Hm, Hmin. apply filter_In in Hm. destruct Hm as [Hm HmFor].
      assert (Hnone : has_inner_For m = false).
      { destruct (has_inner_For m) eqn:Hinner; [|reflexivity]. exfalso.
        unfold has_inner_For in Hinner. apply andb_true_iff in Hinner.
        destruct Hinner as [_ Hinner]. apply existsb_exists in Hinner.
        destruct Hinner as [x [Hx HxFor]].
        destruct (walk_tail_below m x Hx) as [Hsmaller _].
        assert (Hxm : In x (nodes m)).
        { apply (Permutation_in _ (walk_nodes m)). rewrite walk_head. right. exact Hx. }
        assert (Hxt : In x (walk tree)).
        { apply (Permutation_in _ (Permutation_sym (walk_nodes tree))).
          apply (nodes_transitive tree m x); [|exact Hxm].
          apply (Permutation_in _ (walk_nodes tree)). exact Hm. }
        assert (Hle : (size m <= size x)%nat)
          by (apply Hmin; apply filter_In; split; assumption).
        lia. }
      pose proof (filter_length_strict has_inner_For CodeOptimizer.is_For (walk tree) m
                    Himplied Hm HmFor Hnone) as Hlt.
      rewrite Hfors in *. cbn [List.length] in *. lia. }
  split; [exact Hbound|].
  intros Hone. rewrite Hone in Hbound.
  destruct (CodeOptimizer.detectNestedIteration file_path tree []); [reflexivity|].
  cbn [List.length] in Hbound. lia.
Qed.

Lemma innermost_loop_not_reported_witness :
  CodeOptimizer.detectNestedIteration "app.py" Samples.loop_j [] = [].
Proof.
  apply (proj2 (innermost_loop_not_reported "app.py" Samples.loop_j)). reflexivity.
Defined.

(** ** Severities the score does not know (reviewer.py) *)

Lemma tier_weight_unknown (s : value) :
  eq_str s "critical" = false -> eq_str s "medium" = false ->
  eq_str s "low" = false -> Spec.tier_weight s = 0%Q.
Proof. unfold Spec.tier_weight. intros -> -> ->. reflexivity. Qed.

(** X21: an issue whose severity is none of critical, medium and low, such
    as high, or that has no severity, leaves the score as it is without the
    issue. *)
Theorem unknown_severity_costs_nothing (review review' : dict) (issue : dict)
  (issues : list value) :
  dict_get review "issues" (VList []) = VList issues ->
  dict_get review' "issues" (VList []) = VList (VDict issue :: issues) ->
  dict_get review' "suggestions" VNone = dict_get review "suggestions" VNone ->
  forallb is_dict issues = true ->
  eq_str (dict_get issue "severity" VNone) "critical" = false ->
  eq_str (dict_get issue "severity" VNone) "medium" = false ->
  eq_str (dict_get issue "severity" VNone) "low" = false ->
  exists score : Z,
    CodeReviewer._calculate_score (VDict review) = Ok score
    /\ CodeReviewer._calculate_score (VDict review') = Ok score.
Proof.
  intros Hissues Hissues' Hsame Hdicts Hc Hm Hl.
  eexists. split; [apply (calculate_score_refines _ _ Hissues Hdicts)|].
  rewrite (calculate_score_refines review' (VDict issue :: issues) Hissues')
    by (cbn [forallb is_dict]; exact Hdicts).
  rewrite Hsame. f_equal. unfold Spec.computeReviewScore. f_equal.
  apply truncate_comp. cbn [map]. rewrite raw_score_cons.
  cbn [severity_of]. rewrite (tier_weight_unknown _ Hc Hm Hl). ring.
Qed.

Lemma unknown_severity_costs_nothing_witness :
  exists score : Z,
    CodeReviewer._calculate_score
      (VDict [("issues", VList [VDict [("severity", VStr "low")]])]) = Ok score
    /\ CodeReviewer._calculate_score
         (VDict [("issues", VList [VDict [("severity", VStr "high")];
                                   VDict [("severity", VStr "low")]])]) = Ok score.
Proof.
  apply (unknown_severity_costs_nothing
           [("issues", VList [VDict [("severity", VStr "low")]])]
           [("issues", VList [VDict [("severity", VStr "high")];
                              VDict [("severity", VStr "low")]])]
           [("severity", VStr "high")]
           [VDict [("severity", VStr "low")]]);
    reflexivity.
Defined.

(** ** Dotted keys (config.py) *)

Lemma split_on_without (sep : ascii) (s : string) :
  contains (String sep EmptyString) s = false -> split_on sep s = [s].
Proof.
  induction s as [|c s IH]; [reflexivity|].
  rewrite contains_char_cons. cbn [split_on].
  destruct (Ascii.eqb c sep); [discriminate|].
  intros H. rewrite (IH H). reflexivity.
Qed.

Lemma split_on_first (sep : ascii) (s : string) :
  contains (String sep EmptyString) s = true ->
  exists w ws, split_on sep s = w :: ws /\ w <> s.
Proof.
  induction s as [|c s IH]; [discriminate|].
  rewrite contains_char_cons. cbn [split_on].
  destruct (Ascii.eqb c sep).
  - intros _. eexists. eexists. split; [reflexivity | discriminate].
  - intros H. destruct (IH H) as [w [ws [-> Hw]]].
    eexists. eexists. split; [reflexivity|]. intros Heq. injection Heq as Heq.
    contradiction.
Qed.

Lemma contains_char_app (sep : ascii) (s rest : string) :
  contains (String sep EmptyString) (s ++ String sep rest)%string = true.
Proof.
  induction s as [|c s IH]; cbn [append]; rewrite contains_char_cons.
  - rewrite Ascii.eqb_refl. reflexivity.
  - rewrite IH. destruct (Ascii.eqb c sep); reflexivity.
Qed.

(** A text with no separator in it, a separator and a rest: the text is
    the first part of the split. *)
Lemma split_on_dotted (sep : ascii) (s rest : string) :
  contains (String sep EmptyString) s = false ->
  split_on sep (s ++ String sep rest)%string = s :: split_on sep rest.
Proof.
  induction s as [|c s IH]; cbn [append split_on].
  - intros _. rewrite Ascii.eqb_refl. reflexivity.
  - rewrite contains_char_cons.
    destruct (Ascii.eqb c sep); [discriminate|].
    intros H. rewrite (IH H). reflexivity.
Qed.





(** X22: [get] with a key that has no dot in it is the lookup of the key
    at the top of the configuration.  An entry at the top whose name has a
    dot in it is never what [get] reads under that name, in any
    configuration: the name is split at the dot and its first part is
    looked up, so [get] returns what it returns without the entry, and the
    default when the first part names no entry. *)
Theorem config_get_dots (d : dict) (key : string) (default : value) :
  (contains "." key = false ->
   Config.get {| Config.config := VDict d |} key default = dict_get d key default)
  /\ (contains "." key = true ->
      forall v, Config.get {| Config.config := VDict (dict_set d key v) |} key default
                = Config.get {| Config.config := VDict d |} key default)
  /\ (forall (first rest : string) (v : value),
         key = (first ++ "." ++ rest)%string ->
         contains "." first = false ->
         lookup first d = None ->
         Config.get {| Config.config := VDict (dict_set d key v) |} key default
         = default).
Proof.
  assert (Hskip : contains "." key = true ->
                  forall v, Config.get {| Config.config := VDict (dict_set d key v) |}
                              key default
                            = Config.get {| Config.config := VDict d |} key default).
  { intros H v. unfold Config.get. cbn [Config.config].
    destruct (split_on_first _ _ H) as [w [ws [-> Hw]]].
    cbn [Config.get_path]. rewrite (lookup_dict_set_other _ _ _ _ Hw). reflexivity. }
  split; [|split; [exact Hskip|]].
  - intros H. unfold Config.get. cbn [Config.config].
    rewrite (split_on_without _ _ H). reflexivity.
  - intros first rest v -> Hfirst Hnone.
    rewrite Hskip by apply (contains_char_app "." first rest).
    unfold Config.get. cbn [Config.config].
    change (first ++ "." ++ rest)%string with (first ++ String "." rest)%string.
    rewrite (split_on_dotted _ _ _ Hfirst). cbn [Config.get_path].
    rewrite Hnone. reflexivity.
Qed.

Lemma config_get_dots_witness :
  Config.get {| Config.config := VDict [("timeout", VInt 60)] |} "timeout" VNone
  = VInt 60
  /\ Config.get
       {| Config.config :=
            VDict [("github", VDict [("token", VStr "nested")]);
                   ("github.token", VStr "ghp_sample")] |}
       "github.token" VNone
     = VStr "nested"
  /\ Config.get {| Config.config := VDict [("github.token", VStr "ghp_sample")] |}
       "github.token" VNone
     = VNone.
Proof.
  split; [|split].
  - apply (proj1 (config_get_dots [("timeout", VInt 60)] "timeout" VNone)).
    reflexivity.
  - apply (proj1 (proj2 (config_get_dots
                           [("github", VDict [("token", VStr "nested")])]
                           "github.token" VNone)) eq_refl (VStr "ghp_sample")).
  - apply (proj2 (proj2 (config_get_dots [] "github.token" VNone))
             "github" "token" (VStr "ghp_sample")); reflexivity.
Defined.

(** ** The order of the walk *)

Lemma walk_loop_front (l : list ast) :
  forall fuel l',
    (sizes (l ++ l') <= fuel)%nat ->
    walk_loop fuel (l ++ l')
    = l ++ walk_loop (fuel - List.length l) (l' ++ flat_map iter_child_nodes l).
Proof.
  induction l as [|a l IH]; intros fuel l' Hfuel.
  - cbn [app flat_map List.length]. rewrite Nat.sub_0_r, app_nil_r. reflexivity.
  - rewrite <- app_comm_cons, sizes_cons, size_children in Hfuel.
    destruct fuel as [|fuel]; [lia|].
    cbn [app walk_loop flat_map List.length Nat.sub]. f_equal.
    rewrite <- app_assoc, IH.
    + rewrite <- app_assoc. reflexivity.
    + rewrite !sizes_app in *. lia.
Qed.

(** The walk yields the root, then the children of the root in order, then
    everything below them. *)
Lemma walk_children_first (tree : ast) :
  exists below, walk tree = tree :: iter_child_nodes tree ++ below.
Proof.
  pose proof (walk_loop_front (iter_child_nodes tree)
                (sizes (iter_child_nodes tree)) []) as Hfront.
  rewrite !app_nil_r in Hfront. specialize (Hfront (Nat.le_refl _)).
  unfold walk. rewrite size_children. cbn [walk_loop app]. rewrite Hfront.
  eexists. reflexivity.
Qed.

Lemma class_entries_names (w : World) (l : list ast)
  (classes : list Documentor.ClassInfo) :
  Forall2 (fun node info =>
             Documentor.class_name info = class_name_of node
             /\ map Documentor.name (Documentor.methods info) = method_names_of node
             /\ Documentor.get_docstring w node = Ok (Documentor.class_docstring info))
    l classes ->
  map Documentor.class_name classes = map class_name_of l.
Proof.
  induction 1 as [|node info l classes [Hname _] _ IH]; [reflexivity|].
  cbn [map]. rewrite Hname, IH. reflexivity.
Qed.

(** X23: the classes defined at the top of a module come first in the
    list [_extract_classes] returns, in the order of the source; the classes
    defined inside classes or functions follow them. *)
Theorem top_level_classes_first (w : World) (body : list ast)
  (classes : list Documentor.ClassInfo) :
  Documentor._extract_classes w (Module body) = Ok classes ->
  exists nested : list string,
    map Documentor.class_name classes
    = map class_name_of (filter Documentor.is_ClassDef body) ++ nested.
Proof.
  intros Hrun. unfold Documentor._extract_classes in Hrun.
  destruct (extract_classes_loop w _ _ _ Hrun) as [new [-> Hnew]]. cbn [app].
  rewrite (class_entries_names w _ _ Hnew).
  destruct (walk_children_first (Module body)) as [below ->].
  cbn [iter_child_nodes filter Documentor.is_ClassDef].
  rewrite filter_app, map_app. eexists. reflexivity.
Qed.

Lemma top_level_classes_first_witness :
  exists (classes : list Documentor.ClassInfo) (nested : list string),
    Documentor._extract_classes sample_offline_world sample_nested_classes = Ok classes
    /\ map Documentor.class_name classes = ["Outer"] ++ nested.
Proof.
  destruct (Documentor._extract_classes sample_offline_world sample_nested_classes)
    as [classes|e] eqn:Hrun; [|vm_compute in Hrun; discriminate Hrun].
  destruct (top_level_classes_first sample_offline_world _ classes Hrun)
    as [nested Hnames].
  exists classes, nested. split; [reflexivity | exact Hnames].
Defined.
